(** * Event Locator: a shallow embedding of the event store, the search
    orchestration and the request validation, with the properties of the
    design document checked against it.

    Layout: the JavaScript values and coercions the sources rely on, the
    relational store and the SQL statements the models issue, the models
    ([User], [Event]), the validation chains, the services and controllers;
    then the lemmas and theorems. *)

From Stdlib Require Import ZArith QArith Qround Qabs List String Ascii Bool.
From Stdlib Require Import DecimalString Lia Lra Sorted Permutation.
Import ListNotations.

Local Open Scope string_scope.
Local Open Scope Z_scope.

(* ===================================================================== *)
(** ** JavaScript numbers, truthiness and the string coercions           *)
(* ===================================================================== *)

Module Js.

(** A JavaScript number: [NaN] or a finite value.  Finite doubles are kept as
    exact rationals; rounding, the infinities and negative zero are outside
    the model, and white space is the ASCII one. *)
Inductive jsnum : Type :=
| NaN
| Fin (q : Q).

Definition isNaN (n : jsnum) : bool :=
  match n with NaN => true | Fin _ => false end.

(** ToBoolean on numbers: [NaN] and [0] are falsy. *)
Definition truthy_num (n : jsnum) : bool :=
  match n with NaN => false | Fin q => negb (Qeq_bool q 0) end.

(** ToBoolean on strings: only the empty string is falsy. *)
Definition truthy_str (s : string) : bool :=
  match s with EmptyString => false | String _ _ => true end.

(** [a || b] on numbers. *)
Definition or_num (a : jsnum) (b : jsnum) : jsnum :=
  if truthy_num a then a else b.

(** [n || d] where [d] is a non-zero numeric literal: the result is a finite
    number. *)
Definition or_default (n : jsnum) (d : Q) : Q :=
  match n with
  | Fin q => if Qeq_bool q 0 then d else q
  | NaN => d
  end.

(** Relational operators: every comparison with [NaN] is false. *)
Definition ge (a b : jsnum) : bool :=
  match a, b with Fin x, Fin y => Qle_bool y x | _, _ => false end.

Definition le (a b : jsnum) : bool :=
  match a, b with Fin x, Fin y => Qle_bool x y | _, _ => false end.

(** *** Reading numbers out of strings *)

Definition is_ws (c : ascii) : bool :=
  match nat_of_ascii c with
  | 9%nat | 10%nat | 11%nat | 12%nat | 13%nat | 32%nat => true
  | _ => false
  end.

Fixpoint skip_ws (s : string) : string :=
  match s with
  | String c r => if is_ws c then skip_ws r else s
  | EmptyString => s
  end.

Definition all_ws (s : string) : bool :=
  match skip_ws s with EmptyString => true | _ => false end.

Definition digit (c : ascii) : option Z :=
  let n := Z.of_nat (nat_of_ascii c) in
  if (48 <=? n) && (n <=? 57) then Some (n - 48) else None.

Definition hex_digit (c : ascii) : option Z :=
  let n := Z.of_nat (nat_of_ascii c) in
  if (48 <=? n) && (n <=? 57) then Some (n - 48)
  else if (97 <=? n) && (n <=? 102) then Some (n - 87)
  else if (65 <=? n) && (n <=? 70) then Some (n - 55)
  else None.

(** Longest run of digits in base [base]: its value, its length, the rest. *)
Fixpoint read_digits (dig : ascii -> option Z) (base : Z) (s : string)
         (acc : Z) (cnt : nat) : Z * nat * string :=
  match s with
  | String c r =>
      match dig c with
      | Some d => read_digits dig base r (base * acc + d) (S cnt)
      | None => (acc, cnt, s)
      end
  | EmptyString => (acc, cnt, s)
  end.

Definition read_sign (s : string) : bool * string :=
  match s with
  | String "-" r => (true, r)
  | String "+" r => (false, r)
  | _ => (false, s)
  end.

Definition is_e (c : ascii) : bool :=
  match c with "e"%char | "E"%char => true | _ => false end.

(** An exponent part counts only when at least one digit follows. *)
Definition read_exponent (s : string) : Z * string :=
  match s with
  | String c r =>
      if is_e c then
        let '(neg, r1) := read_sign r in
        let '(e, n, r2) := read_digits digit 10 r1 0 0%nat in
        match n with
        | O => (0, s)
        | S _ => (if neg then - e else e, r2)
        end
      else (0, s)
  | EmptyString => (0, s)
  end.

Definition pow10 (e : Z) : Q :=
  if 0 <=? e then inject_Z (10 ^ e) else (1 / inject_Z (10 ^ (- e)))%Q.

(** The longest prefix that is an unsigned decimal literal
    ([digits], [digits.digits], [.digits], each with an optional exponent). *)
Definition read_decimal (s : string) : option (Q * string) :=
  let '(ip, ni, r1) := read_digits digit 10 s 0 0%nat in
  let '(fp, nf, r2) :=
    match r1 with
    | String "." r => read_digits digit 10 r 0 0%nat
    | _ => (0, 0%nat, r1)
    end in
  match (ni + nf)%nat with
  | O => None
  | S _ =>
      let '(e, r3) := read_exponent r2 in
      let scale := 10 ^ Z.of_nat nf in
      Some (Qred ((inject_Z (ip * scale + fp) / inject_Z scale) * pow10 e), r3)
  end.

Definition signed (neg : bool) (q : Q) : Q := if neg then Qred (- q) else q.

(** [parseFloat(string)]: leading white space, a sign, the longest decimal
    literal; anything else is [NaN]. *)
Definition parseFloat_str (s : string) : jsnum :=
  let '(neg, r) := read_sign (skip_ws s) in
  match read_decimal r with
  | Some (q, _) => Fin (signed neg q)
  | None => NaN
  end.

(** [parseFloat(v)] for a value that may be [undefined]. *)
Definition parseFloat (v : option string) : jsnum :=
  match v with Some s => parseFloat_str s | None => NaN end.

Definition is_x (c : ascii) : bool :=
  match c with "x"%char | "X"%char => true | _ => false end.

(** [parseInt(string)] without a radix: white space, a sign, then a [0x]
    prefix selects base 16; the longest run of digits; none is [NaN]
    ([None]). *)
Definition parseInt_Z (s : string) : option Z :=
  let '(neg, r) := read_sign (skip_ws s) in
  let '(v, n, _) :=
    match r with
    | String "0" (String c r') =>
        if is_x c then read_digits hex_digit 16 r' 0 0%nat
        else read_digits digit 10 r 0 0%nat
    | _ => read_digits digit 10 r 0 0%nat
    end in
  match n with
  | O => None
  | S _ => Some (if neg then - v else v)
  end.

Definition of_int (z : option Z) : jsnum :=
  match z with Some n => Fin (inject_Z n) | None => NaN end.

Definition parseInt_str (s : string) : jsnum := of_int (parseInt_Z s).

Definition parseInt (v : option string) : jsnum :=
  match v with Some s => parseInt_str s | None => NaN end.

(** [parseInt(v) || d] for a non-zero integer literal [d]. *)
Definition parseInt_or (v : option string) (d : Z) : Z :=
  match v with
  | Some s =>
      match parseInt_Z s with
      | Some n => if n =? 0 then d else n
      | None => d
      end
  | None => d
  end.

(** [Number(string)]: the whole string, white space trimmed, has to be a
    numeric literal; the empty string is [0].  Decimal and hexadecimal
    literals are modelled. *)
Definition Number (s : string) : jsnum :=
  let s1 := skip_ws s in
  match s1 with
  | EmptyString => Fin 0
  | String "0" (String c r') =>
      if is_x c then
        let '(v, n, rest) := read_digits hex_digit 16 r' 0 0%nat in
        match n with
        | O => NaN
        | S _ => if all_ws rest then Fin (inject_Z v) else NaN
        end
      else
        match read_decimal s1 with
        | Some (q, rest) => if all_ws rest then Fin q else NaN
        | None => NaN
        end
  | _ =>
      let '(neg, r) := read_sign s1 in
      match read_decimal r with
      | Some (q, rest) => if all_ws rest then Fin (signed neg q) else NaN
      | None => NaN
      end
  end.

(** [Math.ceil(total / limit)] on integers: the quotient of a division by
    zero is not a finite number ([None]). *)
Definition ceil_div (total limit : Z) : option Z :=
  if limit =? 0 then None else Some (- ((- total) / limit)).

End Js.

(* ===================================================================== *)
(** ** The relational store                                              *)
(* ===================================================================== *)

(** Decidable (syntactic) equality on the column types. *)
Definition Q_eq_dec (a b : Q) : {a = b} + {a <> b}.
Proof. decide equality; [apply Pos.eq_dec | apply Z.eq_dec]. Defined.

Definition option_eq_dec {A} (dec : forall a b : A, {a = b} + {a <> b})
  (x y : option A) : {x = y} + {x <> y}.
Proof. decide equality. Defined.

(** A [geography(Point, 4326)] value.  [ST_MakePoint(x, y)] takes the
    longitude first. *)
Record geography : Type := { latitude : Q; longitude : Q }.

Definition ST_MakePoint (x y : Q) : geography :=
  {| latitude := y; longitude := x |}.

Definition geography_eq_dec (a b : geography) : {a = b} + {a <> b}.
Proof. decide equality; apply Q_eq_dec. Defined.

(** The value stored by [bcrypt.hash(password, cost)], kept symbolic. *)
Inductive password_hash : Type :=
| bcrypt_hash (password : string) (cost : Z).

Module Users.
Record row : Type := {
  id : Z;
  username : string;
  email : string;
  password : password_hash;
  full_name : option string;
  location : option geography;
  preferred_language : string;
  created_at : Z;
  updated_at : Z
}.
End Users.

Module Events.
Record row : Type := {
  id : Z;
  title : string;
  description : option string;
  location : geography;
  address : option string;
  start_time : Z;
  end_time : option Z;
  creator_id : option Z;
  created_at : Z;
  updated_at : Z
}.

Definition eq_dec (a b : row) : {a = b} + {a <> b}.
Proof.
  decide equality;
    try apply Z.eq_dec; try apply string_dec; try apply geography_eq_dec;
    try (apply option_eq_dec; first [apply Z.eq_dec | apply string_dec]).
Defined.
End Events.

Module Categories.
Record row : Type := { id : Z; name : string }.
End Categories.

Module EventCategories.
Record row : Type := { event_id : Z; category_id : Z }.
End EventCategories.

Module UserPreferredCategories.
Record row : Type := { user_id : Z; category_id : Z }.
End UserPreferredCategories.

Module EventReviews.
Record row : Type := {
  id : Z;
  event_id : Z;
  user_id : Z;
  rating : Z;
  review : option string;
  created_at : Z;
  updated_at : Z
}.
End EventReviews.

Module UserFavoriteEvents.
Record row : Type := { user_id : Z; event_id : Z; created_at : Z }.
End UserFavoriteEvents.

Module Db.

(** The tables, the serial sequences behind the [id] columns and the clock
    read by [CURRENT_TIMESTAMP]. *)
Record store : Type := {
  users : list Users.row;
  events : list Events.row;
  categories : list Categories.row;
  event_categories : list EventCategories.row;
  event_reviews : list EventReviews.row;
  user_favorite_events : list UserFavoriteEvents.row;
  user_preferred_categories : list UserPreferredCategories.row;
  users_id_seq : Z;
  events_id_seq : Z;
  event_reviews_id_seq : Z;
  now : Z
}.

Definition with_users (db : store) (l : list Users.row) (seq : Z) : store :=
  {| users := l; events := events db; categories := categories db;
     event_categories := event_categories db;
     event_reviews := event_reviews db;
     user_favorite_events := user_favorite_events db;
     user_preferred_categories := user_preferred_categories db;
     users_id_seq := seq; events_id_seq := events_id_seq db;
     event_reviews_id_seq := event_reviews_id_seq db; now := now db |}.

Definition with_events (db : store) (l : list Events.row) (seq : Z) : store :=
  {| users := users db; events := l; categories := categories db;
     event_categories := event_categories db;
     event_reviews := event_reviews db;
     user_favorite_events := user_favorite_events db;
     user_preferred_categories := user_preferred_categories db;
     users_id_seq := users_id_seq db; events_id_seq := seq;
     event_reviews_id_seq := event_reviews_id_seq db; now := now db |}.

Definition with_event_categories (db : store)
  (l : list EventCategories.row) : store :=
  {| users := users db; events := events db; categories := categories db;
     event_categories := l;
     event_reviews := event_reviews db;
     user_favorite_events := user_favorite_events db;
     user_preferred_categories := user_preferred_categories db;
     users_id_seq := users_id_seq db; events_id_seq := events_id_seq db;
     event_reviews_id_seq := event_reviews_id_seq db; now := now db |}.

Definition with_event_reviews (db : store) (l : list EventReviews.row)
  (seq : Z) : store :=
  {| users := users db; events := events db; categories := categories db;
     event_categories := event_categories db;
     event_reviews := l;
     user_favorite_events := user_favorite_events db;
     user_preferred_categories := user_preferred_categories db;
     users_id_seq := users_id_seq db; events_id_seq := events_id_seq db;
     event_reviews_id_seq := seq; now := now db |}.

Definition with_user_favorite_events (db : store)
  (l : list UserFavoriteEvents.row) : store :=
  {| users := users db; events := events db; categories := categories db;
     event_categories := event_categories db;
     event_reviews := event_reviews db;
     user_favorite_events := l;
     user_preferred_categories := user_preferred_categories db;
     users_id_seq := users_id_seq db; events_id_seq := events_id_seq db;
     event_reviews_id_seq := event_reviews_id_seq db; now := now db |}.

Definition with_user_preferred_categories (db : store)
  (l : list UserPreferredCategories.row) : store :=
  {| users := users db; events := events db; categories := categories db;
     event_categories := event_categories db;
     event_reviews := event_reviews db;
     user_favorite_events := user_favorite_events db;
     user_preferred_categories := l;
     users_id_seq := users_id_seq db; events_id_seq := events_id_seq db;
     event_reviews_id_seq := event_reviews_id_seq db; now := now db |}.

(** A statement either yields a value or raises a database error carrying
    its SQLSTATE code. *)
Inductive outcome (A : Type) : Type :=
| Ok (a : A)
| Raise (code : string).
Arguments Ok {A} a.
Arguments Raise {A} code.

Definition unique_violation : string := "23505".
Definition foreign_key_violation : string := "23503".
Definition not_null_violation : string := "23502".
Definition undefined_column : string := "42703".
Definition invalid_row_count_in_limit : string := "2201W".
Definition invalid_row_count_in_offset : string := "2201X".

(** Code that runs against the store: a result or an error, and the store
    afterwards. *)
Definition M (A : Type) : Type := store -> outcome A * store.

Definition ret {A} (a : A) : M A := fun db => (Ok a, db).

Definition raise {A} (code : string) : M A := fun db => (Raise code, db).

Definition bind {A B} (m : M A) (k : A -> M B) : M B :=
  fun db =>
    match m db with
    | (Ok a, db') => k a db'
    | (Raise c, db') => (Raise c, db')
    end.

(** A read-only query. *)
Definition query {A} (q : store -> A) : M A := fun db => (Ok (q db), db).

(** [ROLLBACK]: the tables go back to their state at [BEGIN]; values drawn
    from the sequences are not given back. *)
Definition rollback (before after : store) : store :=
  {| users := users before; events := events before;
     categories := categories before;
     event_categories := event_categories before;
     event_reviews := event_reviews before;
     user_favorite_events := user_favorite_events before;
     user_preferred_categories := user_preferred_categories before;
     users_id_seq := users_id_seq after;
     events_id_seq := events_id_seq after;
     event_reviews_id_seq := event_reviews_id_seq after;
     now := now before |}.

(** [BEGIN; body; COMMIT], with [ROLLBACK] and a rethrow in the [catch]. *)
Definition transaction {A} (body : M A) : M A :=
  fun db =>
    match body db with
    | (Ok a, db') => (Ok a, db')
    | (Raise c, db') => (Raise c, rollback db db')
    end.

End Db.

Declare Scope db_scope.
Delimit Scope db_scope with db.
Notation "x <- m ;; k" := (Db.bind m (fun x => k))
  (at level 61, m at next level, right associativity) : db_scope.
Notation "m ;;; k" := (Db.bind m (fun _ => k))
  (at level 61, right associativity) : db_scope.

Local Open Scope db_scope.

(** [ST_AsText] of a point and the helper of config/database.js that reads
    it back: the first number of the text is the longitude. *)
Inductive wkt : Type :=
| POINT (x y : Q).

Definition ST_AsText (g : geography) : wkt := POINT (longitude g) (latitude g).

Definition fromGeographyPoint (point : wkt) : geography :=
  match point with
  | POINT x y => {| latitude := y; longitude := x |}
  end.

(** ToBoolean on a finite number. *)
Definition truthy_q (q : Q) : bool := negb (Qeq_bool q 0).

Fixpoint distinctb (l : list string) : bool :=
  match l with
  | [] => true
  | x :: r => negb (existsb (String.eqb x) r) && distinctb r
  end.

(* ===================================================================== *)
(** ** models/User.js                                                    *)
(* ===================================================================== *)

Module User.

(** The object handed to [create] and [update]; [None] is a property that is
    [undefined]. *)
Record userData : Type := {
  username : option string;
  email : option string;
  password : string;
  fullName : option string;
  latitude : option Q;
  longitude : option Q;
  preferredLanguage : option string
}.

(** A user as handed back by the model; a column that the statement does not
    return is [None]. *)
Record user : Type := {
  id : Z;
  user_username : string;
  user_email : string;
  user_password : option password_hash;
  full_name : option string;
  preferred_language : string;
  location : option geography;
  created_at : Z;
  updated_at : option Z
}.

Definition of_row (with_password with_updated_at : bool) (r : Users.row)
  : user :=
  {| id := Users.id r;
     user_username := Users.username r;
     user_email := Users.email r;
     user_password := if with_password then Some (Users.password r) else None;
     full_name := Users.full_name r;
     preferred_language := Users.preferred_language r;
     location :=
       option_map (fun g => fromGeographyPoint (ST_AsText g))
                  (Users.location r);
     created_at := Users.created_at r;
     updated_at :=
       if with_updated_at then Some (Users.updated_at r) else None |}.

(** The table constraints of [users]: [username] and [email] are unique. *)
Definition users_unique (l : list Users.row) : bool :=
  distinctb (map Users.username l) && distinctb (map Users.email l).

(** [INSERT INTO users (...) VALUES (...) RETURNING ...]. *)
Definition insert_user (username email : option string)
  (hashedPassword : password_hash) (fullName : option string)
  (preferredLanguage : string) (location : option geography)
  : Db.M Users.row :=
  fun db =>
    let seq := Db.users_id_seq db + 1 in
    match username, email with
    | Some u, Some e =>
        let r := {| Users.id := Db.users_id_seq db;
                    Users.username := u; Users.email := e;
                    Users.password := hashedPassword;
                    Users.full_name := fullName;
                    Users.location := location;
                    Users.preferred_language := preferredLanguage;
                    Users.created_at := Db.now db;
                    Users.updated_at := Db.now db |} in
        if users_unique (Db.users db ++ [r])
        then (Db.Ok r, Db.with_users db (Db.users db ++ [r]) seq)
        else (Db.Raise Db.unique_violation,
              Db.with_users db (Db.users db) seq)
    | _, _ =>
        (Db.Raise Db.not_null_violation, Db.with_users db (Db.users db) seq)
    end.

(** [User.create]. *)
Definition create (userData : userData) : Db.M user :=
  let preferredLanguage :=
    match preferredLanguage userData with Some l => l | None => "en" end in
  let hashedPassword := bcrypt_hash (password userData) 10 in
  let locationQuery :=
    match latitude userData, longitude userData with
    | Some lat, Some lon =>
        if truthy_q lat && truthy_q lon
        then Some (ST_MakePoint lon lat)
        else None
    | _, _ => None
    end in
  r <- insert_user (username userData) (email userData) hashedPassword
         (fullName userData) preferredLanguage locationQuery ;;
  Db.ret (of_row false false r).

(** [User.findById]. *)
Definition findById (id : Z) : Db.M (option user) :=
  Db.query (fun db =>
    match filter (fun r => Users.id r =? id) (Db.users db) with
    | [] => None
    | r :: _ => Some (of_row false true r)
    end).

(** One item of the [SET] list that [update] assembles. *)
Inductive assignment : Type :=
| set_username (v : string)
| set_email (v : string)
| set_full_name (v : string)
| set_preferred_language (v : string)
| set_location (g : geography)
| set_updated_at.

Definition assign (now : Z) (r : Users.row) (a : assignment) : Users.row :=
  match a with
  | set_username v =>
      {| Users.id := Users.id r; Users.username := v;
         Users.email := Users.email r; Users.password := Users.password r;
         Users.full_name := Users.full_name r;
         Users.location := Users.location r;
         Users.preferred_language := Users.preferred_language r;
         Users.created_at := Users.created_at r;
         Users.updated_at := Users.updated_at r |}
  | set_email v =>
      {| Users.id := Users.id r; Users.username := Users.username r;
         Users.email := v; Users.password := Users.password r;
         Users.full_name := Users.full_name r;
         Users.location := Users.location r;
         Users.preferred_language := Users.preferred_language r;
         Users.created_at := Users.created_at r;
         Users.updated_at := Users.updated_at r |}
  | set_full_name v =>
      {| Users.id := Users.id r; Users.username := Users.username r;
         Users.email := Users.email r; Users.password := Users.password r;
         Users.full_name := Some v;
         Users.location := Users.location r;
         Users.preferred_language := Users.preferred_language r;
         Users.created_at := Users.created_at r;
         Users.updated_at := Users.updated_at r |}
  | set_preferred_language v =>
      {| Users.id := Users.id r; Users.username := Users.username r;
         Users.email := Users.email r; Users.password := Users.password r;
         Users.full_name := Users.full_name r;
         Users.location := Users.location r;
         Users.preferred_language := v;
         Users.created_at := Users.created_at r;
         Users.updated_at := Users.updated_at r |}
  | set_location g =>
      {| Users.id := Users.id r; Users.username := Users.username r;
         Users.email := Users.email r; Users.password := Users.password r;
         Users.full_name := Users.full_name r;
         Users.location := Some g;
         Users.preferred_language := Users.preferred_language r;
         Users.created_at := Users.created_at r;
         Users.updated_at := Users.updated_at r |}
  | set_updated_at =>
      {| Users.id := Users.id r; Users.username := Users.username r;
         Users.email := Users.email r; Users.password := Users.password r;
         Users.full_name := Users.full_name r;
         Users.location := Users.location r;
         Users.preferred_language := Users.preferred_language r;
         Users.created_at := Users.created_at r;
         Users.updated_at := now |}
  end.

(** [UPDATE users SET ... WHERE id = $n RETURNING ...]. *)
Definition update_users (updateFields : list assignment) (id : Z)
  : Db.M (list Users.row) :=
  fun db =>
    let upd r :=
      if Users.id r =? id then fold_left (assign (Db.now db)) updateFields r
      else r in
    let rows := map upd (Db.users db) in
    if users_unique rows
    then (Db.Ok (filter (fun r => Users.id r =? id) rows),
          Db.with_users db rows (Db.users_id_seq db))
    else (Db.Raise Db.unique_violation, db).

Definition field {A} (t : A -> bool) (mk : A -> assignment) (v : option A)
  : list assignment :=
  match v with
  | Some a => if t a then [mk a] else []
  | None => []
  end.

(** [User.update]. *)
Definition update (id : Z) (userData : userData) : Db.M (option user) :=
  let updateFields :=
   (field Js.truthy_str set_username (username userData)
    ++ field Js.truthy_str set_email (email userData)
    ++ field Js.truthy_str set_full_name (fullName userData)
    ++ field Js.truthy_str set_preferred_language (preferredLanguage userData)
    ++ match latitude userData, longitude userData with
       | Some lat, Some lon =>
           if truthy_q lat && truthy_q lon
           then [set_location (ST_MakePoint lon lat)]
           else []
       | _, _ => []
       end
    ++ [set_updated_at])%list in
  if (List.length updateFields =? 1)%nat then findById id
  else
    rows <- update_users updateFields id ;;
    match rows with
    | [] => Db.ret None
    | r :: _ => Db.ret (Some (of_row false true r))
    end.

(** [User.updatePassword]:
    [UPDATE users SET password = $1, updated_at = CURRENT_TIMESTAMP
     WHERE id = $2]. *)
Definition updatePassword (id : Z) (newPassword : string) : Db.M bool :=
  fun db =>
    let hashedPassword := bcrypt_hash newPassword 10 in
    let upd r :=
      if Users.id r =? id then
        {| Users.id := Users.id r; Users.username := Users.username r;
           Users.email := Users.email r; Users.password := hashedPassword;
           Users.full_name := Users.full_name r;
           Users.location := Users.location r;
           Users.preferred_language := Users.preferred_language r;
           Users.created_at := Users.created_at r;
           Users.updated_at := Db.now db |}
      else r in
    (Db.Ok true, Db.with_users db (map upd (Db.users db)) (Db.users_id_seq db)).

(** [User.getPreferredCategories]. *)
Definition getPreferredCategories (userId : Z) : Db.M (list Categories.row) :=
  Db.query (fun db =>
    flat_map
      (fun c =>
         flat_map
           (fun upc =>
              if (Categories.id c =? UserPreferredCategories.category_id upc)
                 && (UserPreferredCategories.user_id upc =? userId)
              then [c] else [])
           (Db.user_preferred_categories db))
      (Db.categories db)).

Definition preference_eqb (a b : UserPreferredCategories.row) : bool :=
  (UserPreferredCategories.user_id a =? UserPreferredCategories.user_id b)
  && (UserPreferredCategories.category_id a
      =? UserPreferredCategories.category_id b).

Fixpoint preferences_distinct (l : list UserPreferredCategories.row) : bool :=
  match l with
  | [] => true
  | x :: r => negb (existsb (preference_eqb x) r) && preferences_distinct r
  end.

(** Modelled from the spec: the schema file is not among the sources; the
    pair (user id, category id) is unique and both columns reference their
    tables (section 3 of the design document).
    [INSERT INTO user_preferred_categories (user_id, category_id)
     VALUES ...]. *)
Definition insert_preferences (rows : list UserPreferredCategories.row)
  : Db.M unit :=
  fun db =>
    let table := (Db.user_preferred_categories db ++ rows)%list in
    if negb (preferences_distinct table)
    then (Db.Raise Db.unique_violation, db)
    else if forallb
              (fun r =>
                 existsb (fun u => Users.id u
                                   =? UserPreferredCategories.user_id r)
                         (Db.users db)
                 && existsb (fun c => Categories.id c
                                      =? UserPreferredCategories.category_id r)
                            (Db.categories db))
              rows
    then (Db.Ok tt, Db.with_user_preferred_categories db table)
    else (Db.Raise Db.foreign_key_violation, db).

(** [User.setPreferredCategories]: the two statements are not wrapped in a
    transaction. *)
Definition setPreferredCategories (userId : Z) (categoryIds : option (list Z))
  : Db.M (list Categories.row) :=
  (fun db =>
     (Db.Ok tt,
      Db.with_user_preferred_categories db
        (filter (fun r => negb (UserPreferredCategories.user_id r =? userId))
                (Db.user_preferred_categories db)))) ;;;
  match categoryIds with
  | Some (c :: cs) =>
      insert_preferences
        (map (fun categoryId =>
                {| UserPreferredCategories.user_id := userId;
                   UserPreferredCategories.category_id := categoryId |})
             (c :: cs))
  | _ => Db.ret tt
  end ;;;
  getPreferredCategories userId.

End User.

(* ===================================================================== *)
(** ** SQL clauses shared by the queries                                 *)
(* ===================================================================== *)

Module Sql.

Section OrderBy.
Context {A : Type} (leb : A -> A -> bool).

Fixpoint insert (x : A) (l : list A) : list A :=
  match l with
  | [] => [x]
  | y :: r => if leb x y then x :: l else y :: insert x r
  end.

(** [ORDER BY]: the rows in ascending order of the sort key.  Rows with
    equal keys are left in the order of the input; SQL fixes no order for
    them, so only what holds for every order of such rows is to be read
    from this one. *)
Fixpoint order_by (l : list A) : list A :=
  match l with
  | [] => []
  | x :: r => insert x (order_by r)
  end.
End OrderBy.

(** [LIMIT limit OFFSET offset]; a negative count is an error, the offset
    being looked at first. *)
Definition limit_offset {A} (limit offset : Z) (rows : list A)
  : Db.outcome (list A) :=
  if offset <? 0 then Db.Raise Db.invalid_row_count_in_offset
  else if limit <? 0 then Db.Raise Db.invalid_row_count_in_limit
  else Db.Ok (firstn (Z.to_nat limit) (skipn (Z.to_nat offset) rows)).

(** [SELECT DISTINCT]. *)
Definition distinct {A} (dec : forall a b : A, {a = b} + {a <> b})
  (rows : list A) : list A := nodup dec rows.

(** [COUNT(DISTINCT col)]. *)
Definition count_distinct {A} (col : A -> Z) (rows : list A) : Z :=
  Z.of_nat (List.length (nodup Z.eq_dec (map col rows))).

(** [col IN (v1, v2, ...)] for an integer column and numeric literals. *)
Definition in_list (v : Z) (l : list Q) : bool :=
  existsb (fun q => Qeq_bool (inject_Z v) q) l.

(** The numbers written into a statement by [join(', ')]: [NaN] is printed
    as the word NaN, which the database reads as a column name. *)
Fixpoint literals (l : list Js.jsnum) : option (list Q) :=
  match l with
  | [] => Some []
  | Js.Fin q :: r => option_map (cons q) (literals r)
  | Js.NaN :: _ => None
  end.

End Sql.

(** [Number.prototype.toFixed(2)] (below 1e21): the nearest number with two
    decimals, the larger one on a tie, printed with both decimals. *)
Definition string_of_nat_Z (z : Z) : string :=
  NilZero.string_of_uint (N.to_uint (Z.to_N z)).

Definition toFixed2 (x : Q) : string :=
  let neg := negb (Qle_bool 0 x) in
  let n := Qfloor (Qabs x * 100 + (1 # 2)) in
  let fp := n mod 100 in
  let sign := if neg then "-" else "" in
  let pad := if fp <? 10 then "0" else "" in
  (sign ++ string_of_nat_Z (n / 100) ++ "." ++ pad
   ++ string_of_nat_Z fp)%string.

(** A property that the code tells apart from [undefined] with
    [!== undefined]: it may also be [null]. *)
Inductive jsfield (A : Type) : Type :=
| undefined
| null
| value (a : A).
Arguments undefined {A}.
Arguments null {A}.
Arguments value {A} a.

Definition sql_value {A} (v : jsfield A) : option A :=
  match v with value a => Some a | _ => None end.

(* ===================================================================== *)
(** ** models/Event.js                                                   *)
(* ===================================================================== *)

Module Event.

(** The object handed to [create] and [update]. *)
Record eventData : Type := {
  title : option string;
  description : jsfield string;
  latitude : option Q;
  longitude : option Q;
  address : option string;
  startTime : option Z;
  endTime : jsfield Z;
  creatorId : option Z;
  categories : option (list Z)
}.

(** An event as handed back by the model. *)
Record event : Type := {
  id : Z;
  event_title : string;
  event_description : option string;
  location : geography;
  event_address : option string;
  start_time : Z;
  end_time : option Z;
  creator_id : option Z;
  created_at : Z;
  updated_at : Z;
  distance_km : option string;
  event_categories : list Categories.row
}.

Definition category_leb (a b : Categories.row) : bool :=
  String.leb (Categories.name a) (Categories.name b).

(** [SELECT c.id, c.name FROM categories c
     JOIN event_categories ec ON c.id = ec.category_id
     WHERE ec.event_id = $1 ORDER BY c.name]. *)
Definition categoriesQuery (db : Db.store) (id : Z) : list Categories.row :=
  Sql.order_by category_leb
    (flat_map
       (fun c =>
          flat_map
            (fun ec =>
               if (Categories.id c =? EventCategories.category_id ec)
                  && (EventCategories.event_id ec =? id)
               then [c] else [])
            (Db.event_categories db))
       (Db.categories db)).

Definition of_row (db : Db.store) (distance : option string) (r : Events.row)
  : event :=
  {| id := Events.id r;
     event_title := Events.title r;
     event_description := Events.description r;
     location := fromGeographyPoint (ST_AsText (Events.location r));
     event_address := Events.address r;
     start_time := Events.start_time r;
     end_time := Events.end_time r;
     creator_id := Events.creator_id r;
     created_at := Events.created_at r;
     updated_at := Events.updated_at r;
     distance_km := distance;
     event_categories := categoriesQuery db (Events.id r) |}.

(** [Event.getById]. *)
Definition getById (id : Z) : Db.M (option event) :=
  Db.query (fun db =>
    match filter (fun r => Events.id r =? id) (Db.events db) with
    | [] => None
    | r :: _ => Some (of_row db None r)
    end).

Definition exists_user (db : Db.store) (id : Z) : bool :=
  existsb (fun r => Users.id r =? id) (Db.users db).

Definition exists_event (db : Db.store) (id : Z) : bool :=
  existsb (fun r => Events.id r =? id) (Db.events db).

Definition exists_category (db : Db.store) (id : Z) : bool :=
  existsb (fun r => Categories.id r =? id) (Db.categories db).

(** [INSERT INTO events (...) VALUES (...) RETURNING ...]: [title],
    [location] and [start_time] are [NOT NULL], [creator_id] references
    [users]. *)
Definition insert_event (d : eventData) : Db.M Events.row :=
  fun db =>
    let seq := Db.events_id_seq db + 1 in
    let failed code := (Db.Raise code, Db.with_events db (Db.events db) seq) in
    match title d, latitude d, longitude d, startTime d with
    | Some t, Some lat, Some lon, Some st =>
        let r := {| Events.id := Db.events_id_seq db;
                    Events.title := t;
                    Events.description := sql_value (description d);
                    Events.location := ST_MakePoint lon lat;
                    Events.address := address d;
                    Events.start_time := st;
                    Events.end_time := sql_value (endTime d);
                    Events.creator_id := creatorId d;
                    Events.created_at := Db.now db;
                    Events.updated_at := Db.now db |} in
        match creatorId d with
        | Some u =>
            if exists_user db u
            then (Db.Ok r, Db.with_events db (Db.events db ++ [r]) seq)
            else failed Db.foreign_key_violation
        | None => (Db.Ok r, Db.with_events db (Db.events db ++ [r]) seq)
        end
    | _, _, _, _ => failed Db.not_null_violation
    end.

Definition pair_eqb (a b : EventCategories.row) : bool :=
  (EventCategories.event_id a =? EventCategories.event_id b)
  && (EventCategories.category_id a =? EventCategories.category_id b).

Fixpoint pairs_distinct (l : list EventCategories.row) : bool :=
  match l with
  | [] => true
  | x :: r => negb (existsb (pair_eqb x) r) && pairs_distinct r
  end.

(** Modelled from the spec: the schema file is not among the sources; the
    pair (event id, category id) is unique and both columns reference their
    tables (section 3 of the design document).
    [INSERT INTO event_categories (event_id, category_id) VALUES ...]. *)
Definition insert_event_categories (rows : list EventCategories.row)
  : Db.M unit :=
  fun db =>
    let table := (Db.event_categories db ++ rows)%list in
    if negb (pairs_distinct table) then (Db.Raise Db.unique_violation, db)
    else if forallb
              (fun ec =>
                 exists_event db (EventCategories.event_id ec)
                 && exists_category db (EventCategories.category_id ec))
              rows
    then (Db.Ok tt, Db.with_event_categories db table)
    else (Db.Raise Db.foreign_key_violation, db).

(** [DELETE FROM event_categories WHERE event_id = $1]. *)
Definition delete_event_categories (id : Z) : Db.M unit :=
  fun db =>
    (Db.Ok tt,
     Db.with_event_categories db
       (filter (fun ec => negb (EventCategories.event_id ec =? id))
               (Db.event_categories db))).

Definition values_for (id : Z) (categories : list Z)
  : list EventCategories.row :=
  map (fun categoryId =>
         {| EventCategories.event_id := id;
            EventCategories.category_id := categoryId |})
      categories.

(** [Event.create]. *)
Definition create (eventData : eventData) : Db.M (option event) :=
  event <- Db.transaction
    (event <- insert_event eventData ;;
     match categories eventData with
     | Some (c :: cs) =>
         insert_event_categories (values_for (Events.id event) (c :: cs)) ;;;
         Db.ret event
     | _ => Db.ret event
     end) ;;
  getById (Events.id event).

(** One item of the [SET] list that [update] assembles. *)
Inductive assignment : Type :=
| set_title (v : string)
| set_description (v : option string)
| set_location (g : geography)
| set_address (v : string)
| set_start_time (v : Z)
| set_end_time (v : option Z)
| set_updated_at.

Definition assign (now : Z) (r : Events.row) (a : assignment) : Events.row :=
  {| Events.id := Events.id r;
     Events.title :=
       match a with set_title v => v | _ => Events.title r end;
     Events.description :=
       match a with set_description v => v | _ => Events.description r end;
     Events.location :=
       match a with set_location g => g | _ => Events.location r end;
     Events.address :=
       match a with set_address v => Some v | _ => Events.address r end;
     Events.start_time :=
       match a with set_start_time v => v | _ => Events.start_time r end;
     Events.end_time :=
       match a with set_end_time v => v | _ => Events.end_time r end;
     Events.creator_id := Events.creator_id r;
     Events.created_at := Events.created_at r;
     Events.updated_at :=
       match a with set_updated_at => now | _ => Events.updated_at r end |}.

(** [UPDATE events SET ... WHERE id = $n RETURNING id]. *)
Definition update_events (updateFields : list assignment) (id : Z)
  : Db.M unit :=
  fun db =>
    let upd r :=
      if Events.id r =? id then fold_left (assign (Db.now db)) updateFields r
      else r in
    (Db.Ok tt,
     Db.with_events db (map upd (Db.events db)) (Db.events_id_seq db)).

Definition field {A} (t : A -> bool) (mk : A -> assignment) (v : option A)
  : list assignment :=
  match v with
  | Some a => if t a then [mk a] else []
  | None => []
  end.

Definition defined {A} (mk : option A -> assignment) (v : jsfield A)
  : list assignment :=
  match v with
  | undefined => []
  | null => [mk None]
  | value a => [mk (Some a)]
  end.

(** The [SET] list that [update] assembles from the supplied fields. *)
Definition updateFields (eventData : eventData) : list assignment :=
  (field Js.truthy_str set_title (title eventData)
   ++ defined set_description (description eventData)
   ++ match latitude eventData, longitude eventData with
      | Some lat, Some lon =>
          if truthy_q lat && truthy_q lon
          then [set_location (ST_MakePoint lon lat)]
          else []
      | _, _ => []
      end
   ++ field Js.truthy_str set_address (address eventData)
   ++ field (fun _ : Z => true) set_start_time (startTime eventData)
   ++ defined set_end_time (endTime eventData)
   ++ [set_updated_at])%list.

(** [Event.update].  The [return] taken when the [SET] list holds nothing
    but [updated_at] leaves the function before any statement other than
    [BEGIN] is issued. *)
Definition update (id : Z) (eventData : eventData) : Db.M (option event) :=
  if (List.length (updateFields eventData) =? 1)%nat then getById id
  else
    Db.transaction
      (update_events (updateFields eventData) id ;;;
       match categories eventData with
       | Some categories =>
           delete_event_categories id ;;;
           match categories with
           | _ :: _ => insert_event_categories (values_for id categories)
           | [] => Db.ret tt
           end
       | None => Db.ret tt
       end) ;;;
    getById id.

(** Modelled from the spec: the schema file is not among the sources;
    deleting an event removes its category associations, its reviews and its
    favorite markers (section 3 of the design document).
    [DELETE FROM events WHERE id = $1 RETURNING id]. *)
Definition delete_events (id : Z) : Db.M (list Z) :=
  fun db =>
    let gone := filter (fun r => Events.id r =? id) (Db.events db) in
    match gone with
    | [] => (Db.Ok [], db)
    | _ :: _ =>
        (Db.Ok (map Events.id gone),
         {| Db.users := Db.users db;
            Db.events :=
              filter (fun r => negb (Events.id r =? id)) (Db.events db);
            Db.categories := Db.categories db;
            Db.event_categories :=
              filter (fun r => negb (EventCategories.event_id r =? id))
                     (Db.event_categories db);
            Db.event_reviews :=
              filter (fun r => negb (EventReviews.event_id r =? id))
                     (Db.event_reviews db);
            Db.user_favorite_events :=
              filter (fun r => negb (UserFavoriteEvents.event_id r =? id))
                     (Db.user_favorite_events db);
            Db.user_preferred_categories := Db.user_preferred_categories db;
            Db.users_id_seq := Db.users_id_seq db;
            Db.events_id_seq := Db.events_id_seq db;
            Db.event_reviews_id_seq := Db.event_reviews_id_seq db;
            Db.now := Db.now db |})
    end.

(** [Event.delete]. *)
Definition delete (id : Z) : Db.M bool :=
  rows <- delete_events id ;;
  Db.ret (0 <? List.length rows)%nat.

(** The [pagination] object of the list endpoints; [pages] is [None] when
    [Math.ceil(total / limit)] is not a finite number. *)
Record pagination : Type := {
  total : Z;
  page : Z;
  limit : Z;
  pages : option Z
}.

Record listing : Type := {
  events : list event;
  listing_pagination : pagination
}.

(** A row of [events e JOIN event_categories ec ON e.id = ec.event_id
    JOIN categories c ON ec.category_id = c.id], or of [events e] alone. *)
Definition joined : Type := (Events.row * option Categories.row)%type.

Definition from_events (db : Db.store) (categoryJoin : bool) : list joined :=
  if categoryJoin then
    flat_map
      (fun e =>
         flat_map
           (fun ec =>
              if Events.id e =? EventCategories.event_id ec then
                flat_map
                  (fun c =>
                     if EventCategories.category_id ec =? Categories.id c
                     then [(e, Some c)] else [])
                  (Db.categories db)
              else [])
           (Db.event_categories db))
      (Db.events db)
  else map (fun e => (e, None)) (Db.events db).

(** [WHERE c1 AND c2 AND ...]. *)
Definition where_ (conditions : list (joined -> bool)) (rows : list joined)
  : list joined :=
  filter (fun r => forallb (fun c => c r) conditions) rows.

(** [c.id IN (...)]. *)
Definition category_in (ids : list Q) (r : joined) : bool :=
  match snd r with
  | Some c => Sql.in_list (Categories.id c) ids
  | None => false
  end.

Definition start_time_ge (d : Z) (r : joined) : bool :=
  d <=? Events.start_time (fst r).

Definition start_time_le (d : Z) (r : joined) : bool :=
  Events.start_time (fst r) <=? d.

Definition creator_is (u : Z) (r : joined) : bool :=
  match Events.creator_id (fst r) with
  | Some c => c =? u
  | None => false
  end.

Definition when_ {A B} (v : option A) (mk : A -> B) : list B :=
  match v with Some a => [mk a] | None => [] end.

(** The condition pushed under [if (v)] for an id [v]: none when [v] is
    [null], and none when it is the number 0, which is falsy. *)
Definition when_truthy {B} (v : option Z) (mk : Z -> B) : list B :=
  match v with
  | Some n => if n =? 0 then [] else [mk n]
  | None => []
  end.

Definition default {A} (v : option A) (d : A) : A :=
  match v with Some a => a | None => d end.

Definition lift {A} (r : Db.outcome A) : Db.M A := fun db => (r, db).

Module getAllParams.
Record t : Type := {
  page : option Z;
  limit : option Z;
  categoryIds : option (list Js.jsnum);
  creatorId : option Z;
  startDate : option Z;
  endDate : option Z
}.
End getAllParams.

Definition start_time_leb (a b : Events.row) : bool :=
  Events.start_time a <=? Events.start_time b.

(** The count query and the main query of [getAll] for a given join and
    [WHERE] clause, then the loop that attaches the categories. *)
Definition getAll_queries (categoryJoin : bool)
  (conditions : list (joined -> bool)) (page limit : Z) : Db.M listing :=
  let offset := (page - 1) * limit in
  total <- Db.query (fun db =>
    Sql.count_distinct Events.id
      (map fst (where_ conditions (from_events db categoryJoin)))) ;;
  rows <- (fun db =>
    lift (Sql.limit_offset limit offset
            (Sql.order_by start_time_leb
               (Sql.distinct Events.eq_dec
                  (map fst (where_ conditions (from_events db categoryJoin))))))
         db) ;;
  events <- Db.query (fun db => map (of_row db None) rows) ;;
  Db.ret {| events := events;
            listing_pagination :=
              {| total := total; page := page; limit := limit;
                 pages := Js.ceil_div total limit |} |}.

(** [Event.getAll]. *)
Definition getAll (p : getAllParams.t) : Db.M listing :=
  let page := default (getAllParams.page p) 1 in
  let limit := default (getAllParams.limit p) 10 in
  let categoryIds := default (getAllParams.categoryIds p) [] in
  let conditions :=
    (when_truthy (getAllParams.creatorId p) creator_is
     ++ when_ (getAllParams.startDate p) start_time_ge
     ++ when_ (getAllParams.endDate p) start_time_le)%list in
  match categoryIds with
  | [] => getAll_queries false conditions page limit
  | _ :: _ =>
      match Sql.literals categoryIds with
      | Some ids =>
          getAll_queries true (conditions ++ [category_in ids])%list page limit
      | None => Db.raise Db.undefined_column
      end
  end.

Module searchParams.
Record t : Type := {
  latitude : Q;
  longitude : Q;
  radius : option Q;
  categoryIds : option (list Js.jsnum);
  startDate : option Z;
  endDate : option Z;
  page : option Z;
  limit : option Z
}.
End searchParams.

(** The select list of the main query of [searchByLocation]: the columns of
    the event and [distance_km]. *)
Record found : Type := { found_row : Events.row; found_distance_km : Q }.

Definition found_eq_dec (a b : found) : {a = b} + {a <> b}.
Proof. decide equality; [apply Q_eq_dec | apply Events.eq_dec]. Defined.

(** [ORDER BY distance_km ASC, e.start_time ASC]. *)
Definition found_leb (a b : found) : bool :=
  if Qeq_bool (found_distance_km a) (found_distance_km b)
  then Events.start_time (found_row a) <=? Events.start_time (found_row b)
  else Qle_bool (found_distance_km a) (found_distance_km b).

Section Geography.

(** The geodesic distance in metres that PostGIS computes between two
    geography points. *)
Variable ST_Distance : geography -> geography -> Q.

(** [ST_DWithin(g1, g2, d)]: the two points are within [d] metres. *)
Definition ST_DWithin (g1 g2 : geography) (d : Q) : bool :=
  Qle_bool (ST_Distance g1 g2) d.

Definition within (center : geography) (radius : Q) (r : joined) : bool :=
  ST_DWithin (Events.location (fst r)) center (radius * 1000).

Definition select_found (center : geography) (r : joined) : found :=
  {| found_row := fst r;
     found_distance_km :=
       (ST_Distance (Events.location (fst r)) center / 1000)%Q |}.

Definition found_event (db : Db.store) (f : found) : event :=
  of_row db (Some (toFixed2 (found_distance_km f))) (found_row f).

Definition searchByLocation_queries (center : geography)
  (categoryJoin : bool) (conditions : list (joined -> bool))
  (page limit : Z) : Db.M listing :=
  let offset := (page - 1) * limit in
  total <- Db.query (fun db =>
    Sql.count_distinct Events.id
      (map fst (where_ conditions (from_events db categoryJoin)))) ;;
  rows <- (fun db =>
    lift (Sql.limit_offset limit offset
            (Sql.order_by found_leb
               (Sql.distinct found_eq_dec
                  (map (select_found center)
                     (where_ conditions (from_events db categoryJoin))))))
         db) ;;
  events <- Db.query (fun db => map (found_event db) rows) ;;
  Db.ret {| events := events;
            listing_pagination :=
              {| total := total; page := page; limit := limit;
                 pages := Js.ceil_div total limit |} |}.

(** [Event.searchByLocation]. *)
Definition searchByLocation (p : searchParams.t) : Db.M listing :=
  let radius := default (searchParams.radius p) 10%Q in
  let categoryIds := default (searchParams.categoryIds p) [] in
  let page := default (searchParams.page p) 1 in
  let limit := default (searchParams.limit p) 10 in
  let center :=
    ST_MakePoint (searchParams.longitude p) (searchParams.latitude p) in
  let conditions :=
    ([within center radius]
     ++ when_ (searchParams.startDate p) start_time_ge
     ++ when_ (searchParams.endDate p) start_time_le)%list in
  match categoryIds with
  | [] => searchByLocation_queries center false conditions page limit
  | _ :: _ =>
      match Sql.literals categoryIds with
      | Some ids =>
          searchByLocation_queries center true
            (conditions ++ [category_in ids])%list page limit
      | None => Db.raise Db.undefined_column
      end
  end.

End Geography.

(** [Event.isFavorited]. *)
Definition isFavorited (userId eventId : Z) : Db.M bool :=
  Db.query (fun db =>
    existsb
      (fun f => (UserFavoriteEvents.user_id f =? userId)
                && (UserFavoriteEvents.event_id f =? eventId))
      (Db.user_favorite_events db)).

Definition review_of (eventId userId : Z) (r : EventReviews.row) : bool :=
  (EventReviews.event_id r =? eventId) && (EventReviews.user_id r =? userId).

(** [UPDATE event_reviews SET rating = $3, review = $4,
     updated_at = CURRENT_TIMESTAMP WHERE event_id = $1 AND user_id = $2
     RETURNING ...]. *)
Definition update_review (eventId userId rating : Z) (review : option string)
  : Db.M (list EventReviews.row) :=
  fun db =>
    let upd r :=
      if review_of eventId userId r then
        {| EventReviews.id := EventReviews.id r;
           EventReviews.event_id := EventReviews.event_id r;
           EventReviews.user_id := EventReviews.user_id r;
           EventReviews.rating := rating;
           EventReviews.review := review;
           EventReviews.created_at := EventReviews.created_at r;
           EventReviews.updated_at := Db.now db |}
      else r in
    let rows := map upd (Db.event_reviews db) in
    (Db.Ok (filter (review_of eventId userId) rows),
     Db.with_event_reviews db rows (Db.event_reviews_id_seq db)).

(** Modelled from the spec: the schema file is not among the sources; the
    reviews of an event are removed with it (section 3 of the design
    document), so [event_id] references [events].
    [INSERT INTO event_reviews (event_id, user_id, rating, review)
     VALUES ($1, $2, $3, $4) RETURNING ...]. *)
Definition insert_review (eventId userId rating : Z) (review : option string)
  : Db.M (list EventReviews.row) :=
  fun db =>
    let seq := Db.event_reviews_id_seq db + 1 in
    let r := {| EventReviews.id := Db.event_reviews_id_seq db;
                EventReviews.event_id := eventId;
                EventReviews.user_id := userId;
                EventReviews.rating := rating;
                EventReviews.review := review;
                EventReviews.created_at := Db.now db;
                EventReviews.updated_at := Db.now db |} in
    if exists_event db eventId
    then (Db.Ok [r],
          Db.with_event_reviews db (Db.event_reviews db ++ [r]) seq)
    else (Db.Raise Db.foreign_key_violation,
          Db.with_event_reviews db (Db.event_reviews db) seq).

(** [Event.addReview]; the result is [rows[0]]. *)
Definition addReview (eventId userId rating : Z) (review : option string)
  : Db.M (option EventReviews.row) :=
  existingReviewResult <- Db.query (fun db =>
    filter (review_of eventId userId) (Db.event_reviews db)) ;;
  if (0 <? List.length existingReviewResult)%nat then
    result <- update_review eventId userId rating review ;;
    Db.ret (hd_error result)
  else
    result <- insert_review eventId userId rating review ;;
    Db.ret (hd_error result).

Definition favorite_of (userId eventId : Z) (f : UserFavoriteEvents.row)
  : bool :=
  (UserFavoriteEvents.user_id f =? userId)
  && (UserFavoriteEvents.event_id f =? eventId).

(** Modelled from the spec: the schema file is not among the sources; the
    favorite markers of an event are removed with it (section 3 of the
    design document), so [event_id] references [events].
    [INSERT INTO user_favorite_events (user_id, event_id) VALUES ($1, $2)
     ON CONFLICT (user_id, event_id) DO NOTHING RETURNING ...]. *)
Definition insert_favorite (userId eventId : Z)
  : Db.M (list UserFavoriteEvents.row) :=
  fun db =>
    if existsb (favorite_of userId eventId) (Db.user_favorite_events db)
    then (Db.Ok [], db)
    else if exists_event db eventId then
      let f := {| UserFavoriteEvents.user_id := userId;
                  UserFavoriteEvents.event_id := eventId;
                  UserFavoriteEvents.created_at := Db.now db |} in
      (Db.Ok [f],
       Db.with_user_favorite_events db (Db.user_favorite_events db ++ [f]))
    else (Db.Raise Db.foreign_key_violation, db).

(** [Event.favoriteEvent]; the result is [rows[0]]. *)
Definition favoriteEvent (userId eventId : Z)
  : Db.M (option UserFavoriteEvents.row) :=
  result <- insert_favorite userId eventId ;;
  Db.ret (hd_error result).

(** [DELETE FROM user_favorite_events WHERE user_id = $1 AND event_id = $2
     RETURNING user_id, event_id]. *)
Definition delete_favorite (userId eventId : Z)
  : Db.M (list UserFavoriteEvents.row) :=
  fun db =>
    (Db.Ok (filter (favorite_of userId eventId) (Db.user_favorite_events db)),
     Db.with_user_favorite_events db
       (filter (fun f => negb (favorite_of userId eventId f))
               (Db.user_favorite_events db))).

(** [Event.unfavoriteEvent]. *)
Definition unfavoriteEvent (userId eventId : Z) : Db.M bool :=
  result <- delete_favorite userId eventId ;;
  Db.ret (0 <? List.length result)%nat.

End Event.

(** models/Category.js, the lookup used by the services. *)
Module Category.

(** [Category.getById]. *)
Definition getById (id : Z) : Db.M (option Categories.row) :=
  Db.query (fun db =>
    hd_error (filter (fun c => Categories.id c =? id) (Db.categories db))).

End Category.

(* ===================================================================== *)
(** ** utils/geoUtils.js and utils/errorHandler.js                       *)
(* ===================================================================== *)

Module GeoUtils.

(** [isValidCoordinates]. *)
Definition isValidCoordinates (lat lon : Js.jsnum) : bool :=
  Js.ge lat (Js.Fin (-90)) && Js.le lat (Js.Fin 90)
  && Js.ge lon (Js.Fin (-180)) && Js.le lon (Js.Fin 180).

End GeoUtils.

Module ErrorHandler.

(** The error objects made by [createError]; the message is the key handed
    to the translation function. *)
Record error : Type := { message : string; statusCode : Z }.

Definition createError (message : string) (statusCode : Z) : error :=
  {| message := message; statusCode := statusCode |}.

(** [handleDatabaseError]. *)
Definition handleDatabaseError (code : string) : error :=
  if String.eqb code "23505" then createError "alreadyExists" 400
  else if String.eqb code "23503" then createError "referenceError" 400
  else if String.eqb code "42P01" then createError "serverError" 500
  else createError "serverError" 500.

End ErrorHandler.

(** What a service method does: it returns a value or throws an error
    object. *)
Definition Service (A : Type) : Type :=
  Db.store -> (ErrorHandler.error + A) * Db.store.

(** The JSON envelope written by a controller. *)
Record response (A : Type) : Type := {
  status : Z;
  success : bool;
  message : option string;
  errors : list string;
  data : option A
}.
Arguments status {A} r.
Arguments success {A} r.
Arguments message {A} r.
Arguments errors {A} r.
Arguments data {A} r.

Definition Controller (A : Type) : Type :=
  Db.store -> response A * Db.store.

Definition failure {A} (status : Z) (message : string) (errors : list string)
  : response A :=
  {| status := status; success := false; message := Some message;
     errors := errors; data := None |}.

(* ===================================================================== *)
(** ** The checks of express-validator                                   *)
(* ===================================================================== *)

Module Validator.

(** The pattern of [isFloat]: an optional sign, any number of digits, an
    optional dot followed by any number of digits, an optional exponent
    (the letter e, an optional sign, at least one digit), the end. *)
Definition float_pattern (s : string) : bool :=
  let '(_, r0) := Js.read_sign s in
  let '(_, _, r1) := Js.read_digits Js.digit 10 r0 0 0%nat in
  let r2 :=
    match r1 with
    | String "." r =>
        let '(_, _, r') := Js.read_digits Js.digit 10 r 0 0%nat in r'
    | _ => r1
    end in
  match r2 with
  | EmptyString => true
  | String c r =>
      if Js.is_e c then
        let '(_, r3) := Js.read_sign r in
        let '(_, n, r4) := Js.read_digits Js.digit 10 r3 0 0%nat in
        match n, r4 with
        | S _, EmptyString => true
        | _, _ => false
        end
      else false
  end.

Definition is_blank_number (s : string) : bool :=
  String.eqb s "" || String.eqb s "." || String.eqb s ","
  || String.eqb s "-" || String.eqb s "+".

(** [isFloat(str, { min, max })]. *)
Definition isFloat (min max : option Q) (s : string) : bool :=
  if is_blank_number s then false
  else
    let value := Js.parseFloat_str s in
    float_pattern s
    && match min with Some m => Js.ge value (Js.Fin m) | None => true end
    && match max with Some m => Js.le value (Js.Fin m) | None => true end.

(** [check(field).optional()...withMessage(msg)]: an [undefined] field is
    skipped. *)
Definition optional {A} (valid : A -> bool) (msg : string) (v : option A)
  : list string :=
  match v with
  | None => []
  | Some a => if valid a then [] else [msg]
  end.

End Validator.

(* ===================================================================== *)
(** ** The location search: routes/search.js, utils/validators.js,
       controllers/searchController.js, services/searchService.js         *)
(* ===================================================================== *)

(** The [categories] query parameter when present: one value, or a list when
    the parameter is repeated. *)
Inductive categories_param : Type :=
| one (value : string)
| many (values : list string).

(** [req.query] of a location search.  The two dates are kept as the
    instants their ISO-8601 texts denote. *)
Module Query.
Record t : Type := {
  latitude : option string;
  longitude : option string;
  radius : option string;
  page : option string;
  limit : option string;
  categories : option categories_param;
  startDate : option Z;
  endDate : option Z
}.
End Query.

(** [process.env]. *)
Record env : Type := {
  DEFAULT_LATITUDE : option string;
  DEFAULT_LONGITUDE : option string;
  DEFAULT_SEARCH_RADIUS : option string
}.

(** The custom check of the [categories] parameter, the same in
    routes/search.js and in [locationSearchValidation]. *)
Definition categories_check (value : categories_param) : bool :=
  match value with
  | many items =>
      forallb (fun item => negb (Js.isNaN (Js.parseInt_str item))) items
  | one v => negb (Js.isNaN (Js.parseInt_str v))
  end.

(** The expression that turns [categories] into [categoryIds], the same in
    the controller and in the service. *)
Definition categoryIds_of (categories : option categories_param)
  : list Js.jsnum :=
  match categories with
  | Some (many items) => map Js.Number items
  | Some (one v) => if Js.truthy_str v then [Js.Number v] else []
  | None => []
  end.

Module Validators.

(** [locationSearchValidation] of utils/validators.js. *)
Definition locationSearchValidation (q : Query.t) : list string :=
  (Validator.optional (Validator.isFloat (Some (-90)%Q) (Some 90%Q))
     "Latitude must be between -90 and 90" (Query.latitude q)
   ++ Validator.optional (Validator.isFloat (Some (-180)%Q) (Some 180%Q))
        "Longitude must be between -180 and 180" (Query.longitude q)
   ++ Validator.optional (Validator.isFloat (Some (1 # 10)%Q) None)
        "Radius must be a positive number" (Query.radius q)
   ++ Validator.optional categories_check
        "Categories must be valid integers" (Query.categories q)
   ++ Validator.optional
        (fun endDate =>
           match Query.startDate q with
           | Some startDate => negb (endDate <? startDate)
           | None => true
           end)
        "End date must be after start date" (Query.endDate q))%list.

End Validators.

Module SearchRoutes.

(** The checks of [GET /api/search/location] in routes/search.js. *)
Definition location_checks (q : Query.t) : list string :=
  (Validator.optional (Validator.isFloat None None)
     "Latitude must be a number" (Query.latitude q)
   ++ Validator.optional (Validator.isFloat None None)
        "Longitude must be a number" (Query.longitude q)
   ++ Validator.optional (Validator.isFloat (Some (1 # 10)%Q) None)
        "Radius must be a positive number" (Query.radius q)
   ++ Validator.optional categories_check
        "Categories must be valid integers" (Query.categories q))%list.

End SearchRoutes.

(** What a location search answers with. *)
Record searchParameters : Type := {
  sp_latitude : Q;
  sp_longitude : Q;
  sp_radius : Q;
  sp_categoryIds : list Js.jsnum;
  sp_startDate : option Z;
  sp_endDate : option Z
}.

Record searchData : Type := {
  search_parameters : searchParameters;
  search_events : list Event.event;
  search_pagination : Event.pagination
}.

(** The coordinate used when neither the request nor the caller gives one:
    [parseFloat(process.env.DEFAULT_LATITUDE) || 37.7749] and
    [parseFloat(process.env.DEFAULT_LONGITUDE) || -122.4194]. *)
Definition default_center (e : env) : Q * Q :=
  (Js.or_default (Js.parseFloat (DEFAULT_LATITUDE e)) (377749 # 10000),
   Js.or_default (Js.parseFloat (DEFAULT_LONGITUDE e)) (-612097 # 5000)).

(** [parseFloat(radius) || parseFloat(process.env.DEFAULT_SEARCH_RADIUS)
     || 10]. *)
Definition radius_of (e : env) (radius : option string) : Q :=
  Js.or_default
    (Js.or_num (Js.parseFloat radius) (Js.parseFloat (DEFAULT_SEARCH_RADIUS e)))
    10.

(** The location of the caller, when there is a caller and it has one. *)
Definition user_location (user : option User.user) : option geography :=
  match user with
  | Some u => User.location u
  | None => None
  end.

Definition fallback_center (e : env) (user : option User.user) : Q * Q :=
  match user_location user with
  | Some l => (latitude l, longitude l)
  | None => default_center e
  end.

Definition search_args (center : Q * Q) (radius : Q)
  (categoryIds : list Js.jsnum) (q : Query.t) (page limit : Z)
  : Event.searchParams.t :=
  {| Event.searchParams.latitude := fst center;
     Event.searchParams.longitude := snd center;
     Event.searchParams.radius := Some radius;
     Event.searchParams.categoryIds := Some categoryIds;
     Event.searchParams.startDate := Query.startDate q;
     Event.searchParams.endDate := Query.endDate q;
     Event.searchParams.page := Some page;
     Event.searchParams.limit := Some limit |}.

Definition search_answer (center : Q * Q) (radius : Q)
  (categoryIds : list Js.jsnum) (q : Query.t) (l : Event.listing)
  : searchData :=
  {| search_parameters :=
       {| sp_latitude := fst center; sp_longitude := snd center;
          sp_radius := radius; sp_categoryIds := categoryIds;
          sp_startDate := Query.startDate q;
          sp_endDate := Query.endDate q |};
     search_events := Event.events l;
     search_pagination := Event.listing_pagination l |}.

Module SearchController.

(** The request as the controller sees it: the query, the caller set by the
    optional authentication, and what [validationResult(req)] holds. *)
Record request : Type := {
  query : Query.t;
  user : option User.user;
  validationErrors : list string
}.

(** The statements of [searchByLocation] that settle the coordinate: the
    parsed pair unless one of the two is [NaN]. *)
Definition center (e : env) (req : request) : Q * Q :=
  let latitude := Js.parseFloat (Query.latitude (query req)) in
  let longitude := Js.parseFloat (Query.longitude (query req)) in
  if Js.isNaN latitude || Js.isNaN longitude then fallback_center e (user req)
  else
    match latitude, longitude with
    | Js.Fin lat, Js.Fin lon => (lat, lon)
    | _, _ => fallback_center e (user req)
    end.

Section Geography.
Variable ST_Distance : geography -> geography -> Q.

(** [exports.searchByLocation]. *)
Definition searchByLocation (e : env) (req : request)
  : Controller searchData :=
  fun db =>
    match validationErrors req with
    | _ :: _ =>
        (failure 400 "validationError" (validationErrors req), db)
    | [] =>
        let radius := radius_of e (Query.radius (query req)) in
        let page := Js.parseInt_or (Query.page (query req)) 1 in
        let limit := Js.parseInt_or (Query.limit (query req)) 10 in
        let categoryIds := categoryIds_of (Query.categories (query req)) in
        let c := center e req in
        match Event.searchByLocation ST_Distance
                (search_args c radius categoryIds (query req) page limit) db
        with
        | (Db.Ok l, db') =>
            ({| status := 200; success := true; message := None;
                errors := [];
                data := Some (search_answer c radius categoryIds
                                (query req) l) |}, db')
        | (Db.Raise _, db') => (failure 500 "serverError" [], db')
        end
    end.

(** [GET /api/search/location]: the checks, then the controller. *)
Definition route (e : env) (q : Query.t) (user : option User.user)
  : Controller searchData :=
  searchByLocation e
    {| query := q; user := user;
       validationErrors := SearchRoutes.location_checks q |}.

End Geography.

End SearchController.

Module SearchService.

(** The statements of [searchByLocation] that settle the coordinate: the
    parsed pair when [isValidCoordinates] accepts it. *)
Definition center (e : env) (searchParams : Query.t)
  (user : option User.user) : Q * Q :=
  let latitude := Js.parseFloat (Query.latitude searchParams) in
  let longitude := Js.parseFloat (Query.longitude searchParams) in
  if negb (GeoUtils.isValidCoordinates latitude longitude)
  then fallback_center e user
  else
    match latitude, longitude with
    | Js.Fin lat, Js.Fin lon => (lat, lon)
    | _, _ => fallback_center e user
    end.

Section Geography.
Variable ST_Distance : geography -> geography -> Q.

(** [SearchService.searchByLocation]. *)
Definition searchByLocation (e : env) (searchParams : Query.t)
  (user : option User.user) : Service searchData :=
  fun db =>
    let radius := radius_of e (Query.radius searchParams) in
    let page := Js.parseInt_or (Query.page searchParams) 1 in
    let limit := Js.parseInt_or (Query.limit searchParams) 10 in
    let categoryIds := categoryIds_of (Query.categories searchParams) in
    let c := center e searchParams user in
    match Event.searchByLocation ST_Distance
            (search_args c radius categoryIds searchParams page limit) db
    with
    | (Db.Ok l, db') =>
        (inr (search_answer c radius categoryIds searchParams l), db')
    | (Db.Raise code, db') =>
        (inl (ErrorHandler.handleDatabaseError code), db')
    end.

End Geography.

End SearchService.

(* ===================================================================== *)
(** ** Updating an event: utils/validators.js, services/eventService.js  *)
(* ===================================================================== *)

Module EventValidators.

Definition in_range (lo hi : Q) (v : Q) : bool :=
  Qle_bool lo v && Qle_bool v hi.

Definition max_length (n : nat) (s : string) : bool :=
  (String.length s <=? n)%nat.

(** The custom check of [endTime] in [eventUpdateValidation]: it throws only
    when [req.body.startTime] is there and the end is not after it. *)
Definition endTime_after_startTime (body : Event.eventData) (endTime : Z)
  : bool :=
  match Event.startTime body with
  | Some startTime => negb (endTime <=? startTime)
  | None => true
  end.

(** The chain on [endTime]: [optional()] lets only [undefined] through
    unchecked; [null] is not an ISO-8601 date. *)
Definition endTime_checks (body : Event.eventData) : list string :=
  match Event.endTime body with
  | undefined => []
  | null => ["End time must be a valid date"]
  | value endTime =>
      if endTime_after_startTime body endTime then []
      else ["End time must be after start time"]
  end.

(** [eventUpdateValidation]. *)
Definition eventUpdateValidation (body : Event.eventData) : list string :=
  (Validator.optional (max_length 100)
     "Title must be less than 100 characters" (Event.title body)
   ++ Validator.optional (max_length 1000)
        "Description must be less than 1000 characters"
        (match Event.description body with
         | undefined => None
         | null => Some ""
         | value d => Some d
         end)
   ++ Validator.optional (in_range (-90) 90)
        "Latitude must be between -90 and 90" (Event.latitude body)
   ++ Validator.optional (in_range (-180) 180)
        "Longitude must be between -180 and 180" (Event.longitude body)
   ++ Validator.optional (max_length 255)
        "Address must be less than 255 characters" (Event.address body)
   ++ endTime_checks body)%list.

End EventValidators.

Module EventService.

(** The loop of [updateEvent] over [eventData.categories]. *)
Fixpoint validate_categories (categories : list Z) : Service unit :=
  fun db =>
    match categories with
    | [] => (inr tt, db)
    | categoryId :: rest =>
        match Category.getById categoryId db with
        | (Db.Ok (Some _), db') => validate_categories rest db'
        | (Db.Ok None, db') =>
            (inl (ErrorHandler.createError "categoryNotFound" 400), db')
        | (Db.Raise code, db') =>
            (inl (ErrorHandler.handleDatabaseError code), db')
        end
    end.

Definition same_user (creator_id : option Z) (userId : Z) : bool :=
  match creator_id with Some c => c =? userId | None => false end.

(** [EventService.updateEvent]. *)
Definition updateEvent (id : Z) (eventData : Event.eventData) (userId : Z)
  : Service (option Event.event) :=
  fun db =>
    match Event.getById id db with
    | (Db.Raise code, db1) =>
        (inl (ErrorHandler.handleDatabaseError code), db1)
    | (Db.Ok None, db1) => (inl (ErrorHandler.createError "notFound" 404), db1)
    | (Db.Ok (Some existingEvent), db1) =>
        if negb (same_user (Event.creator_id existingEvent) userId)
        then (inl (ErrorHandler.createError "unauthorized" 403), db1)
        else
          match validate_categories
                  (match Event.categories eventData with
                   | Some l => l
                   | None => []
                   end) db1
          with
          | (inl err, db2) => (inl err, db2)
          | (inr _, db2) =>
              match Event.update id eventData db2 with
              | (Db.Ok event, db3) => (inr event, db3)
              | (Db.Raise code, db3) =>
                  (inl (ErrorHandler.handleDatabaseError code), db3)
              end
          end
    end.

End EventService.

(* ===================================================================== *)
(** ** controllers/userController.js                                     *)
(* ===================================================================== *)

Module UserController.

(** [exports.unfavoriteEvent]; [userId] is [req.user.id], [eventId] the
    route parameter, the id of an event. *)
Definition unfavoriteEvent (userId eventId : Z) : Controller unit :=
  fun db =>
    match Event.unfavoriteEvent userId eventId db with
    | (Db.Ok result, db') =>
        if negb result then (failure 404 "notFound" [], db')
        else
          ({| status := 200; success := true;
              message := Some "eventUnfavorited"; errors := [];
              data := None |}, db')
    | (Db.Raise _, db') => (failure 500 "serverError" [], db')
    end.

End UserController.

(* ===================================================================== *)
(** ** The operations on the store and the properties stated about them   *)
(* ===================================================================== *)

Module Operations.

(** The methods of the [User] and [Event] models that write to the store. *)
Inductive op : Type :=
| user_create (userData : User.userData)
| user_update (id : Z) (userData : User.userData)
| user_updatePassword (id : Z) (newPassword : string)
| user_setPreferredCategories (userId : Z) (categoryIds : option (list Z))
| event_create (eventData : Event.eventData)
| event_update (id : Z) (eventData : Event.eventData)
| event_delete (id : Z)
| event_addReview (eventId userId rating : Z) (review : option string)
| event_favoriteEvent (userId eventId : Z)
| event_unfavoriteEvent (userId eventId : Z).

(** The store after an operation, whether it returned or threw. *)
Definition exec (o : op) (db : Db.store) : Db.store :=
  match o with
  | user_create d => snd (User.create d db)
  | user_update id d => snd (User.update id d db)
  | user_updatePassword id p => snd (User.updatePassword id p db)
  | user_setPreferredCategories u l =>
      snd (User.setPreferredCategories u l db)
  | event_create d => snd (Event.create d db)
  | event_update id d => snd (Event.update id d db)
  | event_delete id => snd (Event.delete id db)
  | event_addReview e u r t => snd (Event.addReview e u r t db)
  | event_favoriteEvent u e => snd (Event.favoriteEvent u e db)
  | event_unfavoriteEvent u e => snd (Event.unfavoriteEvent u e db)
  end.

Definition run (ops : list op) (db : Db.store) : Db.store :=
  fold_left (fun s o => exec o s) ops db.

End Operations.

(** The reviews stored for a pair (event, user). *)
Definition reviews_of (db : Db.store) (eventId userId : Z)
  : list EventReviews.row :=
  filter (Event.review_of eventId userId) (Db.event_reviews db).

(** At most one review per pair (event, user). *)
Definition one_review_per_pair (db : Db.store) : Prop :=
  forall eventId userId,
    (List.length (reviews_of db eventId userId) <= 1)%nat.

(** The pair (user, event) is among the favorites. *)
Definition favorited (db : Db.store) (userId eventId : Z) : bool :=
  existsb (Event.favorite_of userId eventId) (Db.user_favorite_events db).


(** The category ids associated with an event. *)
Definition categories_of (db : Db.store) (eventId : Z) : list Z :=
  map EventCategories.category_id
    (filter (fun ec => EventCategories.event_id ec =? eventId)
            (Db.event_categories db)).

(** The primary key of [events], and the reference from [event_categories]
    to [categories]. *)
Definition events_key (db : Db.store) : Prop :=
  NoDup (map Events.id (Db.events db)).

Definition categories_referenced (db : Db.store) : Prop :=
  forall ec, In ec (Db.event_categories db) ->
             Event.exists_category db (EventCategories.category_id ec) = true.

(** *** The filters in the words of the design document

    An event matches when it satisfies every supplied filter; with several
    category ids it is enough that it has any of them. *)
Definition has_any_category (db : Db.store) (ids : list Q) (e : Events.row)
  : bool :=
  existsb
    (fun ec => (EventCategories.event_id ec =? Events.id e)
               && Sql.in_list (EventCategories.category_id ec) ids)
    (Db.event_categories db).

Definition in_date_range (startDate endDate : option Z) (e : Events.row)
  : bool :=
  match startDate with Some d => d <=? Events.start_time e | None => true end
  && match endDate with Some d => Events.start_time e <=? d | None => true end.

Definition category_filter (db : Db.store) (ids : list Q) (e : Events.row)
  : bool :=
  match ids with
  | [] => true
  | _ :: _ => has_any_category db ids e
  end.

Definition created_by (creatorId : option Z) (e : Events.row) : bool :=
  match creatorId with
  | Some u =>
      match Events.creator_id e with Some c => c =? u | None => false end
  | None => true
  end.

Section Geography.
Variable ST_Distance : geography -> geography -> Q.

(** The distance in kilometres from an event to the search centre. *)
Definition distanceKm (center : geography) (location : geography) : Q :=
  (ST_Distance location center / 1000)%Q.

(** The events that match a location search. *)
Definition matches_search (db : Db.store) (center : geography) (radius : Q)
  (ids : list Q) (startDate endDate : option Z) (e : Events.row) : bool :=
  Qle_bool (distanceKm center (Events.location e)) radius
  && in_date_range startDate endDate e
  && category_filter db ids e.

(** The order of the results of a location search: nearer first, and at
    equal distance the earlier start first. *)
Definition nearer_then_earlier (center : geography) (a b : Event.event)
  : Prop :=
  (distanceKm center (Event.location a)
   < distanceKm center (Event.location b))%Q
  \/ ((distanceKm center (Event.location a)
       == distanceKm center (Event.location b))%Q
      /\ Event.start_time a <= Event.start_time b).

(** No two events of the list have the same sort key, that is, the same
    distance to the centre and the same start time.  The clause
    [ORDER BY distance_km ASC, e.start_time ASC] has no further key, and
    leaves open the order of two rows that agree on both. *)
Definition no_ties (center : geography) (l : list Event.event) : Prop :=
  forall a b, In a l -> In b l ->
    (distanceKm center (Event.location a)
     == distanceKm center (Event.location b))%Q ->
    Event.start_time a = Event.start_time b -> a = b.
End Geography.

(** The creator that a call of [getAll] filters on: [creatorId] when it is
    a number other than 0.  The test of the code is [if (creatorId)], so a
    [creatorId] of 0 is not a filter, as [null] is not; the ids of users come
    from a sequence that starts at 1. *)
Definition creator_filter (creatorId : option Z) : option Z :=
  match creatorId with
  | Some 0 => None
  | given => given
  end.

(** The events that match the filters of [getAll]. *)
Definition matches_all (db : Db.store) (creatorId : option Z) (ids : list Q)
  (startDate endDate : option Z) (e : Events.row) : bool :=
  created_by creatorId e
  && in_date_range startDate endDate e
  && category_filter db ids e.

(** [k] is the ceiling of [total / limit]. *)
Definition is_ceiling (total limit k : Z) : Prop :=
  (k - 1) * limit < total <= k * limit.

(** The row that [update_review] writes in place of a review. *)
Definition rewritten (now eventId userId rating : Z) (review : option string)
  (r : EventReviews.row) : EventReviews.row :=
  if Event.review_of eventId userId r then
    {| EventReviews.id := EventReviews.id r;
       EventReviews.event_id := EventReviews.event_id r;
       EventReviews.user_id := EventReviews.user_id r;
       EventReviews.rating := rating;
       EventReviews.review := review;
       EventReviews.created_at := EventReviews.created_at r;
       EventReviews.updated_at := now |}
  else r.





(** A part of the store that a piece of code leaves as it found it. *)
Definition keeps {A B} (part : Db.store -> B) (m : Db.M A) : Prop :=
  forall db, part (snd (m db)) = part db.

(** The number of events that match a location search, and the number that
    match the filters of [getAll]; [ids] are the requested category ids. *)
Definition search_total (ST_Distance : geography -> geography -> Q)
  (db : Db.store) (p : Event.searchParams.t) (ids : list Q) : Z :=
  Z.of_nat
    (List.length
       (filter
          (matches_search ST_Distance db
             (ST_MakePoint (Event.searchParams.longitude p)
                           (Event.searchParams.latitude p))
             (Event.default (Event.searchParams.radius p) 10%Q)
             ids (Event.searchParams.startDate p)
             (Event.searchParams.endDate p))
          (Db.events db))).

Definition getAll_total (db : Db.store) (p : Event.getAllParams.t)
  (ids : list Q) : Z :=
  Z.of_nat
    (List.length
       (filter
          (matches_all db (creator_filter (Event.getAllParams.creatorId p))
             ids (Event.getAllParams.startDate p)
             (Event.getAllParams.endDate p))
          (Db.events db))).


(* ===================================================================== *)
(** ** A small store used to run the code on concrete inputs             *)
(* ===================================================================== *)

Module Sample.

(** San Francisco, the centre of the example scenario. *)
Definition center : geography :=
  ST_MakePoint (-612097 # 5000) (377749 # 10000).

Definition place1 : geography := ST_MakePoint (-12242 # 100) (3778 # 100).
Definition place2 : geography := ST_MakePoint (-12240 # 100) (3776 # 100).
Definition place3 : geography := ST_MakePoint (-12230 # 100) (3780 # 100).

(** A distance table: 1.2 km, 2.5 km and 12 km from anywhere to the three
    places. *)
Definition distance (a b : geography) : Q :=
  if geography_eq_dec a place1 then 1200
  else if geography_eq_dec a place2 then 2500
  else 12000.

Definition event_row (id : Z) (location : geography) (start_time : Z)
  : Events.row :=
  {| Events.id := id; Events.title := "Event";
     Events.description := None; Events.location := location;
     Events.address := None; Events.start_time := start_time;
     Events.end_time := None; Events.creator_id := Some 7;
     Events.created_at := 0; Events.updated_at := 0 |}.

Definition alice : Users.row :=
  {| Users.id := 7; Users.username := "alice";
     Users.email := "alice@example.org";
     Users.password := bcrypt_hash "secret" 10;
     Users.full_name := None; Users.location := Some place1;
     Users.preferred_language := "en";
     Users.created_at := 0; Users.updated_at := 0 |}.

Definition db : Db.store :=
  {| Db.users := [alice];
     Db.events :=
       [event_row 3 place3 100; event_row 2 place2 100; event_row 1 place1 100];
     Db.categories :=
       [{| Categories.id := 1; Categories.name := "Music" |};
        {| Categories.id := 2; Categories.name := "Technology" |}];
     Db.event_categories :=
       [{| EventCategories.event_id := 1; EventCategories.category_id := 1 |};
        {| EventCategories.event_id := 2; EventCategories.category_id := 2 |};
        {| EventCategories.event_id := 3; EventCategories.category_id := 1 |}];
     Db.event_reviews :=
       [{| EventReviews.id := 1; EventReviews.event_id := 1;
           EventReviews.user_id := 7; EventReviews.rating := 4;
           EventReviews.review := None;
           EventReviews.created_at := 0; EventReviews.updated_at := 0 |}];
     Db.user_favorite_events :=
       [{| UserFavoriteEvents.user_id := 7; UserFavoriteEvents.event_id := 1;
           UserFavoriteEvents.created_at := 0 |}];
     Db.user_preferred_categories := [];
     Db.users_id_seq := 8;
     Db.events_id_seq := 4;
     Db.event_reviews_id_seq := 2;
     Db.now := 1000 |}.

(** A search of 5 km around the centre, first page of ten. *)
Definition search : Event.searchParams.t :=
  {| Event.searchParams.latitude := 377749 # 10000;
     Event.searchParams.longitude := -612097 # 5000;
     Event.searchParams.radius := Some 5%Q;
     Event.searchParams.categoryIds := None;
     Event.searchParams.startDate := None;
     Event.searchParams.endDate := None;
     Event.searchParams.page := Some 1;
     Event.searchParams.limit := Some 10 |}.

Definition found (db : Db.store) : list Event.event :=
  match Event.searchByLocation distance search db with
  | (Db.Ok l, _) => Event.events l
  | (Db.Raise _, _) => []
  end.

(** A registration at latitude 0, and an update that moves an event to
    latitude 0. *)
Definition newcomer : User.userData :=
  {| User.username := Some "bob"; User.email := Some "bob@example.org";
     User.password := "hunter2"; User.fullName := None;
     User.latitude := Some 0%Q; User.longitude := Some (-612097 # 5000);
     User.preferredLanguage := None |}.

Definition to_equator : Event.eventData :=
  {| Event.title := Some "Moved"; Event.description := undefined;
     Event.latitude := Some 0%Q; Event.longitude := Some 10%Q;
     Event.address := None; Event.startTime := None;
     Event.endTime := undefined; Event.creatorId := None;
     Event.categories := None |}.

(** An update that supplies nothing but a list of categories, and one that
    supplies a title as well. *)
Definition only_categories : Event.eventData :=
  {| Event.title := None; Event.description := undefined;
     Event.latitude := None; Event.longitude := None;
     Event.address := None; Event.startTime := None;
     Event.endTime := undefined; Event.creatorId := None;
     Event.categories := Some [2] |}.

Definition title_and_categories : Event.eventData :=
  {| Event.title := Some "Renamed"; Event.description := undefined;
     Event.latitude := None; Event.longitude := None;
     Event.address := None; Event.startTime := None;
     Event.endTime := undefined; Event.creatorId := None;
     Event.categories := Some [2] |}.

(** An update that supplies nothing but an end time, earlier than the start
    time stored for every event of the store. *)
Definition early_end : Event.eventData :=
  {| Event.title := None; Event.description := undefined;
     Event.latitude := None; Event.longitude := None;
     Event.address := None; Event.startTime := None;
     Event.endTime := value 50; Event.creatorId := None;
     Event.categories := None |}.

(** No configuration, and three search requests: around San Francisco, at
    latitude 95, and with a category that is not a number. *)
Definition no_env : env :=
  {| DEFAULT_LATITUDE := None; DEFAULT_LONGITUDE := None;
     DEFAULT_SEARCH_RADIUS := None |}.

Definition around (latitude longitude : string)
  (categories : option categories_param) : Query.t :=
  {| Query.latitude := Some latitude; Query.longitude := Some longitude;
     Query.radius := None; Query.page := None; Query.limit := None;
     Query.categories := categories;
     Query.startDate := None; Query.endDate := None |}.

Definition downtown : Query.t := around "37.7749" "-122.4194" None.

Definition far_north : Query.t := around "95" "10" None.

Definition mixed_categories : Query.t :=
  around "37.7749" "-122.4194" (Some (many ["1"; "abc"])).

Definition request (q : Query.t) : SearchController.request :=
  {| SearchController.query := q; SearchController.user := None;
     SearchController.validationErrors := SearchRoutes.location_checks q |}.

End Sample.

(* ===================================================================== *)
(** ** The remaining lookups of the models, and the services and
       controllers built on them                                          *)
(* ===================================================================== *)

Module UserLookup.

(** [User.findByUsernameOrEmail] of models/User.js: the first row whose
    [username] or [email] is the given text, with its password. *)
Definition findByUsernameOrEmail (usernameOrEmail : string)
  : Db.M (option User.user) :=
  Db.query (fun db =>
    match filter
            (fun r => String.eqb (Users.username r) usernameOrEmail
                      || String.eqb (Users.email r) usernameOrEmail)
            (Db.users db)
    with
    | [] => None
    | r :: _ => Some (User.of_row true true r)
    end).

End UserLookup.

Module Favorites.

(** An event of [getUserFavorites]: the event and [favorited_at]. *)
Record favorite : Type := { favorite_event : Event.event; favorited_at : Z }.

Record listing : Type := {
  events : list favorite;
  listing_pagination : Event.pagination
}.

(** A row of [events e JOIN user_favorite_events ufe ON e.id = ufe.event_id
    WHERE ufe.user_id = $1]. *)
Definition joined : Type := (Events.row * UserFavoriteEvents.row)%type.

Definition from_favorites (db : Db.store) (userId : Z) : list joined :=
  flat_map
    (fun e =>
       flat_map
         (fun ufe =>
            if (Events.id e =? UserFavoriteEvents.event_id ufe)
               && (UserFavoriteEvents.user_id ufe =? userId)
            then [(e, ufe)] else [])
         (Db.user_favorite_events db))
    (Db.events db).

(** [ORDER BY ufe.created_at DESC]. *)
Definition newer_first (a b : joined) : bool :=
  UserFavoriteEvents.created_at (snd b)
  <=? UserFavoriteEvents.created_at (snd a).

(** [Event.getUserFavorites]; [page] and [limit] default to 1 and 10. *)
Definition getUserFavorites (userId : Z) (page limit : option Z)
  : Db.M listing :=
  let page := Event.default page 1 in
  let limit := Event.default limit 10 in
  let offset := (page - 1) * limit in
  total <- Db.query (fun db =>
    Z.of_nat
      (List.length
         (filter (fun ufe => UserFavoriteEvents.user_id ufe =? userId)
                 (Db.user_favorite_events db)))) ;;
  rows <- (fun db =>
    Event.lift (Sql.limit_offset limit offset
                  (Sql.order_by newer_first (from_favorites db userId)))
               db) ;;
  events <- Db.query (fun db =>
    map (fun r => {| favorite_event := Event.of_row db None (fst r);
                     favorited_at := UserFavoriteEvents.created_at (snd r) |})
        rows) ;;
  Db.ret {| events := events;
            listing_pagination :=
              {| Event.total := total; Event.page := page;
                 Event.limit := limit;
                 Event.pages := Js.ceil_div total limit |} |}.

End Favorites.

(** The error thrown when the code fails on a value that is [null]: it has
    no [statusCode] and no [code], and [handleDatabaseError] answers it with
    its default. *)
Definition type_error : ErrorHandler.error :=
  ErrorHandler.createError "serverError" 500.

(** The rest of services/eventService.js. *)
Module EventLifecycle.

Definition as_creator (eventData : Event.eventData) (userId : Z)
  : Event.eventData :=
  {| Event.title := Event.title eventData;
     Event.description := Event.description eventData;
     Event.latitude := Event.latitude eventData;
     Event.longitude := Event.longitude eventData;
     Event.address := Event.address eventData;
     Event.startTime := Event.startTime eventData;
     Event.endTime := Event.endTime eventData;
     Event.creatorId := Some userId;
     Event.categories := Event.categories eventData |}.

(** [EventService.createEvent]: the categories are looked up, then the event
    is created with the caller as its creator; the two notification calls
    that follow only log and return. *)
Definition createEvent (eventData : Event.eventData) (userId : Z)
  : Service (option Event.event) :=
  fun db =>
    match EventService.validate_categories
            (match Event.categories eventData with
             | Some l => l
             | None => []
             end) db
    with
    | (inl err, db1) => (inl err, db1)
    | (inr _, db1) =>
        match Event.create (as_creator eventData userId) db1 with
        | (Db.Ok event, db2) => (inr event, db2)
        | (Db.Raise code, db2) =>
            (inl (ErrorHandler.handleDatabaseError code), db2)
        end
    end.

(** [EventService.deleteEvent]. *)
Definition deleteEvent (id userId : Z) : Service bool :=
  fun db =>
    match Event.getById id db with
    | (Db.Raise code, db1) =>
        (inl (ErrorHandler.handleDatabaseError code), db1)
    | (Db.Ok None, db1) => (inl (ErrorHandler.createError "notFound" 404), db1)
    | (Db.Ok (Some existingEvent), db1) =>
        if negb (EventService.same_user (Event.creator_id existingEvent) userId)
        then (inl (ErrorHandler.createError "unauthorized" 403), db1)
        else
          match Event.delete id db1 with
          | (Db.Ok success, db2) =>
              if negb success
              then (inl (ErrorHandler.createError "serverError" 500), db2)
              else (inr true, db2)
          | (Db.Raise code, db2) =>
              (inl (ErrorHandler.handleDatabaseError code), db2)
          end
    end.

(** [EventService.addReview]. *)
Definition addReview (eventId userId rating : Z) (review : option string)
  : Service (option EventReviews.row) :=
  fun db =>
    match Event.getById eventId db with
    | (Db.Raise code, db1) =>
        (inl (ErrorHandler.handleDatabaseError code), db1)
    | (Db.Ok None, db1) => (inl (ErrorHandler.createError "notFound" 404), db1)
    | (Db.Ok (Some _), db1) =>
        match Event.addReview eventId userId rating review db1 with
        | (Db.Ok reviewResult, db2) => (inr reviewResult, db2)
        | (Db.Raise code, db2) =>
            (inl (ErrorHandler.handleDatabaseError code), db2)
        end
    end.

End EventLifecycle.

(** services/user.Service.js. *)
Module UserService.

(** The check made by [updateProfile] on a new [username] or [email]:
    nothing when the field is falsy or unchanged, error 400 when the lookup
    finds a user with another id. *)
Definition check_taken (userId : Z) (current : User.user -> string)
  (message : string) (v : option string) : Service unit :=
  fun db =>
    match v with
    | Some text =>
        if Js.truthy_str text then
          match User.findById userId db with
          | (Db.Raise code, db1) =>
              (inl (ErrorHandler.handleDatabaseError code), db1)
          | (Db.Ok None, db1) => (inl type_error, db1)
          | (Db.Ok (Some user), db1) =>
              if negb (String.eqb text (current user)) then
                match UserLookup.findByUsernameOrEmail text db1 with
                | (Db.Raise code, db2) =>
                    (inl (ErrorHandler.handleDatabaseError code), db2)
                | (Db.Ok (Some existingUser), db2) =>
                    if negb (User.id existingUser =? userId)
                    then (inl (ErrorHandler.createError message 400), db2)
                    else (inr tt, db2)
                | (Db.Ok None, db2) => (inr tt, db2)
                end
              else (inr tt, db1)
          end
        else (inr tt, db)
    | None => (inr tt, db)
    end.

(** [UserService.updateProfile]. *)
Definition updateProfile (userId : Z) (userData : User.userData)
  : Service User.user :=
  fun db =>
    match check_taken userId User.user_username "auth:usernameExists"
            (User.username userData) db
    with
    | (inl err, db1) => (inl err, db1)
    | (inr _, db1) =>
        match check_taken userId User.user_email "auth:emailExists"
                (User.email userData) db1
        with
        | (inl err, db2) => (inl err, db2)
        | (inr _, db2) =>
            match User.update userId userData db2 with
            | (Db.Ok (Some updatedUser), db3) => (inr updatedUser, db3)
            | (Db.Ok None, db3) =>
                (inl (ErrorHandler.createError "serverError" 500), db3)
            | (Db.Raise code, db3) =>
                (inl (ErrorHandler.handleDatabaseError code), db3)
            end
        end
    end.

(** [UserService.updatePreferredCategories]. *)
Definition updatePreferredCategories (userId : Z)
  (categoryIds : option (list Z)) : Service (list Categories.row) :=
  fun db =>
    match EventService.validate_categories
            (match categoryIds with Some l => l | None => [] end) db
    with
    | (inl err, db1) => (inl err, db1)
    | (inr _, db1) =>
        match User.setPreferredCategories userId categoryIds db1 with
        | (Db.Ok updatedCategories, db2) => (inr updatedCategories, db2)
        | (Db.Raise code, db2) =>
            (inl (ErrorHandler.handleDatabaseError code), db2)
        end
    end.

(** [UserService.favoriteEvent]. *)
Definition favoriteEvent (userId eventId : Z)
  : Service (option UserFavoriteEvents.row) :=
  fun db =>
    match Event.getById eventId db with
    | (Db.Raise code, db1) =>
        (inl (ErrorHandler.handleDatabaseError code), db1)
    | (Db.Ok None, db1) => (inl (ErrorHandler.createError "notFound" 404), db1)
    | (Db.Ok (Some _), db1) =>
        match Event.favoriteEvent userId eventId db1 with
        | (Db.Ok result, db2) => (inr result, db2)
        | (Db.Raise code, db2) =>
            (inl (ErrorHandler.handleDatabaseError code), db2)
        end
    end.

End UserService.

(** The other handler of controllers/userController.js on favorites. *)
Module FavoriteController.

(** [exports.favoriteEvent]; [userId] is [req.user.id], [eventId] the route
    parameter, the id of an event. *)
Definition favoriteEvent (userId eventId : Z) : Controller unit :=
  fun db =>
    match Event.getById eventId db with
    | (Db.Ok None, db1) => (failure 404 "notFound" [], db1)
    | (Db.Ok (Some _), db1) =>
        match Event.favoriteEvent userId eventId db1 with
        | (Db.Ok _, db2) =>
            ({| status := 200; success := true;
                message := Some "eventFavorited"; errors := [];
                data := None |}, db2)
        | (Db.Raise _, db2) => (failure 500 "serverError" [], db2)
        end
    | (Db.Raise _, db1) => (failure 500 "serverError" [], db1)
    end.

End FavoriteController.

(** At most one favorite marker per pair (user, event). *)
Definition favorites_of (db : Db.store) (userId eventId : Z)
  : list UserFavoriteEvents.row :=
  filter (Event.favorite_of userId eventId) (Db.user_favorite_events db).

Definition one_favorite_per_pair (db : Db.store) : Prop :=
  forall userId eventId,
    (List.length (favorites_of db userId eventId) <= 1)%nat.

(** The tables of the store, without the sequences and the clock. *)
Definition tables (db : Db.store) :=
  (Db.users db, Db.events db, Db.categories db, Db.event_categories db,
   Db.event_reviews db, Db.user_favorite_events db,
   Db.user_preferred_categories db).

(** The columns of an event that no statement of the model assigns. *)
Definition event_identity (r : Events.row) : Z * option Z * Z :=
  (Events.id r, Events.creator_id r, Events.created_at r).

(** The columns of a user that [User.update] does not assign. *)
Definition user_identity (r : Users.row) : Z * password_hash * Z :=
  (Users.id r, Users.password r, Users.created_at r).

(** The ids of the event primary key are below the next value of the
    sequence. *)
Definition events_below_seq (db : Db.store) : Prop :=
  forall r, In r (Db.events db) -> Events.id r < Db.events_id_seq db.

Definition users_below_seq (db : Db.store) : Prop :=
  forall r, In r (Db.users db) -> Users.id r < Db.users_id_seq db.

(** The row that an [UPDATE events] built from the supplied fields writes
    in place of [r]: a column whose field was not supplied keeps its
    value. *)
Definition updated_row (now : Z) (d : Event.eventData) (r : Events.row)
  : Events.row :=
  {| Events.id := Events.id r;
     Events.title :=
       match Event.title d with
       | Some t => if Js.truthy_str t then t else Events.title r
       | None => Events.title r
       end;
     Events.description :=
       match Event.description d with
       | undefined => Events.description r
       | null => None
       | value v => Some v
       end;
     Events.location :=
       match Event.latitude d, Event.longitude d with
       | Some lat, Some lon =>
           if truthy_q lat && truthy_q lon then ST_MakePoint lon lat
           else Events.location r
       | _, _ => Events.location r
       end;
     Events.address :=
       match Event.address d with
       | Some a => if Js.truthy_str a then Some a else Events.address r
       | None => Events.address r
       end;
     Events.start_time :=
       match Event.startTime d with
       | Some s => s
       | None => Events.start_time r
       end;
     Events.end_time :=
       match Event.endTime d with
       | undefined => Events.end_time r
       | null => None
       | value v => Some v
       end;
     Events.creator_id := Events.creator_id r;
     Events.created_at := Events.created_at r;
     Events.updated_at := now |}.

(** The same search, or the same listing, at another page. *)
Definition search_page (p : Event.searchParams.t) (page limit : Z)
  : Event.searchParams.t :=
  {| Event.searchParams.latitude := Event.searchParams.latitude p;
     Event.searchParams.longitude := Event.searchParams.longitude p;
     Event.searchParams.radius := Event.searchParams.radius p;
     Event.searchParams.categoryIds := Event.searchParams.categoryIds p;
     Event.searchParams.startDate := Event.searchParams.startDate p;
     Event.searchParams.endDate := Event.searchParams.endDate p;
     Event.searchParams.page := Some page;
     Event.searchParams.limit := Some limit |}.

(** The [SET] list that [User.update] assembles from the supplied fields. *)
Definition user_updateFields (userData : User.userData)
  : list User.assignment :=
  (User.field Js.truthy_str User.set_username (User.username userData)
   ++ User.field Js.truthy_str User.set_email (User.email userData)
   ++ User.field Js.truthy_str User.set_full_name (User.fullName userData)
   ++ User.field Js.truthy_str User.set_preferred_language
        (User.preferredLanguage userData)
   ++ match User.latitude userData, User.longitude userData with
      | Some lat, Some lon =>
          if truthy_q lat && truthy_q lon
          then [User.set_location (ST_MakePoint lon lat)]
          else []
      | _, _ => []
      end
   ++ [User.set_updated_at])%list.

(** The preferred categories stored for a user. *)
Definition preferences_of (db : Db.store) (userId : Z) : list Z :=
  map UserPreferredCategories.category_id
    (filter (fun r => UserPreferredCategories.user_id r =? userId)
            (Db.user_preferred_categories db)).

(* ===================================================================== *)
(** ** server.js: the API over the in-memory arrays                      *)
(* ===================================================================== *)

(** The handlers of server.js keep their data in two arrays and a counter.
    The fields of a request body are typed: texts are strings, coordinates
    and ids are numbers, dates are the instants they denote; a field that
    is absent is [None].  The body itself is always there (the JSON parser
    leaves an empty object when nothing was sent), and on typed fields no
    handler throws, so that the answers 500 of the [catch] blocks do not
    occur.  Times are in milliseconds since the epoch. *)
Module Server.

(** The functions of [Math] used by the distance, on exact numbers. *)
Record math : Type := {
  PI : Q;
  sin : Q -> Q;
  cos : Q -> Q;
  sqrt : Q -> Q;
  atan2 : Q -> Q -> Q
}.

Module User.

Record preferences : Type := {
  preferredCategories : list string;
  preferredLanguages : list string;
  notificationRadius : option Q;
  notificationsEnabled : option bool
}.

(** An element of [users]; [coordinates] is [[longitude, latitude]]. *)
Record t : Type := {
  id : Z;
  username : string;
  email : string;
  password : string;
  fullName : string;
  coordinates : option Q * option Q;
  user_preferences : preferences;
  createdAt : Z
}.

End User.

(** [userWithoutPassword]: the user with its [password] left out. *)
Module Profile.

Record t : Type := {
  id : Z;
  username : string;
  email : string;
  fullName : string;
  coordinates : option Q * option Q;
  user_preferences : User.preferences;
  createdAt : Z
}.

End Profile.

Definition userWithoutPassword (u : User.t) : Profile.t :=
  {| Profile.id := User.id u;
     Profile.username := User.username u;
     Profile.email := User.email u;
     Profile.fullName := User.fullName u;
     Profile.coordinates := User.coordinates u;
     Profile.user_preferences := User.user_preferences u;
     Profile.createdAt := User.createdAt u |}.

Module Event.

(** An element of [events]; [coordinates] is [[longitude, latitude]], and
    [distance] is the property that a location search adds. *)
Record t : Type := {
  id : Z;
  title : string;
  description : string;
  category : string;
  startDate : Z;
  endDate : option Z;
  coordinates : Q * Q;
  address : option string;
  organizerId : Z;
  languages : list string;
  createdAt : Z;
  updatedAt : Z;
  distance : option Js.jsnum
}.

End Event.

Record state : Type := {
  users : list User.t;
  events : list Event.t;
  eventIdCounter : Z
}.

(** The state when the server starts. *)
Definition start : state :=
  {| users := []; events := []; eventIdCounter := 1 |}.

(** The JSON documents of the answers. *)
Inductive json : Type :=
| message (text : string)
| user_message (text : string) (user : Profile.t)
| login_message (text token : string) (user : Profile.t)
| preferences_json (preferences : User.preferences)
| event_message (text : string) (event : Event.t)
| event_json (event : Event.t)
| events_json (count : Z) (events : list Event.t).

Record response : Type := { status : Z; body : json }.

Definition handler : Type := state -> response * state.

Definition answer (status : Z) (body : json) (s : state)
  : response * state :=
  ({| status := status; body := body |}, s).

(** [!v] on a text, a number and any other field that may be absent. *)
Definition no_text (v : option string) : bool :=
  match v with Some s => negb (Js.truthy_str s) | None => true end.

Definition no_number (v : option Q) : bool :=
  match v with Some q => negb (truthy_q q) | None => true end.

Definition no_id (v : option Z) : bool :=
  match v with Some n => n =? 0 | None => true end.

Definition absent {A} (v : option A) : bool :=
  match v with Some _ => false | None => true end.

Definition text_of (v : option string) : string :=
  match v with Some s => s | None => "" end.

(** [x.id === parseInt(param)]. *)
Definition id_is (param : string) (id : Z) : bool :=
  match Js.parseInt_Z param with
  | Some n => id =? n
  | None => false
  end.

(** [array.findIndex(p)] together with [array[index]] when the index is
    not -1; then [array[i] = v] and [array.splice(i, 1)]. *)
Fixpoint findIndex {A} (p : A -> bool) (l : list A) : option (nat * A) :=
  match l with
  | [] => None
  | x :: r =>
      if p x then Some (O, x)
      else option_map (fun found => (S (fst found), snd found))
                      (findIndex p r)
  end.

Fixpoint set_at {A} (i : nat) (v : A) (l : list A) : list A :=
  match l, i with
  | [], _ => []
  | _ :: r, O => v :: r
  | x :: r, S j => x :: set_at j v r
  end.

Definition splice1 {A} (i : nat) (l : list A) : list A :=
  (firstn i l ++ skipn (S i) l)%list.

Module Register.
Record body : Type := {
  username : option string;
  email : option string;
  password : option string;
  fullName : option string;
  latitude : option Q;
  longitude : option Q
}.
End Register.

(** [POST /api/auth/register]. *)
Definition register (now : Z) (b : Register.body) : handler :=
  fun s =>
    if no_text (Register.username b) || no_text (Register.email b)
       || no_text (Register.password b) || no_text (Register.fullName b)
    then answer 400 (message "All fields are required") s
    else
      let username := text_of (Register.username b) in
      let email := text_of (Register.email b) in
      let password := text_of (Register.password b) in
      match find (fun user => String.eqb (User.email user) email
                              || String.eqb (User.username user) username)
                 (users s)
      with
      | Some _ => answer 400 (message "User already exists") s
      | None =>
          let hashedPassword := (password ++ "_hashed")%string in
          let newUser :=
            {| User.id := Z.of_nat (List.length (users s)) + 1;
               User.username := username;
               User.email := email;
               User.password := hashedPassword;
               User.fullName := text_of (Register.fullName b);
               User.coordinates :=
                 (Register.longitude b, Register.latitude b);
               User.user_preferences :=
                 {| User.preferredCategories := [];
                    User.preferredLanguages := ["en"];
                    User.notificationRadius := Some 10%Q;
                    User.notificationsEnabled := Some true |};
               User.createdAt := now |} in
          answer 201
            (user_message "User registered successfully"
               (userWithoutPassword newUser))
            {| users := (users s ++ [newUser])%list;
               events := events s;
               eventIdCounter := eventIdCounter s |}
      end.

Module Login.
Record body : Type := {
  usernameOrEmail : option string;
  password : option string
}.
End Login.

(** [POST /api/auth/login]; the token is made of the id of the user and of
    the time, both non-negative integers. *)
Definition login (now : Z) (b : Login.body) : handler :=
  fun s =>
    if no_text (Login.usernameOrEmail b) || no_text (Login.password b)
    then answer 400 (message "All fields are required") s
    else
      let usernameOrEmail := text_of (Login.usernameOrEmail b) in
      let password := text_of (Login.password b) in
      match find (fun user => String.eqb (User.username user) usernameOrEmail
                              || String.eqb (User.email user) usernameOrEmail)
                 (users s)
      with
      | None => answer 401 (message "Invalid credentials") s
      | Some user =>
          let isMatch :=
            String.eqb (User.password user) (password ++ "_hashed") in
          if negb isMatch
          then answer 401 (message "Invalid credentials") s
          else
            let token :=
              ("token_" ++ string_of_nat_Z (User.id user) ++ "_"
               ++ string_of_nat_Z now)%string in
            answer 200
              (login_message "Login successful" token
                 (userWithoutPassword user)) s
      end.

Module Preferences.
Record body : Type := {
  preferredCategories : option (list string);
  preferredLanguages : option (list string);
  notificationRadius : jsfield Q;
  notificationsEnabled : jsfield bool
}.
End Preferences.

(** The preferences after the assignments of
    [POST /api/users/preferences/:userId]: the two lists when they are
    given, the radius and the switch when they are not [undefined]. *)
Definition updatedPreferences (b : Preferences.body) (p : User.preferences)
  : User.preferences :=
  {| User.preferredCategories :=
       match Preferences.preferredCategories b with
       | Some l => l
       | None => User.preferredCategories p
       end;
     User.preferredLanguages :=
       match Preferences.preferredLanguages b with
       | Some l => l
       | None => User.preferredLanguages p
       end;
     User.notificationRadius :=
       match Preferences.notificationRadius b with
       | undefined => User.notificationRadius p
       | null => None
       | value r => Some r
       end;
     User.notificationsEnabled :=
       match Preferences.notificationsEnabled b with
       | undefined => User.notificationsEnabled p
       | null => None
       | value v => Some v
       end |}.

Definition with_preferences (u : User.t) (p : User.preferences) : User.t :=
  {| User.id := User.id u;
     User.username := User.username u;
     User.email := User.email u;
     User.password := User.password u;
     User.fullName := User.fullName u;
     User.coordinates := User.coordinates u;
     User.user_preferences := p;
     User.createdAt := User.createdAt u |}.

(** [POST /api/users/preferences/:userId]. *)
Definition setPreferences (userId : string) (b : Preferences.body)
  : handler :=
  fun s =>
    match findIndex (fun u => id_is userId (User.id u)) (users s) with
    | None => answer 404 (message "User not found") s
    | Some (userIndex, u) =>
        let user :=
          with_preferences u (updatedPreferences b (User.user_preferences u))
        in
        answer 200
          (user_message "Preferences updated successfully"
             (userWithoutPassword user))
          {| users := set_at userIndex user (users s);
             events := events s;
             eventIdCounter := eventIdCounter s |}
    end.

(** [GET /api/users/preferences/:userId]. *)
Definition getPreferences (userId : string) : handler :=
  fun s =>
    match find (fun u => id_is userId (User.id u)) (users s) with
    | None => answer 404 (message "User not found") s
    | Some user => answer 200 (preferences_json (User.user_preferences user)) s
    end.

Module EventBody.
Record t : Type := {
  title : option string;
  description : option string;
  category : option string;
  startDate : option Z;
  endDate : option Z;
  latitude : option Q;
  longitude : option Q;
  address : option string;
  organizerId : option Z;
  languages : option (list string)
}.
End EventBody.

Definition number_of (v : option Q) : Q :=
  match v with Some q => q | None => 0 end.

Definition integer_of (v : option Z) : Z :=
  match v with Some n => n | None => 0 end.

(** [POST /api/events]. *)
Definition createEvent (now : Z) (b : EventBody.t) : handler :=
  fun s =>
    if no_text (EventBody.title b) || no_text (EventBody.description b)
       || absent (EventBody.startDate b) || no_number (EventBody.latitude b)
       || no_number (EventBody.longitude b) || no_id (EventBody.organizerId b)
       || no_text (EventBody.category b)
    then answer 400 (message "Required fields missing") s
    else
      let newEvent :=
        {| Event.id := eventIdCounter s;
           Event.title := text_of (EventBody.title b);
           Event.description := text_of (EventBody.description b);
           Event.category := text_of (EventBody.category b);
           Event.startDate := integer_of (EventBody.startDate b);
           Event.endDate := EventBody.endDate b;
           Event.coordinates :=
             (number_of (EventBody.longitude b),
              number_of (EventBody.latitude b));
           Event.address := EventBody.address b;
           Event.organizerId := integer_of (EventBody.organizerId b);
           Event.languages :=
             match EventBody.languages b with
             | Some l => l
             | None => ["en"]
             end;
           Event.createdAt := now;
           Event.updatedAt := now;
           Event.distance := None |} in
      answer 201 (event_message "Event created successfully" newEvent)
        {| users := users s;
           events := (events s ++ [newEvent])%list;
           eventIdCounter := eventIdCounter s + 1 |}.

(** The two optional filters of the listings: [event.category === category]
    and [event.languages.includes(language)], applied when the parameter is
    a non-empty text. *)
Definition when_given (v : option string) (p : string -> Event.t -> bool)
  (l : list Event.t) : list Event.t :=
  match v with
  | Some x => if Js.truthy_str x then filter (p x) l else l
  | None => l
  end.

Definition in_category (category : string) (event : Event.t) : bool :=
  String.eqb (Event.category event) category.

Definition speaks (language : string) (event : Event.t) : bool :=
  existsb (String.eqb language) (Event.languages event).

(** [GET /api/events]. *)
Definition getEvents (category language : option string) : handler :=
  fun s =>
    let filteredEvents :=
      when_given language speaks (when_given category in_category (events s))
    in
    answer 200
      (events_json (Z.of_nat (List.length filteredEvents)) filteredEvents) s.

(** [GET /api/events/:eventId]. *)
Definition getEvent (eventId : string) : handler :=
  fun s =>
    match find (fun e => id_is eventId (Event.id e)) (events s) with
    | None => answer 404 (message "Event not found") s
    | Some event => answer 200 (event_json event) s
    end.

(** The copy of the stored event that [PUT] fills in. *)
Definition updatedEvent (now : Z) (b : EventBody.t) (e : Event.t) : Event.t :=
  {| Event.id := Event.id e;
     Event.title :=
       if no_text (EventBody.title b) then Event.title e
       else text_of (EventBody.title b);
     Event.description :=
       if no_text (EventBody.description b) then Event.description e
       else text_of (EventBody.description b);
     Event.category :=
       if no_text (EventBody.category b) then Event.category e
       else text_of (EventBody.category b);
     Event.startDate :=
       match EventBody.startDate b with
       | Some d => d
       | None => Event.startDate e
       end;
     Event.endDate :=
       match EventBody.endDate b with
       | Some d => Some d
       | None => Event.endDate e
       end;
     Event.coordinates :=
       match EventBody.latitude b, EventBody.longitude b with
       | Some latitude, Some longitude =>
           if truthy_q latitude && truthy_q longitude
           then (longitude, latitude)
           else Event.coordinates e
       | _, _ => Event.coordinates e
       end;
     Event.address :=
       if no_text (EventBody.address b) then Event.address e
       else EventBody.address b;
     Event.organizerId := Event.organizerId e;
     Event.languages :=
       match EventBody.languages b with
       | Some l => l
       | None => Event.languages e
       end;
     Event.createdAt := Event.createdAt e;
     Event.updatedAt := now;
     Event.distance := Event.distance e |}.

(** [PUT /api/events/:eventId]. *)
Definition updateEvent (now : Z) (eventId : string) (b : EventBody.t)
  : handler :=
  fun s =>
    match findIndex (fun e => id_is eventId (Event.id e)) (events s) with
    | None => answer 404 (message "Event not found") s
    | Some (eventIndex, e) =>
        answer 200
          (event_message "Event updated successfully" (updatedEvent now b e))
          {| users := users s;
             events := set_at eventIndex (updatedEvent now b e) (events s);
             eventIdCounter := eventIdCounter s |}
    end.

(** [DELETE /api/events/:eventId]. *)
Definition deleteEvent (eventId : string) : handler :=
  fun s =>
    match findIndex (fun e => id_is eventId (Event.id e)) (events s) with
    | None => answer 404 (message "Event not found") s
    | Some (eventIndex, deletedEvent) =>
        answer 200 (event_message "Event deleted successfully" deletedEvent)
          {| users := users s;
             events := splice1 eventIndex (events s);
             eventIdCounter := eventIdCounter s |}
    end.

Module Search.
Record query : Type := {
  latitude : option string;
  longitude : option string;
  radius : option string;
  category : option string;
  language : option string
}.
End Search.

Section Distance.
Variable Math : math.

(** [calculateDistance]: the haversine formula. *)
Definition calculateDistance (lat1 lon1 lat2 lon2 : Q) : Q :=
  (let R := 6371 in
   let dLat := (lat2 - lat1) * PI Math / 180 in
   let dLon := (lon2 - lon1) * PI Math / 180 in
   let a :=
     sin Math (dLat / 2) * sin Math (dLat / 2)
     + cos Math (lat1 * PI Math / 180) * cos Math (lat2 * PI Math / 180)
       * sin Math (dLon / 2) * sin Math (dLon / 2) in
   let c := 2 * atan2 Math (sqrt Math a) (sqrt Math (1 - a)) in
   R * c)%Q.

(** The distance from the parsed centre to an event; it is [NaN] when a
    coordinate of the centre is. *)
Definition distance_to (lat lng : Js.jsnum) (event : Event.t) : Js.jsnum :=
  match lat, lng with
  | Js.Fin lat, Js.Fin lng =>
      Js.Fin (calculateDistance lat lng (snd (Event.coordinates event))
                (fst (Event.coordinates event)))
  | _, _ => Js.NaN
  end.

(** The test that skips an event without valid coordinates. *)
Definition has_coordinates (event : Event.t) : bool :=
  truthy_q (fst (Event.coordinates event))
  && truthy_q (snd (Event.coordinates event)).

(** What the callback of the first [filter] does to an event: it writes the
    distance into the event itself, which stays in [events]. *)
Definition measured (lat lng : Js.jsnum) (event : Event.t) : Event.t :=
  if has_coordinates event then
    {| Event.id := Event.id event;
       Event.title := Event.title event;
       Event.description := Event.description event;
       Event.category := Event.category event;
       Event.startDate := Event.startDate event;
       Event.endDate := Event.endDate event;
       Event.coordinates := Event.coordinates event;
       Event.address := Event.address event;
       Event.organizerId := Event.organizerId event;
       Event.languages := Event.languages event;
       Event.createdAt := Event.createdAt event;
       Event.updatedAt := Event.updatedAt event;
       Event.distance := Some (distance_to lat lng event) |}
  else event.

(** The value that the callback returns for an event it has visited. *)
Definition nearby (radiusKm : Js.jsnum) (event : Event.t) : bool :=
  has_coordinates event
  && match Event.distance event with
     | Some distance => Js.le distance radiusKm
     | None => false
     end.

(** [(a, b) => a.distance - b.distance] as an order: a difference that is
    not a number counts as zero. *)
Definition closer (a b : Event.t) : bool :=
  match Event.distance a, Event.distance b with
  | Some (Js.Fin x), Some (Js.Fin y) => Qle_bool x y
  | _, _ => true
  end.

(** [GET /api/events/search/location]. *)
Definition searchByLocation (q : Search.query) : handler :=
  fun s =>
    if no_text (Search.latitude q) || no_text (Search.longitude q)
    then answer 400 (message "Latitude and longitude are required") s
    else
      let lat := Js.parseFloat (Search.latitude q) in
      let lng := Js.parseFloat (Search.longitude q) in
      let radiusKm :=
        match Search.radius q with
        | Some radius => Js.parseFloat_str radius
        | None => Js.Fin 10
        end in
      let visited := map (measured lat lng) (events s) in
      let nearbyEvents :=
        Sql.order_by closer
          (when_given (Search.language q) speaks
             (when_given (Search.category q) in_category
                (filter (nearby radiusKm) visited))) in
      answer 200
        (events_json (Z.of_nat (List.length nearbyEvents)) nearbyEvents)
        {| users := users s; events := visited;
           eventIdCounter := eventIdCounter s |}.

End Distance.

(** The requests that read or write the two arrays. *)
Inductive request : Type :=
| POST_register (b : Register.body)
| POST_login (b : Login.body)
| POST_preferences (userId : string) (b : Preferences.body)
| GET_preferences (userId : string)
| POST_event (b : EventBody.t)
| GET_events (category language : option string)
| GET_event (eventId : string)
| PUT_event (eventId : string) (b : EventBody.t)
| DELETE_event (eventId : string)
| GET_search (q : Search.query).

(** One request, received at time [now]. *)
Definition handle (Math : math) (now : Z) (r : request) : handler :=
  match r with
  | POST_register b => register now b
  | POST_login b => login now b
  | POST_preferences userId b => setPreferences userId b
  | GET_preferences userId => getPreferences userId
  | POST_event b => createEvent now b
  | GET_events category language => getEvents category language
  | GET_event eventId => getEvent eventId
  | PUT_event eventId b => updateEvent now eventId b
  | DELETE_event eventId => deleteEvent eventId
  | GET_search q => searchByLocation Math q
  end.

(** The state after a sequence of requests, each with its time. *)
Definition serve (Math : math) (requests : list (Z * request)) (s : state)
  : state :=
  fold_left (fun s r => snd (handle Math (fst r) (snd r) s)) requests s.

(** What holds of the two arrays whatever requests were served: the user
    at position [k] has id [k], usernames and e-mail addresses are not
    shared, the ids of the events are distinct and below the counter, and
    no stored event has a coordinate equal to zero. *)
Definition ids_from (first : Z) (ids : list Z) : Prop :=
  forall k id, nth_error ids k = Some id -> id = first + Z.of_nat k.

Record well_formed (s : state) : Prop := {
  user_ids : ids_from 1 (map User.id (users s));
  usernames_distinct : NoDup (map User.username (users s));
  emails_distinct : NoDup (map User.email (users s));
  event_ids_distinct : NoDup (map Event.id (events s));
  event_ids_below_counter :
    forall e, In e (events s) -> Event.id e < eventIdCounter s;
  events_have_coordinates :
    forall e, In e (events s) -> has_coordinates e = true
}.

(** What no request changes in a stored event. *)
Definition identity (event : Event.t) : Z * Z * Z :=
  (Event.id event, Event.organizerId event, Event.createdAt event).

(** The order of the events in the answer of a search: both distances are
    numbers, and the first is not the larger. *)
Definition not_farther (a b : Event.t) : Prop :=
  exists x y, Event.distance a = Some (Js.Fin x)
              /\ Event.distance b = Some (Js.Fin y) /\ (x <= y)%Q.

(** An optional filter of a listing holds of an event. *)
Definition passes (v : option string) (p : string -> Event.t -> bool)
  (event : Event.t) : bool :=
  match v with
  | Some x => if Js.truthy_str x then p x event else true
  | None => true
  end.

(** Everything of an event but the distance written by a search. *)
Definition unmeasured (event : Event.t) : Event.t :=
  {| Event.id := Event.id event;
     Event.title := Event.title event;
     Event.description := Event.description event;
     Event.category := Event.category event;
     Event.startDate := Event.startDate event;
     Event.endDate := Event.endDate event;
     Event.coordinates := Event.coordinates event;
     Event.address := Event.address event;
     Event.organizerId := Event.organizerId event;
     Event.languages := Event.languages event;
     Event.createdAt := Event.createdAt event;
     Event.updatedAt := Event.updatedAt event;
     Event.distance := None |}.

End Server.

(* ===================================================================== *)
(** ** More inputs on which the code is run                               *)
(* ===================================================================== *)

Module Demo.

(** The value of a statement that returned, and the store it left. *)
Definition returned {A} (otherwise : A) (r : Db.outcome A * Db.store) : A :=
  match fst r with Db.Ok a => a | Db.Raise _ => otherwise end.

(** The sample store with a second user and a preferred category. *)
Definition bob : Users.row :=
  {| Users.id := 8; Users.username := "bob";
     Users.email := "bob@example.org";
     Users.password := bcrypt_hash "hunter2" 10;
     Users.full_name := None; Users.location := None;
     Users.preferred_language := "en";
     Users.created_at := 0; Users.updated_at := 0 |}.

Definition db : Db.store :=
  Db.with_user_preferred_categories
    (Db.with_users Sample.db [Sample.alice; bob] 9)
    [{| UserPreferredCategories.user_id := 7;
        UserPreferredCategories.category_id := 1 |}].

(** A favorite marker of user 7 on event 2, and the store that holds it. *)
Definition marker : UserFavoriteEvents.row :=
  {| UserFavoriteEvents.user_id := 7; UserFavoriteEvents.event_id := 2;
     UserFavoriteEvents.created_at := 1000 |}.

Definition marked : Db.store := snd (Event.favoriteEvent 7 2 Sample.db).

Definition operations : list Operations.op :=
  [Operations.event_favoriteEvent 7 2; Operations.event_favoriteEvent 7 2;
   Operations.event_delete 1; Operations.event_unfavoriteEvent 7 2;
   Operations.event_favoriteEvent 8 3].

(** A concert with two categories, and the same with a category that does
    not exist. *)
Definition concert (categories : list Z) : Event.eventData :=
  {| Event.title := Some "Concert"; Event.description := null;
     Event.latitude := Some (3778 # 100)%Q;
     Event.longitude := Some (-12241 # 100)%Q;
     Event.address := Some "Pier 39"; Event.startTime := Some 500;
     Event.endTime := undefined; Event.creatorId := Some 7;
     Event.categories := Some categories |}.

Definition created : option Event.event :=
  returned None (Event.create (concert [1; 2]) Sample.db).

Definition after_create : Db.store :=
  snd (Event.create (concert [1; 2]) Sample.db).

Definition after_failed_create : Db.store :=
  snd (Event.create (concert [1; 99]) Sample.db).

(** A listing of the events of category 1, and the pages of the sample
    search. *)
Definition in_category_1 : Event.getAllParams.t :=
  {| Event.getAllParams.page := None; Event.getAllParams.limit := None;
     Event.getAllParams.categoryIds := Some [Js.Fin 1];
     Event.getAllParams.creatorId := Some 7;
     Event.getAllParams.startDate := None;
     Event.getAllParams.endDate := None |}.

Definition no_listing : Event.listing :=
  {| Event.events := [];
     Event.listing_pagination :=
       {| Event.total := 0; Event.page := 0; Event.limit := 0;
          Event.pages := None |} |}.

Definition listed : Event.listing :=
  returned no_listing (Event.getAll in_category_1 Sample.db).

Definition found_page (page limit : Z) : Event.listing :=
  returned no_listing
    (Event.searchByLocation Sample.distance
       (search_page Sample.search page limit) Sample.db).

(** A search request for the page before the first. *)
Definition page_minus_one : Query.t :=
  {| Query.latitude := Some "37.7749"; Query.longitude := Some "-122.4194";
     Query.radius := None; Query.page := Some "-1"; Query.limit := None;
     Query.categories := None;
     Query.startDate := None; Query.endDate := None |}.

(** Bob asks for the username of Alice. *)
Definition rename_to_alice : User.userData :=
  {| User.username := Some "alice"; User.email := None;
     User.password := ""; User.fullName := None;
     User.latitude := None; User.longitude := None;
     User.preferredLanguage := None |}.

Definition favorites : Favorites.listing :=
  returned {| Favorites.events := [];
              Favorites.listing_pagination :=
                Event.listing_pagination no_listing |}
    (Favorites.getUserFavorites 7 None None Sample.db).

(** A stand-in for [Math] on exact numbers, and a server that has answered
    a registration and two postings. *)
Definition Math : Server.math :=
  {| Server.PI := 3;
     Server.sin := fun x => x;
     Server.cos := fun _ => 1%Q;
     Server.sqrt := fun x => x;
     Server.atan2 := fun y _ => y |}.

Definition carol : Server.Register.body :=
  {| Server.Register.username := Some "carol";
     Server.Register.email := Some "carol@example.org";
     Server.Register.password := Some "s3cret";
     Server.Register.fullName := Some "Carol C.";
     Server.Register.latitude := None;
     Server.Register.longitude := None |}.

Definition dave : Server.Register.body :=
  {| Server.Register.username := Some "dave";
     Server.Register.email := Some "dave@example.org";
     Server.Register.password := Some "pa55";
     Server.Register.fullName := Some "Dave D.";
     Server.Register.latitude := Some 1%Q;
     Server.Register.longitude := Some 2%Q |}.

Definition posting (title : string) (latitude longitude : Q)
  : Server.EventBody.t :=
  {| Server.EventBody.title := Some title;
     Server.EventBody.description := Some "Open air";
     Server.EventBody.category := Some "music";
     Server.EventBody.startDate := Some 5000;
     Server.EventBody.endDate := None;
     Server.EventBody.latitude := Some latitude;
     Server.EventBody.longitude := Some longitude;
     Server.EventBody.address := None;
     Server.EventBody.organizerId := Some 1;
     Server.EventBody.languages := None |}.

Definition server : Server.state :=
  Server.serve Math
    [(10, Server.POST_register carol);
     (20, Server.POST_event (posting "Far" (1 # 100) (1 # 100)));
     (30, Server.POST_event (posting "Near" (1 # 1000) (1 # 1000)))]
    Server.start.

Definition nearby : Server.Search.query :=
  {| Server.Search.latitude := Some "0.002";
     Server.Search.longitude := Some "0.002";
     Server.Search.radius := Some "50";
     Server.Search.category := Some "music";
     Server.Search.language := None |}.

End Demo.

(* ===================================================================== *)
(** * Properties                                                         *)
(* ===================================================================== *)

(** ** The coercions on sample inputs *)

Example parseFloat_ex1 :
  Js.parseFloat (Some "37.7749") = Js.Fin (377749 # 10000).
Proof. reflexivity. Qed.
Example parseFloat_ex2 :
  Js.parseFloat (Some "-122.4194") = Js.Fin (-612097 # 5000).
Proof. reflexivity. Qed.
Example parseFloat_ex3 : Js.parseFloat (Some "abc") = Js.NaN.
Proof. reflexivity. Qed.
Example parseFloat_ex4 : Js.parseFloat (Some " 1.5e1xyz") = Js.Fin 15.
Proof. reflexivity. Qed.
Example parseInt_ex1 : Js.parseInt_Z "1abc" = Some 1.
Proof. reflexivity. Qed.
Example parseInt_ex2 : Js.parseInt_Z "0x1A" = Some 26.
Proof. reflexivity. Qed.
Example Number_ex1 : Js.Number "1abc" = Js.NaN.
Proof. reflexivity. Qed.
Example Number_ex2 : Js.Number " 12 " = Js.Fin 12.
Proof. reflexivity. Qed.
Example Number_ex3 : Js.Number "" = Js.Fin 0.
Proof. reflexivity. Qed.
Example toFixed2_ex1 : toFixed2 (12 # 10) = "1.20".
Proof. reflexivity. Qed.
Example toFixed2_ex2 : toFixed2 (1005 # 1000) = "1.01".
Proof. reflexivity. Qed.
Example toFixed2_ex3 : toFixed2 (25 # 10) = "2.50".
Proof. reflexivity. Qed.
Example isFloat_ex1 : Validator.isFloat None None "95" = true.
Proof. reflexivity. Qed.
Example isFloat_ex2 : Validator.isFloat (Some (-90)%Q) (Some 90%Q) "95" = false.
Proof. reflexivity. Qed.
Example isFloat_ex3 : Validator.isFloat None None "12abc" = false.
Proof. reflexivity. Qed.
Example isFloat_ex4 : Validator.isFloat (Some (1 # 10)) None "0.1" = true.
Proof. reflexivity. Qed.
(** ** Lists: sorting, paging and duplicates *)

Section OrderByFacts.
Context {A : Type} (leb : A -> A -> bool).
Hypothesis leb_total : forall a b, leb a b = true \/ leb b a = true.
Hypothesis leb_trans :
  forall a b c, leb a b = true -> leb b c = true -> leb a c = true.

Lemma insert_perm (x : A) (l : list A) :
  Permutation (Sql.insert leb x l) (x :: l).
Proof.
  induction l as [|y r IH]; simpl; [reflexivity|].
  destruct (leb x y); [reflexivity|].
  rewrite IH. apply perm_swap.
Qed.

Lemma order_by_perm (l : list A) : Permutation (Sql.order_by leb l) l.
Proof.
  induction l as [|x r IH]; simpl; [reflexivity|].
  rewrite insert_perm. now constructor.
Qed.

Lemma insert_hdrel (a x : A) (l : list A) :
  leb a x = true ->
  HdRel (fun a b => leb a b = true) a l ->
  HdRel (fun a b => leb a b = true) a (Sql.insert leb x l).
Proof.
  intros Hax Hl. destruct l as [|y r]; simpl.
  - now constructor.
  - destruct (leb x y); constructor; trivial.
    now inversion Hl.
Qed.

Lemma insert_sorted (x : A) (l : list A) :
  Sorted (fun a b => leb a b = true) l ->
  Sorted (fun a b => leb a b = true) (Sql.insert leb x l).
Proof.
  induction 1 as [|y r Hr IH Hy]; simpl.
  - repeat constructor.
  - destruct (leb x y) eqn:E.
    + constructor; [now constructor | now constructor].
    + constructor; [exact IH|].
      apply insert_hdrel; [|exact Hy].
      destruct (leb_total x y) as [H|H]; [congruence | exact H].
Qed.

Lemma order_by_sorted (l : list A) :
  Sorted (fun a b => leb a b = true) (Sql.order_by leb l).
Proof.
  induction l as [|x r IH]; simpl; [constructor|].
  now apply insert_sorted.
Qed.

Lemma order_by_strongly_sorted (l : list A) :
  StronglySorted (fun a b => leb a b = true) (Sql.order_by leb l).
Proof.
  apply Sorted_StronglySorted; [|apply order_by_sorted].
  intros a b c. apply leb_trans.
Qed.
End OrderByFacts.

Lemma In_firstn {A} (n : nat) (l : list A) (x : A) :
  In x (firstn n l) -> In x l.
Proof.
  intros H. rewrite <- (firstn_skipn n l). apply in_or_app. now left.
Qed.

Lemma In_skipn {A} (n : nat) (l : list A) (x : A) :
  In x (skipn n l) -> In x l.
Proof.
  intros H. rewrite <- (firstn_skipn n l). apply in_or_app. now right.
Qed.

Lemma StronglySorted_skipn {A} (R : A -> A -> Prop) (n : nat) (l : list A) :
  StronglySorted R l -> StronglySorted R (skipn n l).
Proof.
  revert l. induction n as [|n IH]; intros l H; simpl; [exact H|].
  destruct l as [|x r]; [constructor|].
  apply IH. now inversion H.
Qed.

Lemma StronglySorted_firstn {A} (R : A -> A -> Prop) (n : nat) (l : list A) :
  StronglySorted R l -> StronglySorted R (firstn n l).
Proof.
  revert l. induction n as [|n IH]; intros l H; simpl; [constructor|].
  destruct l as [|x r]; [constructor|].
  inversion H as [|? ? Hr Hx]; subst.
  constructor; [now apply IH|].
  rewrite Forall_forall in *. intros y Hy. apply Hx.
  eapply In_firstn; eauto.
Qed.

Lemma limit_offset_Ok {A} (limit offset : Z) (rows page : list A) :
  Sql.limit_offset limit offset rows = Db.Ok page ->
  0 <= offset /\ 0 <= limit
  /\ page = firstn (Z.to_nat limit) (skipn (Z.to_nat offset) rows).
Proof.
  unfold Sql.limit_offset.
  destruct (offset <? 0) eqn:Eo; [discriminate|].
  destruct (limit <? 0) eqn:El; [discriminate|].
  intros H. injection H as <-.
  apply Z.ltb_ge in Eo, El. auto.
Qed.

Lemma limit_offset_In {A} (limit offset : Z) (rows page : list A) (x : A) :
  Sql.limit_offset limit offset rows = Db.Ok page -> In x page -> In x rows.
Proof.
  intros H Hx. apply limit_offset_Ok in H as (_ & _ & ->).
  apply In_firstn in Hx. eapply In_skipn; eauto.
Qed.

(** ** The location search of the Event model *)

Lemma fromGeographyPoint_ST_AsText (g : geography) :
  fromGeographyPoint (ST_AsText g) = g.
Proof. now destruct g. Qed.

Lemma found_leb_total (a b : Event.found) :
  Event.found_leb a b = true \/ Event.found_leb b a = true.
Proof.
  unfold Event.found_leb.
  destruct (Qeq_bool (Event.found_distance_km a) (Event.found_distance_km b))
    eqn:E.
  - apply Qeq_bool_iff in E.
    assert (E' : Qeq_bool (Event.found_distance_km b)
                          (Event.found_distance_km a) = true)
      by (apply Qeq_bool_iff; now symmetry).
    rewrite E'. rewrite !Z.leb_le. lia.
  - assert (E' : Qeq_bool (Event.found_distance_km b)
                          (Event.found_distance_km a) = false).
    { destruct (Qeq_bool (Event.found_distance_km b)
                         (Event.found_distance_km a)) eqn:F; trivial.
      apply Qeq_bool_iff in F. symmetry in F. apply Qeq_bool_iff in F.
      congruence. }
    rewrite E'. rewrite !Qle_bool_iff.
    destruct (Qlt_le_dec (Event.found_distance_km b)
                         (Event.found_distance_km a)) as [H|H].
    + right. now apply Qlt_le_weak.
    + now left.
Qed.

(** [found_leb] in terms of the order on the rationals. *)
Lemma found_leb_spec (a b : Event.found) :
  Event.found_leb a b = true <->
  (Event.found_distance_km a < Event.found_distance_km b)%Q
  \/ ((Event.found_distance_km a == Event.found_distance_km b)%Q
      /\ Events.start_time (Event.found_row a)
         <= Events.start_time (Event.found_row b)).
Proof.
  unfold Event.found_leb.
  destruct (Qeq_bool (Event.found_distance_km a) (Event.found_distance_km b))
    eqn:E.
  - apply Qeq_bool_iff in E. rewrite Z.leb_le. split.
    + intros H. right. now split.
    + intros [H|[_ H]]; [|exact H]. rewrite E in H.
      now apply Qlt_irrefl in H.
  - rewrite Qle_bool_iff. split.
    + intros H. left. apply Qle_lt_or_eq in H as [H|H]; [exact H|].
      apply Qeq_bool_iff in H. congruence.
    + intros [H|[H _]]; [now apply Qlt_le_weak|].
      apply Qeq_bool_iff in H. congruence.
Qed.

Lemma found_leb_trans (a b c : Event.found) :
  Event.found_leb a b = true -> Event.found_leb b c = true ->
  Event.found_leb a c = true.
Proof.
  rewrite !found_leb_spec.
  intros [H1|[H1 T1]] [H2|[H2 T2]].
  - left. eapply Qlt_trans; eauto.
  - left. now rewrite <- H2.
  - left. now rewrite H1.
  - right. split; [now rewrite H1 | lia].
Qed.

(** What a successful run of the two queries and of the loop returns. *)
Lemma searchByLocation_queries_Ok D center join conds page limit db db' l :
  Event.searchByLocation_queries D center join conds page limit db
  = (Db.Ok l, db') ->
  db' = db
  /\ exists rows,
      Sql.limit_offset limit ((page - 1) * limit)
        (Sql.order_by Event.found_leb
           (Sql.distinct Event.found_eq_dec
              (map (Event.select_found D center)
                   (Event.where_ conds (Event.from_events db join)))))
      = Db.Ok rows
      /\ l = {| Event.events := map (Event.found_event db) rows;
                Event.listing_pagination :=
                  {| Event.total :=
                       Sql.count_distinct Events.id
                         (map fst (Event.where_ conds
                                     (Event.from_events db join)));
                     Event.page := page; Event.limit := limit;
                     Event.pages :=
                       Js.ceil_div
                         (Sql.count_distinct Events.id
                            (map fst (Event.where_ conds
                                        (Event.from_events db join))))
                         limit |} |}.
Proof.
  unfold Event.searchByLocation_queries, Db.bind, Db.query, Db.ret, Event.lift.
  destruct (Sql.limit_offset _ _ _) as [rows|code] eqn:E; [|discriminate].
  intros H. injection H as <- <-. split; [reflexivity|].
  exists rows. split; [reflexivity|reflexivity].
Qed.

(** The conditions of a successful search begin with the radius test. *)
Lemma searchByLocation_Ok D p db db' l :
  Event.searchByLocation D p db = (Db.Ok l, db') ->
  exists join extra,
    Event.searchByLocation_queries D
      (ST_MakePoint (Event.searchParams.longitude p)
                    (Event.searchParams.latitude p))
      join
      (Event.within D
         (ST_MakePoint (Event.searchParams.longitude p)
                       (Event.searchParams.latitude p))
         (Event.default (Event.searchParams.radius p) 10%Q) :: extra)
      (Event.default (Event.searchParams.page p) 1)
      (Event.default (Event.searchParams.limit p) 10) db
    = (Db.Ok l, db').
Proof.
  unfold Event.searchByLocation.
  destruct (Event.default (Event.searchParams.categoryIds p) []) as [|c cs].
  - intros H. eexists _, _. exact H.
  - destruct (Sql.literals (c :: cs)) as [ids|]; [|discriminate].
    intros H. eexists _, _. exact H.
Qed.

Lemma where_In conds rows r :
  In r (Event.where_ conds rows) ->
  In r rows /\ forall c, In c conds -> c r = true.
Proof.
  unfold Event.where_. rewrite filter_In. intros [H1 H2]. split; trivial.
  rewrite forallb_forall in H2. exact H2.
Qed.

(** Every row handed back by the main query comes from a joined row that
    passed the [WHERE] clause. *)
Lemma main_query_In D center join conds limit offset db rows f :
  Sql.limit_offset limit offset
    (Sql.order_by Event.found_leb
       (Sql.distinct Event.found_eq_dec
          (map (Event.select_found D center)
               (Event.where_ conds (Event.from_events db join)))))
  = Db.Ok rows ->
  In f rows ->
  exists r, f = Event.select_found D center r
            /\ In r (Event.from_events db join)
            /\ forall c, In c conds -> c r = true.
Proof.
  intros H Hf. eapply limit_offset_In in Hf; [|exact H].
  eapply Permutation_in in Hf; [|apply order_by_perm].
  apply nodup_In in Hf. apply in_map_iff in Hf as [r [<- Hr]].
  apply where_In in Hr as [Hr Hc]. eauto.
Qed.

Lemma from_events_In db join r :
  In r (Event.from_events db join) -> In (fst r) (Db.events db).
Proof.
  unfold Event.from_events. destruct join.
  - rewrite in_flat_map. intros [e [He H]].
    rewrite in_flat_map in H. destruct H as [ec [_ H]].
    destruct (Events.id e =? EventCategories.event_id ec); [|contradiction].
    rewrite in_flat_map in H. destruct H as [c [_ H]].
    destruct (EventCategories.category_id ec =? Categories.id c);
      [|contradiction].
    destruct H as [<-|[]]. exact He.
  - rewrite in_map_iff. intros [e [<- He]]. exact He.
Qed.

Lemma found_event_location db f :
  Event.location (Event.found_event db f) = Events.location (Event.found_row f).
Proof. apply fromGeographyPoint_ST_AsText. Qed.

Lemma found_event_id db f :
  Event.id (Event.found_event db f) = Events.id (Event.found_row f).
Proof. reflexivity. Qed.

Lemma found_event_start_time db f :
  Event.start_time (Event.found_event db f)
  = Events.start_time (Event.found_row f).
Proof. reflexivity. Qed.

(** C1. Every event returned by [Event.searchByLocation] is a stored event
    whose distance from the search centre to its stored location is at most
    the radius: nothing farther away is returned. *)
Theorem searchByLocation_within_radius :
  forall (ST_Distance : geography -> geography -> Q)
         (p : Event.searchParams.t) (db db' : Db.store) (l : Event.listing)
         (e : Event.event),
    Event.searchByLocation ST_Distance p db = (Db.Ok l, db') ->
    In e (Event.events l) ->
    exists r,
      In r (Db.events db)
      /\ Event.id e = Events.id r
      /\ Event.location e = Events.location r
      /\ (distanceKm ST_Distance
            (ST_MakePoint (Event.searchParams.longitude p)
                          (Event.searchParams.latitude p))
            (Event.location e)
          <= Event.default (Event.searchParams.radius p) 10)%Q.
Proof.
  intros D p db db' l e Hrun He.
  apply searchByLocation_Ok in Hrun as (join & extra & Hrun).
  apply searchByLocation_queries_Ok in Hrun as (_ & rows & Hrows & ->).
  simpl in He. apply in_map_iff in He as [f [<- Hf]].
  destruct (main_query_In _ _ _ _ _ _ _ _ _ Hrows Hf) as (r & -> & Hr & Hc).
  exists (fst r). split; [now apply from_events_In in Hr|].
  rewrite found_event_id, found_event_location.
  split; [reflexivity|]. split; [reflexivity|].
  specialize (Hc _ (or_introl eq_refl)).
  unfold Event.within, Event.ST_DWithin in Hc. apply Qle_bool_iff in Hc.
  unfold distanceKm. apply Qle_shift_div_r; [reflexivity | exact Hc].
Qed.

Lemma searchByLocation_within_radius_witness :
  Event.searchByLocation Sample.distance Sample.search Sample.db
  = (Db.Ok {| Event.events := Sample.found Sample.db;
              Event.listing_pagination :=
                {| Event.total := 2; Event.page := 1; Event.limit := 10;
                   Event.pages := Some 1 |} |}, Sample.db)
  /\ In (Event.of_row Sample.db (Some "1.20")
           (Sample.event_row 1 Sample.place1 100))
        (Sample.found Sample.db)
  /\ exists r,
      In r (Db.events Sample.db)
      /\ 1 = Events.id r
      /\ Sample.place1 = Events.location r
      /\ (distanceKm Sample.distance Sample.center Sample.place1 <= 5)%Q.
Proof.
  assert (H1 : Event.searchByLocation Sample.distance Sample.search Sample.db
               = (Db.Ok {| Event.events := Sample.found Sample.db;
                           Event.listing_pagination :=
                             {| Event.total := 2; Event.page := 1;
                                Event.limit := 10; Event.pages := Some 1 |} |},
                  Sample.db)) by (vm_compute; reflexivity).
  assert (H2 : In (Event.of_row Sample.db (Some "1.20")
                     (Sample.event_row 1 Sample.place1 100))
                  (Sample.found Sample.db)) by (vm_compute; auto).
  split; [exact H1|]. split; [exact H2|].
  exact (searchByLocation_within_radius _ _ _ _ _ _ H1 H2).
Defined.

Lemma StronglySorted_map_in {A B} (R : A -> A -> Prop) (S : B -> B -> Prop)
  (f : A -> B) (l : list A) :
  (forall a b, In a l -> In b l -> R a b -> S (f a) (f b)) ->
  StronglySorted R l -> StronglySorted S (map f l).
Proof.
  intros HRS H. induction H as [|x r Hr IH Hx]; simpl; constructor.
  - apply IH. intros a b Ha Hb. apply HRS; now right.
  - rewrite Forall_forall in *. intros y Hy.
    apply in_map_iff in Hy as [a [<- Ha]].
    apply HRS; [now left | now right | now apply Hx].
Qed.

(** C2. The events returned by [Event.searchByLocation] are in ascending
    order of distance from the search centre, and two events at the same
    distance are in ascending order of start time. *)
Theorem searchByLocation_sorted :
  forall (ST_Distance : geography -> geography -> Q)
         (p : Event.searchParams.t) (db db' : Db.store) (l : Event.listing),
    Event.searchByLocation ST_Distance p db = (Db.Ok l, db') ->
    StronglySorted
      (nearer_then_earlier ST_Distance
         (ST_MakePoint (Event.searchParams.longitude p)
                       (Event.searchParams.latitude p)))
      (Event.events l).
Proof.
  intros D p db db' l Hrun.
  apply searchByLocation_Ok in Hrun as (join & extra & Hrun).
  apply searchByLocation_queries_Ok in Hrun as (_ & rows & Hrows & ->).
  simpl.
  apply StronglySorted_map_in
    with (R := fun a b => Event.found_leb a b = true).
  - intros a b Ha Hb Hab.
    destruct (main_query_In _ _ _ _ _ _ _ _ _ Hrows Ha) as (ra & -> & _ & _).
    destruct (main_query_In _ _ _ _ _ _ _ _ _ Hrows Hb) as (rb & -> & _ & _).
    apply found_leb_spec in Hab. unfold nearer_then_earlier.
    rewrite !found_event_location, !found_event_start_time. exact Hab.
  - apply limit_offset_Ok in Hrows as (_ & _ & ->).
    apply StronglySorted_firstn, StronglySorted_skipn.
    apply order_by_strongly_sorted;
      [apply found_leb_total | apply found_leb_trans].
Qed.

Lemma searchByLocation_sorted_witness :
  Event.searchByLocation Sample.distance Sample.search Sample.db
  = (Db.Ok {| Event.events := Sample.found Sample.db;
              Event.listing_pagination :=
                {| Event.total := 2; Event.page := 1; Event.limit := 10;
                   Event.pages := Some 1 |} |}, Sample.db)
  /\ StronglySorted (nearer_then_earlier Sample.distance Sample.center)
       (Sample.found Sample.db).
Proof.
  assert (H1 : Event.searchByLocation Sample.distance Sample.search Sample.db
               = (Db.Ok {| Event.events := Sample.found Sample.db;
                           Event.listing_pagination :=
                             {| Event.total := 2; Event.page := 1;
                                Event.limit := 10; Event.pages := Some 1 |} |},
                  Sample.db)) by (vm_compute; reflexivity).
  split; [exact H1|].
  exact (searchByLocation_sorted _ _ _ _ _ H1).
Defined.

(** The example scenario of the design document: of three events at 1.2 km,
    2.5 km and 12 km, a 5 km search returns the first two, nearest first,
    with the distances printed with two decimals. *)
Example search_scenario :
  map (fun e => (Event.id e, Event.distance_km e)) (Sample.found Sample.db)
  = [(1, Some "1.20"); (2, Some "2.50")].
Proof. vm_compute. reflexivity. Qed.

(** ** Counting the matching events *)

Lemma key_of_filtered {Row Key} (key : Row -> Key) (keep : Row -> bool) :
  forall rows : list Row,
    NoDup (map key rows) -> NoDup (map key (filter keep rows)).
Proof.
  intros rows. induction rows as [|row rest IH]; simpl; [trivial|].
  intros Hkey. apply NoDup_cons_iff in Hkey as [Hfresh Hrest].
  destruct (keep row); simpl; [|now apply IH].
  apply NoDup_cons; [|now apply IH].
  intros Hin. apply Hfresh. apply in_map_iff in Hin as [other [E Hother]].
  apply filter_In in Hother as [Hother _]. apply in_map_iff. eauto.
Qed.

(** [COUNT(DISTINCT e.id)] over the joined rows that pass the [WHERE] clause
    is the number of events that match, as soon as the rows that pass are
    rows of matching events and every matching event has such a row. *)
Lemma count_distinct_matches (db : Db.store) (rows : list Event.joined)
  (matches : Events.row -> bool) :
  events_key db ->
  (forall r, In r rows ->
             In (fst r) (Db.events db) /\ matches (fst r) = true) ->
  (forall e, In e (Db.events db) -> matches e = true ->
             exists r, In r rows /\ fst r = e) ->
  Sql.count_distinct Events.id (map fst rows)
  = Z.of_nat (List.length (filter matches (Db.events db))).
Proof.
  intros Hkey Hsound Hcomplete. unfold Sql.count_distinct. f_equal.
  rewrite <- (length_map Events.id (filter matches (Db.events db))).
  apply Permutation_length, NoDup_Permutation.
  - apply NoDup_nodup.
  - now apply key_of_filtered.
  - intros x. rewrite nodup_In, !in_map_iff. split.
    + intros [e [<- He]]. apply in_map_iff in He as [r [<- Hr]].
      destruct (Hsound r Hr) as [H1 H2].
      exists (fst r). split; [reflexivity|]. apply filter_In. now split.
    + intros [e [<- He]]. apply filter_In in He as [He Hm].
      destruct (Hcomplete e He Hm) as [r [Hr <-]].
      exists (fst r). split; [reflexivity|]. apply in_map_iff. eauto.
Qed.

Lemma date_conditions (sd ed : option Z) (r : Event.joined) :
  forallb (fun c => c r)
    (Event.when_ sd Event.start_time_ge ++ Event.when_ ed Event.start_time_le)
  = in_date_range sd ed (fst r).
Proof.
  unfold in_date_range, Event.start_time_ge, Event.start_time_le.
  destruct sd, ed; simpl; rewrite ?andb_true_r; reflexivity.
Qed.

Lemma literals_cons (c : Js.jsnum) (cs : list Js.jsnum) (ids : list Q) :
  Sql.literals (c :: cs) = Some ids -> exists q qs, ids = q :: qs.
Proof.
  simpl. destruct c as [|q]; [discriminate|].
  destruct (Sql.literals cs) as [qs|]; simpl; [|discriminate].
  intros H. injection H as <-. eauto.
Qed.

(** The rows of the plain [FROM events e]. *)
Lemma from_events_plain db r :
  In r (Event.from_events db false) <->
  In (fst r) (Db.events db) /\ snd r = None.
Proof.
  unfold Event.from_events. rewrite in_map_iff. split.
  - intros [e [<- He]]. now split.
  - intros [He Hn]. exists (fst r). split; [|exact He].
    destruct r as [e c]. simpl in *. now subst.
Qed.

(** The rows of the join with the categories. *)
Lemma from_events_join db r :
  In r (Event.from_events db true) <->
  In (fst r) (Db.events db)
  /\ exists ec c,
      In ec (Db.event_categories db) /\ In c (Db.categories db)
      /\ Events.id (fst r) = EventCategories.event_id ec
      /\ EventCategories.category_id ec = Categories.id c
      /\ snd r = Some c.
Proof.
  unfold Event.from_events. rewrite in_flat_map. split.
  - intros [e [He H]]. rewrite in_flat_map in H. destruct H as [ec [Hec H]].
    destruct (Events.id e =? EventCategories.event_id ec) eqn:E1;
      [|contradiction].
    rewrite in_flat_map in H. destruct H as [c [Hc H]].
    destruct (EventCategories.category_id ec =? Categories.id c) eqn:E2;
      [|contradiction].
    destruct H as [<-|[]]. simpl. split; [exact He|].
    exists ec, c. apply Z.eqb_eq in E1, E2. auto.
  - intros [He (ec & c & Hec & Hc & E1 & E2 & Hs)].
    exists (fst r). split; [exact He|].
    rewrite in_flat_map. exists ec. split; [exact Hec|].
    apply Z.eqb_eq in E1. rewrite E1.
    rewrite in_flat_map. exists c. split; [exact Hc|].
    apply Z.eqb_eq in E2. rewrite E2.
    left. destruct r as [e c']. simpl in *. now subst.
Qed.

Lemma exists_category_In db id :
  Event.exists_category db id = true ->
  exists c, In c (Db.categories db) /\ id = Categories.id c.
Proof.
  unfold Event.exists_category. rewrite existsb_exists.
  intros [c [Hc E]]. apply Z.eqb_eq in E. eauto.
Qed.

(** The category condition on a joined row against [has_any_category]. *)
Lemma category_rows_sound db ids r :
  In r (Event.from_events db true) -> Event.category_in ids r = true ->
  has_any_category db ids (fst r) = true.
Proof.
  intros Hr Hc. apply from_events_join in Hr
    as (_ & ec & c & Hec & _ & E1 & E2 & Hs).
  unfold Event.category_in in Hc. rewrite Hs in Hc.
  unfold has_any_category. apply existsb_exists. exists ec.
  split; [exact Hec|]. rewrite <- E1, Z.eqb_refl, E2. exact Hc.
Qed.

Lemma category_rows_complete db ids e :
  categories_referenced db -> In e (Db.events db) ->
  has_any_category db ids e = true ->
  exists c, In (e, Some c) (Event.from_events db true)
            /\ Event.category_in ids (e, Some c) = true.
Proof.
  intros Href He H. unfold has_any_category in H.
  apply existsb_exists in H as [ec [Hec H]].
  apply andb_true_iff in H as [E1 Hin]. apply Z.eqb_eq in E1.
  destruct (exists_category_In _ _ (Href ec Hec)) as [c [Hc E2]].
  exists c. split.
  - apply from_events_join. simpl. split; [exact He|].
    exists ec, c. repeat split; auto.
  - unfold Event.category_in. simpl. now rewrite <- E2.
Qed.

Lemma within_distanceKm D center radius r :
  Event.within D center radius r
  = Qle_bool (distanceKm D center (Events.location (fst r))) radius.
Proof.
  unfold Event.within, Event.ST_DWithin, distanceKm.
  apply eq_true_iff_eq. rewrite !Qle_bool_iff. split; intros H.
  - apply Qle_shift_div_r; [reflexivity | exact H].
  - apply Qmult_le_r with (z := (/ 1000)%Q); [reflexivity|].
    rewrite <- Qmult_assoc, Qmult_inv_r, Qmult_1_r; [exact H | discriminate].
Qed.

Section CountFiltered.
Variables (db : Db.store) (base : list (Event.joined -> bool))
          (bm : Events.row -> bool) (sd ed : option Z).
Hypothesis Hkey : events_key db.
Hypothesis Hbase : forall r, forallb (fun c => c r) base = bm (fst r).

Lemma count_filtered_plain :
  Sql.count_distinct Events.id
    (map fst
       (Event.where_
          (base ++ Event.when_ sd Event.start_time_ge
           ++ Event.when_ ed Event.start_time_le)
          (Event.from_events db false)))
  = Z.of_nat
      (List.length
         (filter (fun e => bm e && in_date_range sd ed e
                           && category_filter db [] e)
                 (Db.events db))).
Proof.
  apply count_distinct_matches; [exact Hkey | |].
  - intros r Hr. unfold Event.where_ in Hr. apply filter_In in Hr as [Hr Hc].
    apply from_events_plain in Hr as [Hr _]. split; [exact Hr|].
    rewrite forallb_app, Hbase, date_conditions in Hc.
    simpl. now rewrite andb_true_r.
  - intros e He Hm. exists (e, None). split; [|reflexivity].
    unfold Event.where_. apply filter_In. split.
    + apply from_events_plain. now split.
    + rewrite forallb_app, Hbase, date_conditions. simpl in *.
      now rewrite andb_true_r in Hm.
Qed.

Lemma count_filtered_join (q : Q) (qs : list Q) :
  categories_referenced db ->
  Sql.count_distinct Events.id
    (map fst
       (Event.where_
          ((base ++ Event.when_ sd Event.start_time_ge
            ++ Event.when_ ed Event.start_time_le)
           ++ [Event.category_in (q :: qs)])
          (Event.from_events db true)))
  = Z.of_nat
      (List.length
         (filter (fun e => bm e && in_date_range sd ed e
                           && category_filter db (q :: qs) e)
                 (Db.events db))).
Proof.
  intros Href. apply count_distinct_matches; [exact Hkey | |].
  - intros r Hr. unfold Event.where_ in Hr. apply filter_In in Hr as [Hr Hc].
    split; [now apply from_events_In in Hr|].
    do 2 rewrite forallb_app in Hc.
    rewrite Hbase, date_conditions in Hc. simpl in Hc.
    rewrite andb_true_r in Hc.
    apply andb_true_iff in Hc as [Hc Hcat]. rewrite Hc. simpl.
    now apply category_rows_sound.
  - intros e He Hm.
    apply andb_true_iff in Hm as [Hm Hcat]. simpl in Hcat.
    destruct (category_rows_complete _ _ _ Href He Hcat) as (c & Hr & Hc).
    exists (e, Some c). split; [|reflexivity].
    unfold Event.where_. apply filter_In. split; [exact Hr|].
    do 2 rewrite forallb_app.
    rewrite Hbase, date_conditions. simpl. rewrite andb_true_r.
    simpl in Hm. now rewrite Hm, Hc.
Qed.
End CountFiltered.

Lemma ceil_div_is_ceiling (total limit : Z) :
  0 < limit ->
  exists k, Js.ceil_div total limit = Some k /\ is_ceiling total limit k.
Proof.
  intros Hl. unfold Js.ceil_div, is_ceiling.
  destruct (limit =? 0) eqn:E; [apply Z.eqb_eq in E; lia|].
  eexists. split; [reflexivity|].
  pose proof (Z.div_mod (- total) limit ltac:(lia)) as Hdm.
  pose proof (Z.mod_pos_bound (- total) limit Hl) as Hb.
  nia.
Qed.

(** The total reported by a successful location search. *)
Lemma searchByLocation_total D p db db' l :
  events_key db -> categories_referenced db ->
  Event.searchByLocation D p db = (Db.Ok l, db') ->
  exists ids,
    Sql.literals (Event.default (Event.searchParams.categoryIds p) [])
    = Some ids
    /\ Event.listing_pagination l
       = {| Event.total := search_total D db p ids;
            Event.page := Event.default (Event.searchParams.page p) 1;
            Event.limit := Event.default (Event.searchParams.limit p) 10;
            Event.pages :=
              Js.ceil_div (search_total D db p ids)
                (Event.default (Event.searchParams.limit p) 10) |}.
Proof.
  intros Hkey Href. unfold Event.searchByLocation.
  destruct (Event.default (Event.searchParams.categoryIds p) []) as [|c cs].
  - intros H. apply searchByLocation_queries_Ok in H as (_ & rows & _ & ->).
    exists []. split; [reflexivity|]. simpl Event.listing_pagination.
    match goal with
    | |- context [Sql.count_distinct ?f ?rs] =>
        assert (E : Sql.count_distinct f rs
                    = search_total D db p [])
    end.
    { apply (count_filtered_plain db
               [Event.within D _ _]
               (fun e => Qle_bool (distanceKm D _ (Events.location e)) _)
               _ _ Hkey).
      intros r. simpl. rewrite andb_true_r. apply within_distanceKm. }
    rewrite E. reflexivity.
  - destruct (Sql.literals (c :: cs)) as [ids|] eqn:El; [|discriminate].
    intros H. apply searchByLocation_queries_Ok in H as (_ & rows & _ & ->).
    exists ids. split; [reflexivity|]. simpl Event.listing_pagination.
    destruct (literals_cons _ _ _ El) as (q & qs & ->).
    match goal with
    | |- context [Sql.count_distinct ?f ?rs] =>
        assert (E : Sql.count_distinct f rs
                    = search_total D db p (q :: qs))
    end.
    { apply (count_filtered_join db
               [Event.within D _ _]
               (fun e => Qle_bool (distanceKm D _ (Events.location e)) _)
               _ _ Hkey); [|exact Href].
      intros r. simpl. rewrite andb_true_r. apply within_distanceKm. }
    rewrite E. reflexivity.
Qed.

(** A location search with a non-negative offset and limit and category ids
    that are numbers returns, and leaves the store as it was. *)
Lemma searchByLocation_returns D p db ids :
  Sql.literals (Event.default (Event.searchParams.categoryIds p) [])
  = Some ids ->
  1 <= Event.default (Event.searchParams.page p) 1 ->
  0 <= Event.default (Event.searchParams.limit p) 10 ->
  exists l, Event.searchByLocation D p db = (Db.Ok l, db).
Proof.
  intros Hl Hp Hlim. unfold Event.searchByLocation.
  assert (Hq : forall center join conds,
             exists l,
               Event.searchByLocation_queries D center join conds
                 (Event.default (Event.searchParams.page p) 1)
                 (Event.default (Event.searchParams.limit p) 10) db
               = (Db.Ok l, db)).
  { intros center join conds.
    unfold Event.searchByLocation_queries, Db.bind, Db.query, Db.ret,
      Event.lift, Sql.limit_offset.
    destruct (_ <? 0) eqn:Eo; [apply Z.ltb_lt in Eo; nia|].
    destruct (Event.default (Event.searchParams.limit p) 10 <? 0) eqn:E;
      [apply Z.ltb_lt in E; lia|].
    eexists. reflexivity. }
  destruct (Event.default (Event.searchParams.categoryIds p) []) as [|c cs].
  - apply Hq.
  - rewrite Hl. apply Hq.
Qed.

Lemma getAll_queries_Ok join conds page limit db db' l :
  Event.getAll_queries join conds page limit db = (Db.Ok l, db') ->
  db' = db
  /\ Event.listing_pagination l
     = {| Event.total :=
            Sql.count_distinct Events.id
              (map fst (Event.where_ conds (Event.from_events db join)));
          Event.page := page; Event.limit := limit;
          Event.pages :=
            Js.ceil_div
              (Sql.count_distinct Events.id
                 (map fst (Event.where_ conds (Event.from_events db join))))
              limit |}.
Proof.
  unfold Event.getAll_queries, Db.bind, Db.query, Db.ret, Event.lift.
  destruct (Sql.limit_offset _ _ _) as [rows|code] eqn:E; [|discriminate].
  intros H. injection H as <- <-. split; reflexivity.
Qed.

Lemma creator_condition (creatorId : option Z) (r : Event.joined) :
  forallb (fun c => c r) (Event.when_truthy creatorId Event.creator_is)
  = created_by (creator_filter creatorId) (fst r).
Proof.
  destruct creatorId as [[|u|u]|]; simpl; trivial; now rewrite andb_true_r.
Qed.

(** The total reported by a successful [getAll]. *)
Lemma getAll_total_correct p db db' l :
  events_key db -> categories_referenced db ->
  Event.getAll p db = (Db.Ok l, db') ->
  exists ids,
    Sql.literals (Event.default (Event.getAllParams.categoryIds p) [])
    = Some ids
    /\ Event.listing_pagination l
       = {| Event.total := getAll_total db p ids;
            Event.page := Event.default (Event.getAllParams.page p) 1;
            Event.limit := Event.default (Event.getAllParams.limit p) 10;
            Event.pages :=
              Js.ceil_div (getAll_total db p ids)
                (Event.default (Event.getAllParams.limit p) 10) |}.
Proof.
  intros Hkey Href. unfold Event.getAll.
  destruct (Event.default (Event.getAllParams.categoryIds p) []) as [|c cs].
  - intros H. apply getAll_queries_Ok in H as (_ & ->).
    exists []. split; [reflexivity|].
    match goal with
    | |- context [Sql.count_distinct ?f ?rs] =>
        assert (E : Sql.count_distinct f rs = getAll_total db p [])
    end.
    { apply (count_filtered_plain db _ (created_by _) _ _ Hkey).
      intros r. apply creator_condition. }
    rewrite E. reflexivity.
  - destruct (Sql.literals (c :: cs)) as [ids|] eqn:El; [|discriminate].
    intros H. apply getAll_queries_Ok in H as (_ & ->).
    exists ids. split; [reflexivity|].
    destruct (literals_cons _ _ _ El) as (q & qs & ->).
    match goal with
    | |- context [Sql.count_distinct ?f ?rs] =>
        assert (E : Sql.count_distinct f rs = getAll_total db p (q :: qs))
    end.
    { apply (count_filtered_join db _ (created_by _) _ _ Hkey);
        [|exact Href].
      intros r. apply creator_condition. }
    rewrite E. reflexivity.
Qed.

Lemma getAll_returns p db ids :
  Sql.literals (Event.default (Event.getAllParams.categoryIds p) [])
  = Some ids ->
  1 <= Event.default (Event.getAllParams.page p) 1 ->
  0 <= Event.default (Event.getAllParams.limit p) 10 ->
  exists l, Event.getAll p db = (Db.Ok l, db).
Proof.
  intros Hl Hp Hlim. unfold Event.getAll.
  assert (Hq : forall join conds,
             exists l,
               Event.getAll_queries join conds
                 (Event.default (Event.getAllParams.page p) 1)
                 (Event.default (Event.getAllParams.limit p) 10) db
               = (Db.Ok l, db)).
  { intros join conds.
    unfold Event.getAll_queries, Db.bind, Db.query, Db.ret,
      Event.lift, Sql.limit_offset.
    destruct (_ <? 0) eqn:Eo; [apply Z.ltb_lt in Eo; nia|].
    destruct (Event.default (Event.getAllParams.limit p) 10 <? 0) eqn:E;
      [apply Z.ltb_lt in E; lia|].
    eexists. reflexivity. }
  destruct (Event.default (Event.getAllParams.categoryIds p) []) as [|c cs].
  - apply Hq.
  - rewrite Hl. apply Hq.
Qed.

(** C7. The pagination object of [Event.searchByLocation] and of
    [Event.getAll]: [total] is the number of events that match all the
    filters (before paging), [page] and [limit] are the inputs, and [pages]
    is the ceiling of [total / limit].  The creator filter of [getAll] is
    the one of [creator_filter]: the code tests [if (creatorId)], so that a
    [creatorId] of 0 is no filter, as [null] is none.  Whenever the call returns the object
    is as stated; with a page and a limit of at least 1 (and category ids
    that are numbers) the call does return; and page 1 with limit 10 over 2
    matching events gives total 2, page 1, limit 10, pages 1. *)
Theorem pagination_of_listings :
  forall (ST_Distance : geography -> geography -> Q) (db : Db.store),
    events_key db ->
    categories_referenced db ->
    (forall p l db',
        Event.searchByLocation ST_Distance p db = (Db.Ok l, db') ->
        exists ids,
          Sql.literals (Event.default (Event.searchParams.categoryIds p) [])
          = Some ids
          /\ Event.listing_pagination l
             = {| Event.total := search_total ST_Distance db p ids;
                  Event.page := Event.default (Event.searchParams.page p) 1;
                  Event.limit := Event.default (Event.searchParams.limit p) 10;
                  Event.pages :=
                    Js.ceil_div (search_total ST_Distance db p ids)
                      (Event.default (Event.searchParams.limit p) 10) |})
    /\ (forall p l db',
           Event.getAll p db = (Db.Ok l, db') ->
           exists ids,
             Sql.literals (Event.default (Event.getAllParams.categoryIds p) [])
             = Some ids
             /\ Event.listing_pagination l
                = {| Event.total := getAll_total db p ids;
                     Event.page := Event.default (Event.getAllParams.page p) 1;
                     Event.limit :=
                       Event.default (Event.getAllParams.limit p) 10;
                     Event.pages :=
                       Js.ceil_div (getAll_total db p ids)
                         (Event.default (Event.getAllParams.limit p) 10) |})
    /\ (forall p ids,
           Sql.literals (Event.default (Event.searchParams.categoryIds p) [])
           = Some ids ->
           1 <= Event.default (Event.searchParams.page p) 1 ->
           1 <= Event.default (Event.searchParams.limit p) 10 ->
           exists l k,
             Event.searchByLocation ST_Distance p db = (Db.Ok l, db)
             /\ Event.total (Event.listing_pagination l)
                = search_total ST_Distance db p ids
             /\ Event.pages (Event.listing_pagination l) = Some k
             /\ is_ceiling (search_total ST_Distance db p ids)
                  (Event.default (Event.searchParams.limit p) 10) k)
    /\ (forall p ids,
           Sql.literals (Event.default (Event.getAllParams.categoryIds p) [])
           = Some ids ->
           1 <= Event.default (Event.getAllParams.page p) 1 ->
           1 <= Event.default (Event.getAllParams.limit p) 10 ->
           exists l k,
             Event.getAll p db = (Db.Ok l, db)
             /\ Event.total (Event.listing_pagination l)
                = getAll_total db p ids
             /\ Event.pages (Event.listing_pagination l) = Some k
             /\ is_ceiling (getAll_total db p ids)
                  (Event.default (Event.getAllParams.limit p) 10) k)
    /\ (forall p ids,
           Sql.literals (Event.default (Event.searchParams.categoryIds p) [])
           = Some ids ->
           Event.default (Event.searchParams.page p) 1 = 1 ->
           Event.default (Event.searchParams.limit p) 10 = 10 ->
           search_total ST_Distance db p ids = 2 ->
           exists l,
             Event.searchByLocation ST_Distance p db = (Db.Ok l, db)
             /\ Event.listing_pagination l
                = {| Event.total := 2; Event.page := 1; Event.limit := 10;
                     Event.pages := Some 1 |}).
Proof.
  intros D db Hkey Href.
  split; [intros p l db'; now apply searchByLocation_total|].
  split; [intros p l db'; now apply getAll_total_correct|].
  split; [|split].
  - intros p ids Hl Hp Hlim.
    destruct (searchByLocation_returns D p db ids Hl Hp ltac:(lia)) as [l Hrun].
    destruct (searchByLocation_total _ _ _ _ _ Hkey Href Hrun)
      as (ids' & Hl' & Hpg).
    rewrite Hl in Hl'. injection Hl' as <-.
    destruct (ceil_div_is_ceiling (search_total D db p ids)
                (Event.default (Event.searchParams.limit p) 10) ltac:(lia))
      as (k & Hk & Hc).
    exists l, k. rewrite Hpg. simpl. auto.
  - intros p ids Hl Hp Hlim.
    destruct (getAll_returns p db ids Hl Hp ltac:(lia)) as [l Hrun].
    destruct (getAll_total_correct _ _ _ _ Hkey Href Hrun)
      as (ids' & Hl' & Hpg).
    rewrite Hl in Hl'. injection Hl' as <-.
    destruct (ceil_div_is_ceiling (getAll_total db p ids)
                (Event.default (Event.getAllParams.limit p) 10) ltac:(lia))
      as (k & Hk & Hc).
    exists l, k. rewrite Hpg. simpl. auto.
  - intros p ids Hl Hp Hlim Ht.
    destruct (searchByLocation_returns D p db ids Hl ltac:(lia) ltac:(lia))
      as [l Hrun].
    destruct (searchByLocation_total _ _ _ _ _ Hkey Href Hrun)
      as (ids' & Hl' & Hpg).
    rewrite Hl in Hl'. injection Hl' as <-.
    exists l. split; [exact Hrun|].
    rewrite Hpg, Hp, Hlim, Ht. reflexivity.
Qed.

Lemma sample_events_key : events_key Sample.db.
Proof.
  unfold events_key. simpl.
  repeat constructor; simpl; intuition discriminate.
Qed.

Lemma sample_categories_referenced : categories_referenced Sample.db.
Proof.
  intros ec Hec. simpl in Hec.
  repeat (destruct Hec as [<-|Hec]; [reflexivity|]). contradiction.
Qed.

Lemma pagination_of_listings_witness :
  events_key Sample.db
  /\ categories_referenced Sample.db
  /\ (exists l,
        Event.searchByLocation Sample.distance Sample.search Sample.db
        = (Db.Ok l, Sample.db)
        /\ Event.listing_pagination l
           = {| Event.total := 2; Event.page := 1; Event.limit := 10;
                Event.pages := Some 1 |})
  /\ Sql.literals
       (Event.default (Event.getAllParams.categoryIds Demo.in_category_1) [])
     = Some [1%Q]
  /\ exists l k,
      Event.getAll Demo.in_category_1 Sample.db = (Db.Ok l, Sample.db)
      /\ Event.total (Event.listing_pagination l)
         = getAll_total Sample.db Demo.in_category_1 [1%Q]
      /\ Event.pages (Event.listing_pagination l) = Some k
      /\ is_ceiling (getAll_total Sample.db Demo.in_category_1 [1%Q])
           (Event.default (Event.getAllParams.limit Demo.in_category_1) 10) k.
Proof.
  split; [exact sample_events_key|].
  split; [exact sample_categories_referenced|].
  split.
  - apply (proj2 (proj2 (proj2 (proj2
             (pagination_of_listings Sample.distance Sample.db
                sample_events_key sample_categories_referenced))))
             Sample.search []);
      vm_compute; reflexivity.
  - split; [reflexivity|].
    apply (proj1 (proj2 (proj2 (proj2
             (pagination_of_listings Sample.distance Sample.db
                sample_events_key sample_categories_referenced))))
             Demo.in_category_1 [1%Q]);
      [reflexivity | vm_compute; discriminate | vm_compute; discriminate].
Defined.

(** A listing asked for with a [creatorId] of 0: the test [if (creatorId)]
    fails, no condition on the creator is added, and every stored event is
    listed and counted. *)
Example listing_for_creator_zero :
  exists l,
    Event.getAll
      {| Event.getAllParams.page := None; Event.getAllParams.limit := None;
         Event.getAllParams.categoryIds := None;
         Event.getAllParams.creatorId := Some 0;
         Event.getAllParams.startDate := None;
         Event.getAllParams.endDate := None |} Sample.db
    = (Db.Ok l, Sample.db)
    /\ Event.total (Event.listing_pagination l)
       = Z.of_nat (List.length (Db.events Sample.db))
    /\ List.length (Event.events l) = List.length (Db.events Sample.db).
Proof.
  eexists. split; [vm_compute; reflexivity|].
  split; vm_compute; reflexivity.
Qed.

(** ** What the statements leave untouched *)

Section Frame.
Context {B : Type} (part : Db.store -> B).
Hypothesis part_rollback :
  forall before after, part (Db.rollback before after) = part before.

Lemma keeps_ret {A} (a : A) : keeps part (Db.ret a).
Proof. intros db. reflexivity. Qed.

Lemma keeps_raise {A} (code : string) : keeps part (@Db.raise A code).
Proof. intros db. reflexivity. Qed.

Lemma keeps_query {A} (q : Db.store -> A) : keeps part (Db.query q).
Proof. intros db. reflexivity. Qed.

Lemma keeps_bind {A C} (m : Db.M A) (k : A -> Db.M C) :
  keeps part m -> (forall a, keeps part (k a)) -> keeps part (Db.bind m k).
Proof.
  intros Hm Hk db. unfold Db.bind. specialize (Hm db).
  destruct (m db) as [[a|code] db1]; simpl in *.
  - now rewrite Hk.
  - exact Hm.
Qed.

Lemma keeps_transaction {A} (body : Db.M A) :
  keeps part body -> keeps part (Db.transaction body).
Proof.
  intros Hm db. unfold Db.transaction. specialize (Hm db).
  destruct (body db) as [[a|code] db1]; simpl in *.
  - exact Hm.
  - apply part_rollback.
Qed.
End Frame.

(** Splits a method into its statements. *)
Ltac frame :=
  repeat first
    [ apply keeps_ret | apply keeps_raise | apply keeps_query
    | apply keeps_transaction; [reflexivity|]
    | apply keeps_bind; [|intros ?]
    | match goal with
      | |- keeps _ (match ?x with _ => _ end) => destruct x
      | |- keeps _ (if ?b then _ else _) => destruct b
      end ].

(** Evaluates one statement on a store, case by case. *)
Ltac statement :=
  intros db; simpl;
  repeat match goal with
    | |- context [match ?x with _ => _ end] => destruct x; simpl
    end;
  reflexivity.

(** ** Reviews: one per pair (event, user) *)

Lemma user_create_reviews d : keeps Db.event_reviews (User.create d).
Proof. unfold User.create. frame. unfold User.insert_user. statement. Qed.

Lemma user_update_reviews id d : keeps Db.event_reviews (User.update id d).
Proof.
  unfold User.update, User.findById. frame.
  unfold User.update_users. statement.
Qed.

Lemma user_updatePassword_reviews id pw :
  keeps Db.event_reviews (User.updatePassword id pw).
Proof. intros db. reflexivity. Qed.

Lemma user_setPreferredCategories_reviews u l :
  keeps Db.event_reviews (User.setPreferredCategories u l).
Proof.
  unfold User.setPreferredCategories, User.getPreferredCategories. frame;
    try (unfold User.insert_preferences; statement).
Qed.

Lemma insert_event_categories_reviews rows :
  keeps Db.event_reviews (Event.insert_event_categories rows).
Proof. unfold Event.insert_event_categories. statement. Qed.

Lemma event_create_reviews d : keeps Db.event_reviews (Event.create d).
Proof.
  unfold Event.create, Event.getById. frame;
    try apply insert_event_categories_reviews.
  unfold Event.insert_event. statement.
Qed.

Lemma event_update_reviews id d : keeps Db.event_reviews (Event.update id d).
Proof.
  unfold Event.update, Event.getById. frame;
    try apply insert_event_categories_reviews;
    intros db; reflexivity.
Qed.

Lemma event_favoriteEvent_reviews u e :
  keeps Db.event_reviews (Event.favoriteEvent u e).
Proof.
  unfold Event.favoriteEvent. frame. unfold Event.insert_favorite. statement.
Qed.

Lemma event_unfavoriteEvent_reviews u e :
  keeps Db.event_reviews (Event.unfavoriteEvent u e).
Proof. intros db. reflexivity. Qed.

Lemma event_delete_reviews id db :
  Db.event_reviews (snd (Event.delete id db)) = Db.event_reviews db
  \/ Db.event_reviews (snd (Event.delete id db))
     = filter (fun r => negb (EventReviews.event_id r =? id))
              (Db.event_reviews db).
Proof.
  unfold Event.delete, Event.delete_events, Db.bind, Db.ret.
  destruct (filter _ (Db.events db)); simpl; auto.
Qed.

Lemma filter_map_length {A} (p : A -> bool) (f : A -> A) (l : list A) :
  (forall x, p (f x) = p x) ->
  filter p (map f l) = map f (filter p l).
Proof.
  intros H. induction l as [|x r IH]; simpl; [reflexivity|].
  rewrite H. destruct (p x); simpl; now rewrite IH.
Qed.

Lemma filter_filter_length {A} (p q : A -> bool) (l : list A) :
  (List.length (filter p (filter q l)) <= List.length (filter p l))%nat.
Proof.
  induction l as [|x r IH]; simpl; [lia|].
  destruct (q x); simpl; destruct (p x); simpl; lia.
Qed.

Lemma review_of_rewritten now e u rating review e' u' r :
  Event.review_of e' u' (rewritten now e u rating review r)
  = Event.review_of e' u' r.
Proof. unfold rewritten. now destruct (Event.review_of e u r). Qed.

(** [addReview] when the pair already has a review: the rows of the pair
    are rewritten in place. *)
Lemma addReview_existing e u rating review db :
  reviews_of db e u <> [] ->
  Db.event_reviews (snd (Event.addReview e u rating review db))
  = map (rewritten (Db.now db) e u rating review) (Db.event_reviews db).
Proof.
  intros H. unfold Event.addReview, Db.bind, Db.query. simpl.
  unfold reviews_of in H.
  destruct (filter (Event.review_of e u) (Db.event_reviews db));
    [contradiction|reflexivity].
Qed.

(** [addReview] when the pair has no review yet: one row is appended, or
    nothing changes when the event does not exist. *)
Lemma addReview_fresh e u rating review db :
  reviews_of db e u = [] ->
  Db.event_reviews (snd (Event.addReview e u rating review db))
  = if Event.exists_event db e then
      (Db.event_reviews db
       ++ [{| EventReviews.id := Db.event_reviews_id_seq db;
              EventReviews.event_id := e; EventReviews.user_id := u;
              EventReviews.rating := rating; EventReviews.review := review;
              EventReviews.created_at := Db.now db;
              EventReviews.updated_at := Db.now db |}])%list
    else Db.event_reviews db.
Proof.
  intros H. unfold Event.addReview, Db.bind, Db.query. simpl.
  unfold reviews_of in H. rewrite H. simpl.
  unfold Event.insert_review. now destruct (Event.exists_event db e).
Qed.

Lemma review_of_new e u e' u' id rating review c m :
  Event.review_of e' u'
    {| EventReviews.id := id; EventReviews.event_id := e;
       EventReviews.user_id := u; EventReviews.rating := rating;
       EventReviews.review := review; EventReviews.created_at := c;
       EventReviews.updated_at := m |} = true ->
  e' = e /\ u' = u.
Proof.
  unfold Event.review_of. simpl. rewrite andb_true_iff, !Z.eqb_eq.
  intros [-> ->]. now split.
Qed.

Lemma addReview_preserves e u rating review db :
  one_review_per_pair db ->
  one_review_per_pair (snd (Event.addReview e u rating review db)).
Proof.
  intros Hinv e' u'. unfold reviews_of.
  destruct (reviews_of db e u) as [|r0 rs] eqn:E.
  - rewrite addReview_fresh by exact E.
    destruct (Event.exists_event db e); [|apply Hinv].
    rewrite filter_app, length_app. simpl.
    destruct (Event.review_of e' u' _) eqn:F; simpl.
    + apply review_of_new in F as [-> ->].
      unfold reviews_of in E. rewrite E. simpl. lia.
    + specialize (Hinv e' u'). unfold reviews_of in Hinv. lia.
  - rewrite addReview_existing by (rewrite E; discriminate).
    rewrite filter_map_length by (intros; apply review_of_rewritten).
    rewrite length_map. apply Hinv.
Qed.

Lemma exec_preserves o db :
  one_review_per_pair db -> one_review_per_pair (Operations.exec o db).
Proof.
  intros Hinv.
  assert (Hsame : forall db',
             Db.event_reviews db' = Db.event_reviews db ->
             one_review_per_pair db').
  { intros db' E e u. unfold reviews_of. rewrite E. apply Hinv. }
  destruct o; simpl.
  - apply Hsame, user_create_reviews.
  - apply Hsame, user_update_reviews.
  - apply Hsame, user_updatePassword_reviews.
  - apply Hsame, user_setPreferredCategories_reviews.
  - apply Hsame, event_create_reviews.
  - apply Hsame, event_update_reviews.
  - destruct (event_delete_reviews id db) as [E|E]; [now apply Hsame|].
    intros e u. unfold reviews_of. rewrite E.
    eapply Nat.le_trans; [apply filter_filter_length | apply Hinv].
  - now apply addReview_preserves.
  - apply Hsame, event_favoriteEvent_reviews.
  - apply Hsame, event_unfavoriteEvent_reviews.
Qed.

Lemma run_preserves ops db :
  one_review_per_pair db -> one_review_per_pair (Operations.run ops db).
Proof.
  revert db. unfold Operations.run.
  induction ops as [|o ops IH]; intros db H; simpl; [exact H|].
  apply IH. now apply exec_preserves.
Qed.

(** C8. The store holds at most one review per pair (event, user), and
    every operation of the models keeps it so.  [Event.addReview] rewrites
    the review of the pair when there is one, without adding a row, and
    appends a row only when there is none; a second submission by the same
    user on the same event leaves the number of reviews as it was and the
    single review of the pair carries the second rating and text. *)
Theorem one_review_per_user_and_event :
  forall (db : Db.store),
    one_review_per_pair db ->
    (forall ops, one_review_per_pair (Operations.run ops db))
    /\ (forall eventId userId rating review,
           reviews_of db eventId userId <> [] ->
           let db' := snd (Event.addReview eventId userId rating review db) in
           List.length (Db.event_reviews db')
           = List.length (Db.event_reviews db)
           /\ exists r,
               reviews_of db' eventId userId = [r]
               /\ EventReviews.rating r = rating
               /\ EventReviews.review r = review)
    /\ (forall eventId userId rating review,
           reviews_of db eventId userId = [] ->
           Event.exists_event db eventId = true ->
           let db' := snd (Event.addReview eventId userId rating review db) in
           exists r,
             Db.event_reviews db' = (Db.event_reviews db ++ [r])%list
             /\ reviews_of db' eventId userId = [r]
             /\ EventReviews.rating r = rating
             /\ EventReviews.review r = review)
    /\ (forall eventId userId rating1 review1 rating2 review2,
           Event.exists_event db eventId = true ->
           let db1 :=
             snd (Event.addReview eventId userId rating1 review1 db) in
           let db2 :=
             snd (Event.addReview eventId userId rating2 review2 db1) in
           List.length (Db.event_reviews db2)
           = List.length (Db.event_reviews db1)
           /\ exists r,
               reviews_of db2 eventId userId = [r]
               /\ EventReviews.rating r = rating2
               /\ EventReviews.review r = review2).
Proof.
  intros db Hinv.
  assert (Hupdate : forall db0 e u rating review,
             one_review_per_pair db0 ->
             reviews_of db0 e u <> [] ->
             List.length
               (Db.event_reviews (snd (Event.addReview e u rating review db0)))
             = List.length (Db.event_reviews db0)
             /\ exists r,
                 reviews_of (snd (Event.addReview e u rating review db0)) e u
                 = [r]
                 /\ EventReviews.rating r = rating
                 /\ EventReviews.review r = review).
  { intros db0 e u rating review Hinv0 Hne.
    split; [rewrite addReview_existing by exact Hne; apply length_map|].
    unfold reviews_of. rewrite addReview_existing by exact Hne.
    rewrite filter_map_length by (intros; apply review_of_rewritten).
    specialize (Hinv0 e u). fold (reviews_of db0 e u).
    destruct (reviews_of db0 e u) as [|r0 [|r1 rs]] eqn:E;
      [contradiction | | simpl in Hinv0; lia].
    assert (Hr0 : Event.review_of e u r0 = true).
    { assert (Hin : In r0 (reviews_of db0 e u)) by (rewrite E; now left).
      unfold reviews_of in Hin. now apply filter_In in Hin. }
    eexists. split; [reflexivity|].
    unfold rewritten. rewrite Hr0. now split. }
  assert (Hinsert : forall e u rating review,
             reviews_of db e u = [] ->
             Event.exists_event db e = true ->
             exists r,
               Db.event_reviews (snd (Event.addReview e u rating review db))
               = (Db.event_reviews db ++ [r])%list
               /\ reviews_of (snd (Event.addReview e u rating review db)) e u
                  = [r]
               /\ EventReviews.rating r = rating
               /\ EventReviews.review r = review).
  { intros e u rating review Hnone Hev.
    unfold reviews_of. rewrite addReview_fresh by exact Hnone.
    rewrite Hev. eexists. split; [reflexivity|].
    rewrite filter_app. fold (reviews_of db e u). rewrite Hnone. simpl.
    unfold Event.review_of. simpl. rewrite !Z.eqb_refl. simpl. auto. }
  split; [intros ops; now apply run_preserves|].
  split; [intros e u rating review Hne; now apply Hupdate|].
  split; [exact Hinsert|].
  intros e u rating1 review1 rating2 review2 Hev db1 db2.
  apply Hupdate; [now apply addReview_preserves|].
  destruct (reviews_of db e u) as [|r0 rs] eqn:E.
  - destruct (Hinsert e u rating1 review1 E Hev) as (r & _ & Hr & _).
    unfold db1. rewrite Hr. discriminate.
  - destruct (Hupdate db e u rating1 review1 Hinv) as (_ & r & Hr & _);
      [rewrite E; discriminate|].
    unfold db1. rewrite Hr. discriminate.
Qed.

Lemma sample_one_review_per_pair : one_review_per_pair Sample.db.
Proof.
  intros e u. unfold reviews_of. simpl.
  destruct (Event.review_of e u _); simpl; lia.
Qed.

Lemma one_review_per_user_and_event_witness :
  one_review_per_pair Sample.db
  /\ one_review_per_pair
       (Operations.run
          [Operations.event_addReview 1 7 5 (Some "Great");
           Operations.event_addReview 2 7 3 None;
           Operations.event_delete 1]
          Sample.db).
Proof.
  split; [exact sample_one_review_per_pair|].
  exact (proj1 (one_review_per_user_and_event Sample.db
                  sample_one_review_per_pair) _).
Defined.

(** A second review by the same user rewrites the stored one. *)
Example second_review_updates :
  map (fun r => (EventReviews.event_id r, EventReviews.user_id r,
                 EventReviews.rating r, EventReviews.review r))
      (Db.event_reviews
         (snd (Event.addReview 1 7 5 (Some "Great") Sample.db)))
  = [(1, 7, 5, Some "Great")].
Proof. reflexivity. Qed.

(** ** Favorites *)

Lemma existsb_false_filter {A} (p : A -> bool) (l : list A) :
  existsb p l = false ->
  filter p l = [] /\ filter (fun x => negb (p x)) l = l.
Proof.
  induction l as [|x r IH]; simpl; [auto|].
  destruct (p x); simpl; [discriminate|].
  intros H. destruct (IH H) as [-> ->]. auto.
Qed.

Lemma with_user_favorite_events_same db :
  Db.with_user_favorite_events db (Db.user_favorite_events db) = db.
Proof. now destruct db. Qed.

(** C9. Unfavoriting a pair (user, event) that is not among the favorites
    reports NotFound (the endpoint answers 404) and leaves the whole store
    exactly as it was. *)
Theorem unfavorite_absent_is_not_found :
  forall (db : Db.store) (userId eventId : Z),
    favorited db userId eventId = false ->
    Event.unfavoriteEvent userId eventId db = (Db.Ok false, db)
    /\ UserController.unfavoriteEvent userId eventId db
       = ({| status := 404; success := false; message := Some "notFound";
             errors := []; data := None |}, db).
Proof.
  intros db u e H. unfold favorited in H.
  destruct (existsb_false_filter _ _ H) as [H1 H2].
  assert (E : Event.unfavoriteEvent u e db = (Db.Ok false, db)).
  { unfold Event.unfavoriteEvent, Event.delete_favorite, Db.bind, Db.ret.
    rewrite H1, H2, with_user_favorite_events_same. reflexivity. }
  split; [exact E|].
  unfold UserController.unfavoriteEvent. rewrite E. reflexivity.
Qed.

Lemma unfavorite_absent_is_not_found_witness :
  favorited Sample.db 7 2 = false
  /\ Event.unfavoriteEvent 7 2 Sample.db = (Db.Ok false, Sample.db)
  /\ UserController.unfavoriteEvent 7 2 Sample.db
     = ({| status := 404; success := false; message := Some "notFound";
           errors := []; data := None |}, Sample.db).
Proof.
  split; [reflexivity|].
  exact (unfavorite_absent_is_not_found Sample.db 7 2 eq_refl).
Defined.

(** Unfavoriting a favorite removes the marker and answers 200. *)
Example unfavorite_present :
  let '(r, db') := UserController.unfavoriteEvent 7 1 Sample.db in
  (status r, Db.user_favorite_events db') = (200, []).
Proof. reflexivity. Qed.

(** ** A coordinate equal to 0 *)



















(** A user registered at latitude 0 is stored without a location; an update
    that moves an event to latitude 0 changes its title and leaves it where
    it was. *)
Example create_at_equator :
  map Users.location (Db.users (snd (User.create Sample.newcomer Sample.db)))
  = [Some Sample.place1; None].
Proof. reflexivity. Qed.

Example update_to_equator :
  map (fun r => (Events.id r, Events.title r, Events.location r))
      (Db.events (snd (Event.update 1 Sample.to_equator Sample.db)))
  = [(3, "Event", Sample.place3); (2, "Event", Sample.place2);
     (1, "Moved", Sample.place1)].
Proof. reflexivity. Qed.

(** ** Updating the categories of an event *)

Lemma categories_of_values_for id cats rest :
  (forall ec, In ec rest -> EventCategories.event_id ec <> id) ->
  map EventCategories.category_id
    (filter (fun ec => EventCategories.event_id ec =? id)
            (rest ++ Event.values_for id cats))
  = cats.
Proof.
  intros Hrest. rewrite filter_app, map_app.
  assert (E1 : filter (fun ec => EventCategories.event_id ec =? id) rest = []).
  { induction rest as [|x r IH]; simpl; [reflexivity|].
    destruct (EventCategories.event_id x =? id) eqn:E.
    - apply Z.eqb_eq in E. exfalso. apply (Hrest x); [now left | exact E].
    - apply IH. intros ec Hec. apply Hrest. now right. }
  rewrite E1. simpl.
  induction cats as [|c cs IH]; simpl; [reflexivity|].
  rewrite Z.eqb_refl. simpl. now rewrite IH.
Qed.

Lemma others_after_delete id (l : list EventCategories.row) ec :
  In ec (filter (fun ec => negb (EventCategories.event_id ec =? id)) l) ->
  EventCategories.event_id ec <> id.
Proof.
  rewrite filter_In. intros [_ H] E. apply Z.eqb_eq in E.
  now rewrite E in H.
Qed.

(** When the update supplies something besides the categories and goes
    through, the associations of the event are the supplied ids. *)
Lemma update_replaces_categories id d db cats r db' :
  Event.categories d = Some cats ->
  (List.length (Event.updateFields d) =? 1)%nat = false ->
  Event.update id d db = (Db.Ok r, db') ->
  categories_of db' id = cats.
Proof.
  intros Hc Hn. unfold Event.update. rewrite Hn, Hc.
  unfold Db.bind, Db.transaction, Event.update_events,
    Event.delete_event_categories, Event.getById, Db.query, Db.ret.
  destruct cats as [|c cs].
  - simpl. intros H. injection H as _ <-. unfold categories_of. simpl.
    rewrite <- (app_nil_r (filter _ (Db.event_categories db))).
    apply (categories_of_values_for id []).
    intros ec. apply others_after_delete.
  - unfold Event.insert_event_categories.
    cbn [Db.event_categories Db.with_event_categories Db.with_events].
    destruct (negb (Event.pairs_distinct _)); [discriminate|].
    destruct (forallb _ _); [|discriminate].
    intros H. injection H as _ <-. unfold categories_of. simpl.
    apply (categories_of_values_for id (c :: cs)).
    intros ec. apply others_after_delete.
Qed.

(** When the update supplies nothing besides the categories, the method
    returns what [getById] returns and the store is untouched. *)
Lemma update_categories_alone id d db :
  (List.length (Event.updateFields d) =? 1)%nat = true ->
  Event.update id d db = Event.getById id db
  /\ snd (Event.update id d db) = db.
Proof.
  intros H. unfold Event.update. rewrite H. split; reflexivity.
Qed.

(** C3. An update that supplies a list of categories and nothing else:
    event 1 is associated with category 1, the call supplies [[2]], and
    after it the event is still associated with category 1 alone, the store
    being untouched; the same list supplied together with a title does
    replace the associations. *)
Theorem update_with_categories_alone_keeps_the_old_ones :
  categories_of Sample.db 1 = [1]
  /\ Event.categories Sample.only_categories = Some [2]
  /\ Event.update 1 Sample.only_categories Sample.db
     = Event.getById 1 Sample.db
  /\ categories_of (snd (Event.update 1 Sample.only_categories Sample.db)) 1
     = [1]
  /\ categories_of
       (snd (Event.update 1 Sample.title_and_categories Sample.db)) 1
     = [2].
Proof. repeat split; reflexivity. Qed.

(** ** The end time of an updated event *)

(** An update that supplies only an end time, 50, for an event whose stored
    start time is 100: the validation chain reports nothing and the service
    stores the end time, so the request does not fail with a validation
    error. *)
Lemma early_end_is_accepted :
  (Event.startTime Sample.early_end = None
   /\ Event.endTime Sample.early_end = value 50
   /\ map Events.start_time
        (filter (fun r => Events.id r =? 1) (Db.events Sample.db)) = [100]
   /\ EventValidators.eventUpdateValidation Sample.early_end = []
   /\ exists e db',
       EventService.updateEvent 1 Sample.early_end 7 Sample.db
       = (inr (Some e), db')
       /\ Event.start_time e = 100
       /\ Event.end_time e = Some 50
       /\ map (fun r => (Events.id r, Events.start_time r, Events.end_time r))
            (Db.events db')
          = [(3, 100, None); (2, 100, None); (1, 100, Some 50)])
  /\ ~ (EventValidators.eventUpdateValidation Sample.early_end <> []
        \/ exists err db',
            EventService.updateEvent 1 Sample.early_end 7 Sample.db
            = (inl err, db')
            /\ ErrorHandler.statusCode err = 400).
Proof.
  split.
  - repeat split; try reflexivity.
    eexists _, _. repeat split; reflexivity.
  - intros [H|(err & db' & H & _)].
    + apply H. reflexivity.
    + vm_compute in H. discriminate.
Qed.

Lemma endTime_checks_in body msg :
  In msg (EventValidators.endTime_checks body) ->
  In msg (EventValidators.eventUpdateValidation body).
Proof.
  intros H. unfold EventValidators.eventUpdateValidation.
  repeat (apply in_or_app; right). exact H.
Qed.

(** C4 (amended). The end time of an update is validated against the
    payload only.  When the request supplies both an end time and a start
    time, validation fails if the end is not strictly after the supplied
    start, and the end-time check passes if it is; when the request supplies
    no start time the end-time check passes, whatever start time is
    stored. *)
Theorem endTime_is_checked_against_the_payload :
  forall (body : Event.eventData) (endTime : Z),
    Event.endTime body = value endTime ->
    (forall startTime,
        Event.startTime body = Some startTime ->
        endTime <= startTime ->
        In "End time must be after start time"
           (EventValidators.eventUpdateValidation body))
    /\ (forall startTime,
           Event.startTime body = Some startTime ->
           startTime < endTime ->
           EventValidators.endTime_checks body = [])
    /\ (Event.startTime body = None ->
        EventValidators.endTime_checks body = []).
Proof.
  intros body t He. repeat split.
  - intros s Hs Hle. apply endTime_checks_in.
    unfold EventValidators.endTime_checks,
      EventValidators.endTime_after_startTime.
    rewrite He, Hs. apply Z.leb_le in Hle. rewrite Hle. simpl. now left.
  - intros s Hs Hlt.
    unfold EventValidators.endTime_checks,
      EventValidators.endTime_after_startTime.
    rewrite He, Hs. apply Z.leb_gt in Hlt. now rewrite Hlt.
  - intros Hs.
    unfold EventValidators.endTime_checks,
      EventValidators.endTime_after_startTime.
    now rewrite He, Hs.
Qed.

Lemma endTime_is_checked_against_the_payload_witness :
  Event.endTime Sample.early_end = value 50
  /\ Event.startTime Sample.early_end = None
  /\ EventValidators.endTime_checks Sample.early_end = [].
Proof.
  split; [reflexivity|]. split; [reflexivity|].
  exact (proj2 (proj2 (endTime_is_checked_against_the_payload
                         Sample.early_end 50 eq_refl)) eq_refl).
Defined.

(** ** The centre of a location search *)

Lemma isValidCoordinates_Fin (lat lon : Js.jsnum) :
  GeoUtils.isValidCoordinates lat lon = true ->
  exists la lo,
    lat = Js.Fin la /\ lon = Js.Fin lo
    /\ (-90 <= la <= 90)%Q /\ (-180 <= lo <= 180)%Q.
Proof.
  unfold GeoUtils.isValidCoordinates.
  destruct lat as [|la], lon as [|lo]; simpl;
    rewrite ?andb_false_r; try discriminate.
  rewrite !andb_true_iff, !Qle_bool_iff.
  intros [[[H1 H2] H3] H4]. exists la, lo. auto.
Qed.

(** C5. The centre is not resolved in the stated order by the handler of
    the route.  A request at latitude 95 and longitude 10, with no caller
    and no configuration: the checks of the route pass, and the pair is not
    a valid coordinate.  [SearchService.searchByLocation], whose fallback is
    guarded by [!isValidCoordinates], searches this request around the
    default coordinate, as stated; the controller behind
    [GET /api/search/location] runs the same resolution with its fallback
    guarded by [isNaN] alone, and searches around (95, 10). *)
Theorem controller_searches_around_an_out_of_range_pair :
  SearchRoutes.location_checks Sample.far_north = []
  /\ GeoUtils.isValidCoordinates
       (Js.parseFloat (Query.latitude Sample.far_north))
       (Js.parseFloat (Query.longitude Sample.far_north)) = false
  /\ SearchController.user (Sample.request Sample.far_north) = None
  /\ SearchService.center Sample.no_env Sample.far_north None
     = (377749 # 10000, -612097 # 5000)%Q
  /\ SearchController.center Sample.no_env (Sample.request Sample.far_north)
     = (95%Q, 10%Q)
  /\ (let answer :=
        fst (SearchService.searchByLocation Sample.distance Sample.no_env
               Sample.far_north None Sample.db) in
      match answer with
      | inr found =>
          (sp_latitude (search_parameters found),
           sp_longitude (search_parameters found))
          = (377749 # 10000, -612097 # 5000)%Q
      | inl _ => False
      end)
  /\ (let response :=
        fst (SearchController.route Sample.distance Sample.no_env
               Sample.far_north None Sample.db) in
      status response = 200
      /\ option_map
           (fun found => (sp_latitude (search_parameters found),
                          sp_longitude (search_parameters found)))
           (data response)
         = Some (95%Q, 10%Q)).
Proof. repeat split; reflexivity. Qed.


(** The centre that each of the two resolves, case by case.  The service
    takes the pair of the request when [isValidCoordinates] accepts it
    (latitude in [-90, 90], longitude in [-180, 180]) and falls back
    otherwise; the controller takes the pair of the request whenever both
    coordinates parse to numbers and falls back otherwise.  The fallback is
    the stored location of the caller when there is one, and otherwise the
    default coordinate: coordinate by coordinate the configured value when
    it parses to a number other than 0, and (37.7749, -122.4194) when
    nothing is configured. *)
Lemma search_center_resolution :
  forall (e : env) (req : SearchController.request),
    let q := SearchController.query req in
    let user := SearchController.user req in
    let req_latitude := Js.parseFloat (Query.latitude q) in
    let req_longitude := Js.parseFloat (Query.longitude q) in
    (GeoUtils.isValidCoordinates req_latitude req_longitude = true ->
     exists lat lon,
       req_latitude = Js.Fin lat /\ req_longitude = Js.Fin lon
       /\ (-90 <= lat <= 90)%Q /\ (-180 <= lon <= 180)%Q
       /\ SearchService.center e q user = (lat, lon))
    /\ (GeoUtils.isValidCoordinates req_latitude req_longitude = false ->
        SearchService.center e q user = fallback_center e user)
    /\ (Js.isNaN req_latitude || Js.isNaN req_longitude = false ->
        exists lat lon,
          req_latitude = Js.Fin lat /\ req_longitude = Js.Fin lon
          /\ SearchController.center e req = (lat, lon))
    /\ (Js.isNaN req_latitude || Js.isNaN req_longitude = true ->
        SearchController.center e req = fallback_center e user)
    /\ (forall l, user_location user = Some l ->
                  fallback_center e user = (latitude l,
                                            longitude l))
    /\ (user_location user = None ->
        fallback_center e user = default_center e)
    /\ default_center
         {| DEFAULT_LATITUDE := None; DEFAULT_LONGITUDE := None;
            DEFAULT_SEARCH_RADIUS := None |}
       = (377749 # 10000, -612097 # 5000)%Q
    /\ (forall v, Js.parseFloat (DEFAULT_LATITUDE e) = Js.Fin v ->
                  Qeq_bool v 0 = false -> fst (default_center e) = v)
    /\ (forall v, Js.parseFloat (DEFAULT_LONGITUDE e) = Js.Fin v ->
                  Qeq_bool v 0 = false -> snd (default_center e) = v).
Proof.
  intros e req q user req_latitude req_longitude.
  assert (Hdefault : forall n d v,
             n = Js.Fin v -> Qeq_bool v 0 = false -> Js.or_default n d = v).
  { intros n d v -> Hv. simpl. now rewrite Hv. }
  repeat split; try (intros v Hv Hz; simpl; now apply Hdefault).
  - intros H. destruct (isValidCoordinates_Fin _ _ H)
      as (la & lo & Ela & Elo & [H1 H2] & [H3 H4]).
    exists la, lo. repeat split; trivial.
    unfold SearchService.center. fold q req_latitude req_longitude.
    rewrite H. simpl. now rewrite Ela, Elo.
  - intros H. unfold SearchService.center. fold q req_latitude req_longitude.
    now rewrite H.
  - intros H. unfold SearchController.center. fold q req_latitude req_longitude.
    rewrite H. destruct req_latitude as [|la], req_longitude as [|lo];
      try discriminate. now exists la, lo.
  - intros H. unfold SearchController.center. fold q req_latitude req_longitude.
    now rewrite H.
  - intros l Hl. unfold fallback_center. now rewrite Hl.
  - intros Hl. unfold fallback_center. now rewrite Hl.
Qed.

(** A valid pair other than the default coordinate is the centre for
    both. *)
Example center_of_valid_pair :
  SearchService.center Sample.no_env (Sample.around "48.8566" "2.3522" None)
    None
  = (244283 # 5000, 11761 # 5000)%Q
  /\ SearchController.center Sample.no_env
       (Sample.request (Sample.around "48.8566" "2.3522" None))
     = (244283 # 5000, 11761 # 5000)%Q.
Proof. split; reflexivity. Qed.

(** The three cases of the controller on sample requests: the pair of the
    request, the location of the caller, the default coordinate. *)
Example center_of_request :
  SearchController.center Sample.no_env (Sample.request Sample.downtown)
  = (377749 # 10000, -612097 # 5000)%Q.
Proof. reflexivity. Qed.

Example center_of_caller :
  SearchController.center Sample.no_env
    {| SearchController.query :=
         {| Query.latitude := None; Query.longitude := None;
            Query.radius := Some "5"; Query.page := None;
            Query.limit := None; Query.categories := None;
            Query.startDate := None; Query.endDate := None |};
       SearchController.user :=
         Some (User.of_row false true Sample.alice);
       SearchController.validationErrors := [] |}
  = (3778 # 100, -12242 # 100)%Q.
Proof. reflexivity. Qed.

(** ** The categories of a location search *)

(** A request whose categories are "1" and "abc": both entries are turned
    into numbers, the second into [NaN], none is dropped; the checks of the
    route reject the request and the answer is 400. *)
Lemma non_numeric_category_fails_the_request :
  (categoryIds_of (Query.categories Sample.mixed_categories)
   = [Js.Fin 1; Js.NaN]
   /\ SearchRoutes.location_checks Sample.mixed_categories
      = ["Categories must be valid integers"]
   /\ SearchController.route Sample.distance Sample.no_env
        Sample.mixed_categories None Sample.db
      = ({| status := 400; success := false;
            message := Some "validationError";
            errors := ["Categories must be valid integers"];
            data := None |}, Sample.db))
  /\ categoryIds_of (Query.categories Sample.mixed_categories) <> [Js.Fin 1]
  /\ success (fst (SearchController.route Sample.distance Sample.no_env
                     Sample.mixed_categories None Sample.db)) <> true.
Proof.
  split; [repeat split; reflexivity|].
  split; vm_compute; discriminate.
Qed.

Lemma categories_check_rejects (v : categories_param) :
  categories_check v = false ->
  forall q, Query.categories q = Some v ->
  In "Categories must be valid integers" (SearchRoutes.location_checks q)
  /\ In "Categories must be valid integers"
        (Validators.locationSearchValidation q).
Proof.
  intros Hv q Hq.
  unfold SearchRoutes.location_checks, Validators.locationSearchValidation.
  rewrite Hq. split.
  - do 3 (apply in_or_app; right). simpl. rewrite Hv. now left.
  - do 3 (apply in_or_app; right). apply in_or_app. left.
    simpl. rewrite Hv. now left.
Qed.

Lemma route_rejects D e q user db msg :
  In msg (SearchRoutes.location_checks q) ->
  SearchController.route D e q user db
  = ({| status := 400; success := false; message := Some "validationError";
        errors := SearchRoutes.location_checks q; data := None |}, db).
Proof.
  intros H. unfold SearchController.route, SearchController.searchByLocation.
  simpl. destruct (SearchRoutes.location_checks q); [contradiction|].
  reflexivity.
Qed.

(** C6 (amended). The categories parameter, a single value or a list, is
    turned into one number per entry with [Number]: no entry is dropped.
    A request with an entry that does not begin with an integer fails the
    categories check, in the route and in [locationSearchValidation] alike,
    and the route answers 400 without searching. *)
Theorem categories_are_coerced_and_checked :
  forall (ST_Distance : geography -> geography -> Q) (e : env) (q : Query.t)
         (user : option User.user) (db : Db.store),
    (forall items,
        Query.categories q = Some (many items) ->
        categoryIds_of (Query.categories q) = map Js.Number items
        /\ List.length (categoryIds_of (Query.categories q))
           = List.length items)
    /\ (forall v,
           Query.categories q = Some (one v) -> v <> "" ->
           categoryIds_of (Query.categories q) = [Js.Number v])
    /\ (forall items item,
           Query.categories q = Some (many items) ->
           In item items ->
           Js.isNaN (Js.parseInt_str item) = true ->
           In "Categories must be valid integers"
              (SearchRoutes.location_checks q)
           /\ In "Categories must be valid integers"
                 (Validators.locationSearchValidation q)
           /\ SearchController.route ST_Distance e q user db
              = ({| status := 400; success := false;
                    message := Some "validationError";
                    errors := SearchRoutes.location_checks q;
                    data := None |}, db))
    /\ (forall v,
           Query.categories q = Some (one v) ->
           Js.isNaN (Js.parseInt_str v) = true ->
           In "Categories must be valid integers"
              (SearchRoutes.location_checks q)
           /\ In "Categories must be valid integers"
                 (Validators.locationSearchValidation q)
           /\ SearchController.route ST_Distance e q user db
              = ({| status := 400; success := false;
                    message := Some "validationError";
                    errors := SearchRoutes.location_checks q;
                    data := None |}, db)).
Proof.
  intros D e q user db. split; [|split; [|split]].
  - intros items Hq. rewrite Hq. simpl. split; [reflexivity|].
    apply length_map.
  - intros v Hq Hv. rewrite Hq. simpl.
    destruct v; [contradiction | reflexivity].
  - intros items item Hq Hin Hnan.
    assert (Hc : categories_check (many items) = false).
    { simpl. apply not_true_is_false. intros Hall.
      rewrite forallb_forall in Hall. specialize (Hall item Hin).
      now rewrite Hnan in Hall. }
    destruct (categories_check_rejects _ Hc q Hq) as [H1 H2].
    repeat split; trivial. eapply route_rejects; eauto.
  - intros v Hq Hnan.
    assert (Hc : categories_check (one v) = false)
      by (simpl; now rewrite Hnan).
    destruct (categories_check_rejects _ Hc q Hq) as [H1 H2].
    repeat split; trivial. eapply route_rejects; eauto.
Qed.

Lemma categories_are_coerced_and_checked_witness :
  Query.categories Sample.mixed_categories = Some (many ["1"; "abc"])
  /\ In "abc" ["1"; "abc"]
  /\ Js.isNaN (Js.parseInt_str "abc") = true
  /\ SearchController.route Sample.distance Sample.no_env
       Sample.mixed_categories None Sample.db
     = ({| status := 400; success := false;
           message := Some "validationError";
           errors := SearchRoutes.location_checks Sample.mixed_categories;
           data := None |}, Sample.db).
Proof.
  split; [reflexivity|].
  split; [simpl; auto|].
  split; [reflexivity|].
  exact (proj2 (proj2
           (proj1 (proj2 (proj2
              (categories_are_coerced_and_checked Sample.distance
                 Sample.no_env Sample.mixed_categories None Sample.db)))
              ["1"; "abc"] "abc" eq_refl (or_intror (or_introl eq_refl))
              eq_refl))).
Defined.

(** An entry that begins with an integer passes the check and still becomes
    [NaN]; the statement then names a column that does not exist and the
    answer is 500. *)
Example digits_then_letters :
  let q := Sample.around "37.7749" "-122.4194" (Some (many ["1abc"])) in
  (SearchRoutes.location_checks q,
   categoryIds_of (Query.categories q),
   status (fst (SearchController.route Sample.distance Sample.no_env q None
                  Sample.db)))
  = ([], [Js.NaN], 500).
Proof. reflexivity. Qed.

(** The service makes no check of its own: the same categories reach the
    statement and the search fails with a server error. *)
Example service_with_non_numeric_category :
  fst (SearchService.searchByLocation Sample.distance Sample.no_env
         Sample.mixed_categories None Sample.db)
  = inl {| ErrorHandler.message := "serverError";
           ErrorHandler.statusCode := 500 |}.
Proof. reflexivity. Qed.

(* ===================================================================== *)
(** * Further properties of the models, the services and the in-memory API *)
(* ===================================================================== *)

(** ** Favorites *)

Lemma favorite_of_new u e u' e' c :
  Event.favorite_of u' e'
    {| UserFavoriteEvents.user_id := u; UserFavoriteEvents.event_id := e;
       UserFavoriteEvents.created_at := c |}
  = (u =? u') && (e =? e').
Proof. reflexivity. Qed.

Lemma existsb_filter_nil {A} (p : A -> bool) (l : list A) :
  existsb p l = false -> filter p l = [].
Proof.
  induction l as [|x r IH]; simpl; [reflexivity|].
  destruct (p x); simpl; [discriminate|exact IH].
Qed.

Lemma filter_negb_all {A} (p : A -> bool) (l : list A) :
  existsb p l = false -> filter (fun x => negb (p x)) l = l.
Proof.
  induction l as [|x r IH]; simpl; [reflexivity|].
  destruct (p x); simpl; [discriminate|]. intros H. now rewrite IH.
Qed.

(** What [Event.favoriteEvent] does to the store, case by case. *)
Lemma favoriteEvent_cases u e db :
  (favorited db u e = true
   /\ Event.favoriteEvent u e db = (Db.Ok None, db))
  \/ (favorited db u e = false /\ Event.exists_event db e = false
      /\ Event.favoriteEvent u e db = (Db.Raise Db.foreign_key_violation, db))
  \/ (favorited db u e = false /\ Event.exists_event db e = true
      /\ Event.favoriteEvent u e db
         = (Db.Ok (Some {| UserFavoriteEvents.user_id := u;
                           UserFavoriteEvents.event_id := e;
                           UserFavoriteEvents.created_at := Db.now db |}),
            Db.with_user_favorite_events db
              (Db.user_favorite_events db
               ++ [{| UserFavoriteEvents.user_id := u;
                      UserFavoriteEvents.event_id := e;
                      UserFavoriteEvents.created_at := Db.now db |}]))).
Proof.
  unfold Event.favoriteEvent, Event.insert_favorite, Db.bind, Db.ret, favorited.
  destruct (existsb _ _) eqn:F; [left; auto|right].
  destruct (Event.exists_event db e) eqn:X; [right|left]; auto.
Qed.

(** X1. Marking an event as a favorite twice is the same as marking it
    once: the second call finds the store as the first one left it, changes
    nothing and, when the first call succeeded, returns nothing (no row is
    inserted); when the first call failed, the second fails alike. *)
Theorem favoriteEvent_idempotent :
  forall (userId eventId : Z) (db : Db.store),
    Event.favoriteEvent userId eventId
      (snd (Event.favoriteEvent userId eventId db))
    = (match fst (Event.favoriteEvent userId eventId db) with
       | Db.Ok _ => Db.Ok None
       | Db.Raise code => Db.Raise code
       end,
       snd (Event.favoriteEvent userId eventId db)).
Proof.
  intros u e db.
  destruct (favoriteEvent_cases u e db)
    as [[F E]|[(F & X & E)|(F & X & E)]]; rewrite E; simpl.
  - exact E.
  - exact E.
  - unfold Event.favoriteEvent, Event.insert_favorite, Db.bind, Db.ret. simpl.
    rewrite existsb_app. simpl. unfold Event.favorite_of at 2. simpl.
    rewrite !Z.eqb_refl. simpl. now rewrite orb_true_r.
Qed.

Lemma favorites_of_app db l u e :
  filter (Event.favorite_of u e) (Db.user_favorite_events db ++ l)
  = (favorites_of db u e ++ filter (Event.favorite_of u e) l)%list.
Proof. apply filter_app. Qed.

Lemma user_create_favorites d : keeps Db.user_favorite_events (User.create d).
Proof. unfold User.create. frame. unfold User.insert_user. statement. Qed.

Lemma user_update_favorites id d :
  keeps Db.user_favorite_events (User.update id d).
Proof.
  unfold User.update, User.findById. frame.
  unfold User.update_users. statement.
Qed.

Lemma user_setPreferredCategories_favorites u l :
  keeps Db.user_favorite_events (User.setPreferredCategories u l).
Proof.
  unfold User.setPreferredCategories, User.getPreferredCategories. frame;
    try (unfold User.insert_preferences; statement).
Qed.

Lemma insert_event_categories_favorites rows :
  keeps Db.user_favorite_events (Event.insert_event_categories rows).
Proof. unfold Event.insert_event_categories. statement. Qed.

Lemma event_create_favorites d :
  keeps Db.user_favorite_events (Event.create d).
Proof.
  unfold Event.create, Event.getById. frame;
    try apply insert_event_categories_favorites.
  unfold Event.insert_event. statement.
Qed.

Lemma event_update_favorites id d :
  keeps Db.user_favorite_events (Event.update id d).
Proof.
  unfold Event.update, Event.getById. frame;
    try apply insert_event_categories_favorites;
    intros db; reflexivity.
Qed.

Lemma event_addReview_favorites e u r t :
  keeps Db.user_favorite_events (Event.addReview e u r t).
Proof.
  unfold Event.addReview. frame;
    [intros db; reflexivity | unfold Event.insert_review; statement].
Qed.

Lemma event_delete_favorites id db :
  Db.user_favorite_events (snd (Event.delete id db))
  = Db.user_favorite_events db
  \/ Db.user_favorite_events (snd (Event.delete id db))
     = filter (fun r => negb (UserFavoriteEvents.event_id r =? id))
              (Db.user_favorite_events db).
Proof.
  unfold Event.delete, Event.delete_events, Db.bind, Db.ret.
  destruct (filter _ (Db.events db)); simpl; auto.
Qed.

Lemma favoriteEvent_preserves u e db :
  one_favorite_per_pair db ->
  one_favorite_per_pair (snd (Event.favoriteEvent u e db)).
Proof.
  intros Hinv u' e'.
  destruct (favoriteEvent_cases u e db)
    as [[F E]|[(F & X & E)|(F & X & E)]]; rewrite E; simpl;
    try apply Hinv.
  unfold favorites_of. simpl. rewrite filter_app, length_app. simpl.
  rewrite favorite_of_new.
  destruct ((u =? u') && (e =? e')) eqn:Q; simpl.
  - apply andb_true_iff in Q as [Qu Qe].
    apply Z.eqb_eq in Qu, Qe. subst u' e'.
    unfold favorited in F. rewrite (existsb_filter_nil _ _ F). simpl. lia.
  - specialize (Hinv u' e'). unfold favorites_of in Hinv. lia.
Qed.

Lemma exec_keeps_favorites_unique o db :
  one_favorite_per_pair db -> one_favorite_per_pair (Operations.exec o db).
Proof.
  intros Hinv.
  assert (Hsame : forall db',
             Db.user_favorite_events db' = Db.user_favorite_events db ->
             one_favorite_per_pair db').
  { intros db' E u e. unfold favorites_of. rewrite E. apply Hinv. }
  assert (Hless : forall db' q,
             Db.user_favorite_events db'
             = filter q (Db.user_favorite_events db) ->
             one_favorite_per_pair db').
  { intros db' q E u e. unfold favorites_of. rewrite E.
    eapply Nat.le_trans; [apply filter_filter_length | apply Hinv]. }
  destruct o; simpl.
  - apply Hsame, user_create_favorites.
  - apply Hsame, user_update_favorites.
  - now apply Hsame.
  - apply Hsame, user_setPreferredCategories_favorites.
  - apply Hsame, event_create_favorites.
  - apply Hsame, event_update_favorites.
  - destruct (event_delete_favorites id db) as [E|E];
      [now apply Hsame | now apply (Hless _ _ E)].
  - apply Hsame, event_addReview_favorites.
  - now apply favoriteEvent_preserves.
  - eapply Hless. reflexivity.
Qed.

(** X2. The store holds at most one favorite marker per pair (user,
    event), and every sequence of operations of the models keeps it so. *)
Theorem one_favorite_per_user_and_event :
  forall (db : Db.store) (ops : list Operations.op),
    one_favorite_per_pair db ->
    one_favorite_per_pair (Operations.run ops db).
Proof.
  intros db ops. revert db. unfold Operations.run.
  induction ops as [|o ops IH]; intros db H; simpl; [exact H|].
  apply IH. now apply exec_keeps_favorites_unique.
Qed.

Lemma with_user_favorite_events_twice db l :
  Db.with_user_favorite_events
    (Db.with_user_favorite_events db l) (Db.user_favorite_events db) = db.
Proof. now destruct db. Qed.

(** X3. A favorite marker that was just set is seen by [isFavorited], and
    removing it answers [true] and puts the store back exactly as it was
    before the marker was set. *)
Theorem favorite_then_unfavorite :
  forall (userId eventId : Z) (db db1 : Db.store)
         (f : UserFavoriteEvents.row),
    Event.favoriteEvent userId eventId db = (Db.Ok (Some f), db1) ->
    Event.isFavorited userId eventId db1 = (Db.Ok true, db1)
    /\ Event.unfavoriteEvent userId eventId db1 = (Db.Ok true, db).
Proof.
  intros u e db db1 f H.
  destruct (favoriteEvent_cases u e db)
    as [[F E]|[(F & X & E)|(F & X & E)]]; rewrite E in H;
    try discriminate.
  injection H as _ <-. unfold favorited in F. split.
  - unfold Event.isFavorited, Db.query. simpl. rewrite existsb_app. simpl.
    rewrite !Z.eqb_refl. simpl. now rewrite orb_true_r.
  - unfold Event.unfavoriteEvent, Event.delete_favorite, Db.bind, Db.ret.
    simpl. rewrite !filter_app. simpl. rewrite favorite_of_new.
    rewrite !Z.eqb_refl. simpl.
    rewrite (existsb_filter_nil _ _ F), (filter_negb_all _ _ F). simpl.
    rewrite app_nil_r. now rewrite with_user_favorite_events_twice.
Qed.

Lemma getById_exists id db :
  (Event.exists_event db id = false
   /\ Event.getById id db = (Db.Ok None, db))
  \/ (Event.exists_event db id = true
      /\ exists r, In r (Db.events db) /\ Events.id r = id
                   /\ Event.getById id db
                      = (Db.Ok (Some (Event.of_row db None r)), db)).
Proof.
  unfold Event.getById, Db.query, Event.exists_event.
  destruct (filter (fun r => Events.id r =? id) (Db.events db))
    as [|r rs] eqn:F.
  - left. split; [|reflexivity].
    destruct (existsb _ _) eqn:X; [|reflexivity].
    apply existsb_exists in X as (r & Hin & Hr).
    assert (In r []) by (rewrite <- F; apply filter_In; auto). contradiction.
  - right.
    assert (Hin : In r (filter (fun r => Events.id r =? id) (Db.events db)))
      by (rewrite F; now left).
    apply filter_In in Hin as [Hin Hr]. split.
    + apply existsb_exists. eauto.
    + exists r. apply Z.eqb_eq in Hr. auto.
Qed.

(** X4. The handler that marks a favorite, called with the id of an
    event: it answers 404 and leaves the store alone when the event does
    not exist; otherwise it answers 200, the event is then among the
    caller's favorites, and repeating the request gives the same answer and
    the same store. *)
Theorem favoriteEvent_handler :
  forall (userId eventId : Z) (db : Db.store),
    (Event.exists_event db eventId = false ->
     FavoriteController.favoriteEvent userId eventId db
     = (failure 404 "notFound" [], db))
    /\ (Event.exists_event db eventId = true ->
        status (fst (FavoriteController.favoriteEvent userId eventId db)) = 200
        /\ favorited
             (snd (FavoriteController.favoriteEvent userId eventId db))
             userId eventId = true
        /\ FavoriteController.favoriteEvent userId eventId
             (snd (FavoriteController.favoriteEvent userId eventId db))
           = FavoriteController.favoriteEvent userId eventId db).
Proof.
  intros u e db. unfold FavoriteController.favoriteEvent.
  destruct (getById_exists e db) as [[X G]|(X & r & Hin & Hr & G)];
    rewrite G; split; intros X'; try congruence.
  destruct (favoriteEvent_cases u e db)
    as [[F E]|[(F & X2 & E)|(F & X2 & E)]]; rewrite E;
    cbn [fst snd status]; try congruence.
  - rewrite G, E. auto.
  - split; [reflexivity|].
    assert (F' : favorited
                   (Db.with_user_favorite_events db
                      (Db.user_favorite_events db
                       ++ [{| UserFavoriteEvents.user_id := u;
                              UserFavoriteEvents.event_id := e;
                              UserFavoriteEvents.created_at := Db.now db |}]))
                   u e = true).
    { unfold favorited. simpl. rewrite existsb_app. simpl.
      rewrite favorite_of_new, !Z.eqb_refl. simpl. now rewrite orb_true_r. }
    split; [exact F'|].
    match goal with |- context [Event.getById e ?s] =>
      destruct (getById_exists e s) as [[X3 G3]|(X3 & r3 & _ & _ & G3)]
    end.
    + unfold Event.exists_event in X3. simpl in X3.
      unfold Event.exists_event in X. congruence.
    + rewrite G3.
      match goal with |- context [Event.favoriteEvent u e ?s] =>
        destruct (favoriteEvent_cases u e s)
          as [[F4 E4]|[(F4 & _)|(F4 & _)]]; try congruence
      end.
      now rewrite E4.
Qed.

(** ** Deleting an event *)

Lemma flat_map_filter_skip {A B} (q : A -> bool) (f : A -> list B)
  (l : list A) :
  (forall x, q x = false -> f x = []) ->
  flat_map f (filter q l) = flat_map f l.
Proof.
  intros H. induction l as [|x r IH]; simpl; [reflexivity|].
  destruct (q x) eqn:Q; simpl; rewrite IH; [reflexivity|].
  now rewrite (H x Q).
Qed.

Lemma filter_filter_other {A} (key : A -> Z) (a b : Z) (l : list A) :
  a <> b ->
  filter (fun r => key r =? a) (filter (fun r => negb (key r =? b)) l)
  = filter (fun r => key r =? a) l.
Proof.
  intros Hab. induction l as [|x r IH]; simpl; [reflexivity|].
  destruct (key x =? b) eqn:B; simpl.
  - apply Z.eqb_eq in B.
    destruct (key x =? a) eqn:Ka; [apply Z.eqb_eq in Ka; congruence|exact IH].
  - destruct (key x =? a); now rewrite IH.
Qed.

Lemma filter_same_gone {A} (key : A -> Z) (a : Z) (l : list A) :
  filter (fun r => key r =? a) (filter (fun r => negb (key r =? a)) l) = [].
Proof.
  induction l as [|x r IH]; simpl; [reflexivity|].
  destruct (key x =? a) eqn:B; simpl; [exact IH|]. now rewrite B.
Qed.

Lemma delete_cases id db :
  (Event.exists_event db id = false
   /\ Event.delete id db = (Db.Ok false, db))
  \/ (Event.exists_event db id = true
      /\ exists db',
          Event.delete id db = (Db.Ok true, db')
          /\ Db.events db'
             = filter (fun r => negb (Events.id r =? id)) (Db.events db)
          /\ Db.event_categories db'
             = filter (fun r => negb (EventCategories.event_id r =? id))
                      (Db.event_categories db)
          /\ Db.categories db' = Db.categories db).
Proof.
  destruct (getById_exists id db) as [[X G]|(X & r & Hin & Hr & G)];
    [left|right]; (split; [exact X|]);
    unfold Event.getById, Db.query in G;
    unfold Event.delete, Event.delete_events, Db.bind, Db.ret;
    destruct (filter (fun r => Events.id r =? id) (Db.events db));
    try discriminate; [reflexivity|].
  eexists. split; [reflexivity|]. simpl. auto.
Qed.

Lemma categoriesQuery_after_delete db db' id id' :
  id' <> id ->
  Db.event_categories db'
  = filter (fun r => negb (EventCategories.event_id r =? id))
           (Db.event_categories db) ->
  Db.categories db' = Db.categories db ->
  Event.categoriesQuery db' id' = Event.categoriesQuery db id'.
Proof.
  intros Hne Hec Hc. unfold Event.categoriesQuery. rewrite Hec, Hc.
  f_equal. apply flat_map_ext. intros c.
  apply flat_map_filter_skip. intros ec Q.
  apply negb_false_iff, Z.eqb_eq in Q. rewrite Q.
  destruct (id =? id') eqn:E; [apply Z.eqb_eq in E; congruence|].
  now rewrite andb_false_r.
Qed.

(** X5. [Event.delete] answers whether an event with that id existed.  When
    none did, the store is left as it was; in every case no event with that
    id can be read afterwards, and every other event reads exactly as
    before, categories included. *)
Theorem delete_removes_exactly_that_event :
  forall (id : Z) (db : Db.store),
    fst (Event.delete id db) = Db.Ok (Event.exists_event db id)
    /\ (Event.exists_event db id = false -> snd (Event.delete id db) = db)
    /\ fst (Event.getById id (snd (Event.delete id db))) = Db.Ok None
    /\ (forall id', id' <> id ->
          fst (Event.getById id' (snd (Event.delete id db)))
          = fst (Event.getById id' db)).
Proof.
  intros id db.
  destruct (delete_cases id db)
    as [[X E]|(X & db' & E & Hev & Hec & Hc)]; rewrite E, X; cbn [fst snd].
  - split; [reflexivity|]. split; [reflexivity|].
    split; [|reflexivity].
    destruct (getById_exists id db) as [[_ G]|[X' _]];
      [now rewrite G | congruence].
  - split; [reflexivity|]. split; [discriminate|].
    unfold Event.getById, Db.query. simpl. rewrite Hev. split.
    + now rewrite (filter_same_gone Events.id).
    + intros id' Hne. rewrite (filter_filter_other Events.id) by exact Hne.
      destruct (filter (fun r => Events.id r =? id') (Db.events db))
        as [|r rs] eqn:F; [reflexivity|].
      assert (Hr : Events.id r = id').
      { assert (Hin : In r (filter (fun r => Events.id r =? id')
                              (Db.events db))) by (rewrite F; now left).
        apply filter_In in Hin as [_ Hr]. now apply Z.eqb_eq. }
      unfold Event.of_row. rewrite Hr.
      now rewrite (categoriesQuery_after_delete db db' id id' Hne Hec Hc).
Qed.

(** ** Creating and updating an event *)

Lemma transaction_Raise {A} (body : Db.M A) db code db' :
  Db.transaction body db = (Db.Raise code, db') -> tables db' = tables db.
Proof.
  unfold Db.transaction. destruct (body db) as [[a|c] db1]; intros H;
    [discriminate|]. injection H as _ <-. reflexivity.
Qed.

Lemma create_Raise d db code db' :
  Event.create d db = (Db.Raise code, db') ->
  Db.transaction
    (event <- Event.insert_event d ;;
     match Event.categories d with
     | Some (c :: cs) =>
         Event.insert_event_categories
           (Event.values_for (Events.id event) (c :: cs)) ;;;
         Db.ret event
     | _ => Db.ret event
     end) db = (Db.Raise code, db').
Proof.
  unfold Event.create, Event.getById. unfold Db.bind at 1, Db.query.
  destruct (Db.transaction _ db) as [[a|c] db1]; [discriminate|].
  intros H. injection H as -> ->. reflexivity.
Qed.

(** X6. A failed [Event.create] leaves no trace in any table: neither the
    event nor any of its category associations is kept, whichever of the
    two statements failed. *)
Theorem create_is_all_or_nothing :
  forall (eventData : Event.eventData) (db db' : Db.store) (code : string),
    Event.create eventData db = (Db.Raise code, db') ->
    tables db' = tables db.
Proof.
  intros d db db' code H. apply create_Raise in H.
  now apply transaction_Raise in H.
Qed.

Lemma insert_event_Ok d db r db1 :
  Event.insert_event d db = (Db.Ok r, db1) ->
  db1 = Db.with_events db (Db.events db ++ [r]) (Db.events_id_seq db + 1)
  /\ Events.id r = Db.events_id_seq db
  /\ Event.title d = Some (Events.title r)
  /\ Event.latitude d = Some (latitude (Events.location r))
  /\ Event.longitude d = Some (longitude (Events.location r))
  /\ Event.startTime d = Some (Events.start_time r)
  /\ Events.creator_id r = Event.creatorId d
  /\ Events.description r = sql_value (Event.description d)
  /\ Events.address r = Event.address d
  /\ Events.end_time r = sql_value (Event.endTime d).
Proof.
  unfold Event.insert_event.
  destruct (Event.title d) as [t|], (Event.latitude d) as [lat|],
    (Event.longitude d) as [lon|], (Event.startTime d) as [st|];
    try discriminate.
  destruct (Event.creatorId d) as [u|];
    [destruct (Event.exists_user db u); [|discriminate]|];
    intros H; injection H as <- <-; simpl; repeat split; reflexivity.
Qed.

Lemma insert_event_categories_Ok rows db db1 :
  Event.insert_event_categories rows db = (Db.Ok tt, db1) ->
  db1 = Db.with_event_categories db (Db.event_categories db ++ rows).
Proof.
  unfold Event.insert_event_categories.
  destruct (negb _); [discriminate|]. destruct (forallb _ _); [|discriminate].
  now intros H; injection H as <-.
Qed.

Lemma filter_fresh_last (l : list Events.row) (r : Events.row) :
  (forall x, In x l -> Events.id x < Events.id r) ->
  filter (fun x => Events.id x =? Events.id r) (l ++ [r]) = [r].
Proof.
  intros H. rewrite filter_app. simpl. rewrite Z.eqb_refl.
  replace (filter _ l) with (@nil Events.row); [reflexivity|].
  symmetry. apply existsb_filter_nil.
  destruct (existsb _ l) eqn:E; [|reflexivity].
  apply existsb_exists in E as (x & Hin & Hx). apply Z.eqb_eq in Hx.
  specialize (H x Hin). lia.
Qed.

(** What a successful [Event.create] did, in terms of the row it inserted,
    when the ids in [events] are below the next value of the sequence. *)
Lemma create_Ok d db db' result :
  events_below_seq db ->
  Event.create d db = (Db.Ok result, db') ->
  exists row : Events.row,
    result = Some (Event.of_row db' None row)
    /\ Db.events db' = (Db.events db ++ [row])%list
    /\ Events.id row = Db.events_id_seq db
    /\ Event.title d = Some (Events.title row)
    /\ Event.latitude d = Some (latitude (Events.location row))
    /\ Event.longitude d = Some (longitude (Events.location row))
    /\ Event.startTime d = Some (Events.start_time row)
    /\ Events.creator_id row = Event.creatorId d
    /\ Db.event_categories db'
       = (Db.event_categories db
          ++ Event.values_for (Events.id row)
               (Event.default (Event.categories d) []))%list
    /\ Event.getById (Events.id row) db'
       = (Db.Ok (Some (Event.of_row db' None row)), db').
Proof.
  intros Hseq H.
  unfold Event.create in H. unfold Db.bind at 1 in H.
  unfold Db.transaction in H. unfold Db.bind at 1 in H.
  destruct (Event.insert_event d db) as [[row|c] db1] eqn:I;
    [|discriminate].
  apply insert_event_Ok in I
    as (-> & Hid & Ht & Hlat & Hlon & Hst & Hcr & _).
  assert (Hread : forall s,
             Db.events s = (Db.events db ++ [row])%list ->
             Event.getById (Events.id row) s
             = (Db.Ok (Some (Event.of_row s None row)), s)).
  { intros s Hs. unfold Event.getById, Db.query. rewrite Hs.
    rewrite filter_fresh_last; [reflexivity|].
    intros x Hx. rewrite Hid. now apply Hseq. }
  exists row.
  destruct (Event.categories d) as [[|c cs]|] eqn:C.
  - unfold Db.ret in H. rewrite Hread in H by reflexivity.
    injection H as <- <-. simpl. rewrite app_nil_r.
    repeat split; auto.
  - unfold Db.bind at 1 in H.
    destruct (Event.insert_event_categories _ _) as [[[]|c'] db2] eqn:J;
      [|discriminate].
    apply insert_event_categories_Ok in J. subst db2.
    unfold Db.ret in H. rewrite Hread in H by reflexivity.
    injection H as <- <-. simpl. repeat split; auto.
  - unfold Db.ret in H. rewrite Hread in H by reflexivity.
    injection H as <- <-. simpl. rewrite app_nil_r.
    repeat split; auto.
Qed.

(** X7. An event that [Event.create] reports as created can be read back:
    it is the one row added to [events], it carries the next id of the
    sequence and the title, coordinates (latitude and longitude not
    swapped), start time and creator that were supplied, its categories are
    added to [event_categories] and to nothing else, and [getById] on its
    id returns it. *)
Theorem create_then_getById :
  forall (eventData : Event.eventData) (db db' : Db.store)
         (result : option Event.event),
    events_below_seq db ->
    Event.create eventData db = (Db.Ok result, db') ->
    exists (e : Event.event) (row : Events.row),
      result = Some e
      /\ e = Event.of_row db' None row
      /\ Db.events db' = (Db.events db ++ [row])%list
      /\ Event.id e = Db.events_id_seq db
      /\ Event.title eventData = Some (Event.event_title e)
      /\ Event.latitude eventData = Some (latitude (Event.location e))
      /\ Event.longitude eventData = Some (longitude (Event.location e))
      /\ Event.startTime eventData = Some (Event.start_time e)
      /\ Event.creator_id e = Event.creatorId eventData
      /\ Db.event_categories db'
         = (Db.event_categories db
            ++ Event.values_for (Event.id e)
                 (Event.default (Event.categories eventData) []))%list
      /\ Event.getById (Event.id e) db' = (Db.Ok (Some e), db').
Proof.
  intros d db db' result Hseq H.
  destruct (create_Ok d db db' result Hseq H)
    as (row & Hres & Hev & Hid & Ht & Hlat & Hlon & Hst & Hcr & Hcat & Hget).
  exists (Event.of_row db' None row), row.
  assert (Hloc : Event.location (Event.of_row db' None row)
                 = Events.location row).
  { unfold Event.of_row. simpl. apply fromGeographyPoint_ST_AsText. }
  rewrite Hloc.
  replace (Event.id (Event.of_row db' None row)) with (Events.id row)
    by reflexivity.
  split; [exact Hres|]. split; [reflexivity|]. split; [exact Hev|].
  split; [exact Hid|]. split; [exact Ht|]. split; [exact Hlat|].
  split; [exact Hlon|]. split; [exact Hst|]. split; [exact Hcr|].
  split; [exact Hcat|exact Hget].
Qed.

Lemma assign_identity now r a :
  event_identity (Event.assign now r a) = event_identity r.
Proof. reflexivity. Qed.

Lemma fold_assign_identity now fields r :
  event_identity (fold_left (Event.assign now) fields r) = event_identity r.
Proof.
  revert r. induction fields as [|a fields IH]; intros r; simpl;
    [reflexivity|]. now rewrite IH.
Qed.

Lemma update_events_rows fields id db :
  Event.update_events fields id db
  = (Db.Ok tt,
     Db.with_events db
       (map (fun r => if Events.id r =? id
                      then fold_left (Event.assign (Db.now db)) fields r
                      else r) (Db.events db))
       (Db.events_id_seq db)).
Proof. reflexivity. Qed.

Lemma others_after_map {A} (key : A -> Z) (id : Z) (f : A -> A)
  (l : list A) :
  (forall r, key (f r) = key r) ->
  filter (fun r => negb (key r =? id))
    (map (fun r => if key r =? id then f r else r) l)
  = filter (fun r => negb (key r =? id)) l.
Proof.
  intros Hf. induction l as [|x r IH]; simpl; [reflexivity|].
  destruct (key x =? id) eqn:E; simpl.
  - rewrite Hf, E. simpl. exact IH.
  - rewrite E. simpl. now rewrite IH.
Qed.

Lemma update_categories_events id d :
  keeps Db.events
    (match Event.categories d with
     | Some categories =>
         Event.delete_event_categories id ;;;
         match categories with
         | _ :: _ =>
             Event.insert_event_categories (Event.values_for id categories)
         | [] => Db.ret tt
         end
     | None => Db.ret tt
     end).
Proof.
  frame; try (intros db; reflexivity).
  unfold Event.insert_event_categories. statement.
Qed.

(** [Event.update] past its early return: the [UPDATE], the statements on
    the categories, and the final read. *)
Lemma update_shape {A} (m2 : Db.M unit) (q : Db.store -> A) fields id db :
  keeps Db.events m2 ->
  Db.events
    (snd (Db.bind
            (Db.transaction
               (Db.bind (Event.update_events fields id) (fun _ => m2)))
            (fun _ => Db.query q) db))
  = match fst (Db.bind
                 (Db.transaction
                    (Db.bind (Event.update_events fields id) (fun _ => m2)))
                 (fun _ => Db.query q) db)
    with
    | Db.Ok _ =>
        map (fun r => if Events.id r =? id
                      then fold_left (Event.assign (Db.now db)) fields r
                      else r) (Db.events db)
    | Db.Raise _ => Db.events db
    end.
Proof.
  intros K. unfold Db.bind, Db.transaction, Db.query.
  rewrite update_events_rows.
  specialize (K (Db.with_events db
                   (map (fun r => if Events.id r =? id
                                  then fold_left (Event.assign (Db.now db))
                                         fields r
                                  else r) (Db.events db))
                   (Db.events_id_seq db))).
  destruct (m2 _) as [[u|c] db2]; simpl in *; [exact K|reflexivity].
Qed.

Lemma update_events_table id d db :
  Db.events (snd (Event.update id d db))
  = if (List.length (Event.updateFields d) =? 1)%nat then Db.events db
    else
      match fst (Event.update id d db) with
      | Db.Ok _ =>
          map (fun r => if Events.id r =? id
                        then fold_left (Event.assign (Db.now db))
                               (Event.updateFields d) r
                        else r) (Db.events db)
      | Db.Raise _ => Db.events db
      end.
Proof.
  unfold Event.update.
  destruct (List.length (Event.updateFields d) =? 1)%nat; [reflexivity|].
  unfold Event.getById. apply update_shape, update_categories_events.
Qed.

Lemma update_Raise id d db code db' :
  Event.update id d db = (Db.Raise code, db') -> tables db' = tables db.
Proof.
  unfold Event.update.
  destruct (List.length (Event.updateFields d) =? 1)%nat;
    [discriminate|].
  unfold Event.getById. unfold Db.bind at 1, Db.query.
  destruct (Db.transaction _ db) as [[a|c] db1] eqn:T; [discriminate|].
  intros H. injection H as _ <-. now apply transaction_Raise in T.
Qed.

(** X8. [Event.update] never changes the id, the creator or the creation
    time of any event, never adds or removes an event and leaves every
    event with another id exactly as it was; when it throws, every table is
    as before the call. *)
Theorem update_keeps_identity_and_other_events :
  forall (id : Z) (eventData : Event.eventData) (db : Db.store),
    map event_identity (Db.events (snd (Event.update id eventData db)))
    = map event_identity (Db.events db)
    /\ filter (fun r => negb (Events.id r =? id))
         (Db.events (snd (Event.update id eventData db)))
       = filter (fun r => negb (Events.id r =? id)) (Db.events db)
    /\ (forall code,
          fst (Event.update id eventData db) = Db.Raise code ->
          tables (snd (Event.update id eventData db)) = tables db).
Proof.
  intros id d db. split; [|split].
  - rewrite update_events_table.
    destruct (_ =? _)%nat; [reflexivity|].
    destruct (fst _); [|reflexivity].
    rewrite map_map. apply map_ext. intros r.
    destruct (Events.id r =? id); [apply fold_assign_identity|reflexivity].
  - rewrite update_events_table.
    destruct (_ =? _)%nat; [reflexivity|].
    destruct (fst _); [|reflexivity].
    apply (others_after_map Events.id). intros r.
    pose proof (fold_assign_identity (Db.now db) (Event.updateFields d) r)
      as H.
    unfold event_identity in H. congruence.
  - intros code H. apply (update_Raise id d db code).
    destruct (Event.update id d db). simpl in *. now subst.
Qed.

Lemma fold_assign_updated_row now d r :
  fold_left (Event.assign now) (Event.updateFields d) r = updated_row now d r.
Proof.
  unfold Event.updateFields, updated_row, Event.field, Event.defined.
  destruct d as [t de la lo ad st en cr ca]; simpl.
  destruct t as [t|]; [destruct (Js.truthy_str t)|];
    (destruct de as [| |de]);
    (destruct la as [la|], lo as [lo|];
       [destruct (truthy_q la && truthy_q lo)| | |]);
    (destruct ad as [ad|]; [destruct (Js.truthy_str ad)|]);
    (destruct st as [st|]); (destruct en as [| |en]);
    reflexivity.
Qed.

(** X9. When at least one field other than the categories is supplied and
    the update goes through, the rows of the id are rewritten column by
    column: a supplied title, address, start time or pair of coordinates
    replaces the stored one, [null] clears the description or the end
    time, [updated_at] is set to the current time, and a column whose field
    is absent (or is an empty text) keeps its value.  When nothing but
    categories is supplied, or when the update throws, the rows of
    [events] are not touched, [updated_at] included. *)
Theorem update_rewrites_the_supplied_columns :
  forall (id : Z) (eventData : Event.eventData) (db : Db.store),
    Db.events (snd (Event.update id eventData db))
    = if (List.length (Event.updateFields eventData) =? 1)%nat
      then Db.events db
      else
        match fst (Event.update id eventData db) with
        | Db.Ok _ =>
            map (fun r => if Events.id r =? id
                          then updated_row (Db.now db) eventData r
                          else r) (Db.events db)
        | Db.Raise _ => Db.events db
        end.
Proof.
  intros id d db. rewrite update_events_table.
  destruct (_ =? _)%nat; [reflexivity|].
  destruct (fst _); [|reflexivity].
  apply map_ext. intros r. now rewrite fold_assign_updated_row.
Qed.

(** ** The listings: order, size and duplicates *)

Lemma NoDup_firstn {A} (n : nat) (l : list A) : NoDup l -> NoDup (firstn n l).
Proof.
  revert l. induction n as [|n IH]; intros l H; simpl; [constructor|].
  destruct l as [|x r]; [constructor|].
  inversion H as [|? ? Hx Hr]; subst. constructor; [|now apply IH].
  intros Hin. apply Hx. eapply In_firstn; eauto.
Qed.

Lemma NoDup_skipn {A} (n : nat) (l : list A) : NoDup l -> NoDup (skipn n l).
Proof.
  revert l. induction n as [|n IH]; intros l H; simpl; [exact H|].
  destruct l as [|x r]; [constructor|].
  apply IH. now inversion H.
Qed.

Lemma key_injective {Row Key} (key : Row -> Key) (l : list Row) :
  NoDup (map key l) ->
  forall a b, In a l -> In b l -> key a = key b -> a = b.
Proof.
  induction l as [|x r IH]; simpl; intros H a b Ha Hb E; [contradiction|].
  inversion H as [|? ? Hx Hr]; subst.
  destruct Ha as [<-|Ha], Hb as [<-|Hb]; trivial.
  - exfalso. apply Hx. rewrite E. now apply in_map.
  - exfalso. apply Hx. rewrite <- E. now apply in_map.
  - now apply IH.
Qed.

Lemma key_of_sublist {Row Key} (key : Row -> Key) (l rows : list Row) :
  NoDup (map key l) -> NoDup rows -> (forall r, In r rows -> In r l) ->
  NoDup (map key rows).
Proof.
  intros Hl. induction rows as [|x r IH]; intros Hr Hsub; simpl;
    [constructor|].
  inversion Hr as [|? ? Hx Hr']; subst. constructor.
  - intros Hin. apply in_map_iff in Hin as (y & E & Hy).
    assert (y = x).
    { apply (key_injective key l Hl); auto; apply Hsub; simpl; auto. }
    subst. contradiction.
  - apply IH; [exact Hr'|]. intros y Hy. apply Hsub. now right.
Qed.

Lemma limit_offset_length {A} (limit offset : Z) (rows page : list A) :
  Sql.limit_offset limit offset rows = Db.Ok page ->
  Z.of_nat (List.length page) <= limit.
Proof.
  intros H. apply limit_offset_Ok in H as (_ & Hl & ->).
  pose proof (firstn_le_length (Z.to_nat limit)
                (skipn (Z.to_nat offset) rows)). lia.
Qed.

Lemma limit_offset_NoDup {A} (limit offset : Z) (rows page : list A) :
  Sql.limit_offset limit offset rows = Db.Ok page ->
  NoDup rows -> NoDup page.
Proof.
  intros H Hn. apply limit_offset_Ok in H as (_ & _ & ->).
  now apply NoDup_firstn, NoDup_skipn.
Qed.

Lemma start_time_leb_total a b :
  Event.start_time_leb a b = true \/ Event.start_time_leb b a = true.
Proof. unfold Event.start_time_leb. rewrite !Z.leb_le. lia. Qed.

Lemma start_time_leb_trans a b c :
  Event.start_time_leb a b = true -> Event.start_time_leb b c = true ->
  Event.start_time_leb a c = true.
Proof. unfold Event.start_time_leb. rewrite !Z.leb_le. lia. Qed.

(** The rows behind a successful [getAll_queries]. *)
Lemma getAll_queries_rows join conds page limit db db' l :
  Event.getAll_queries join conds page limit db = (Db.Ok l, db') ->
  exists rows,
    Sql.limit_offset limit ((page - 1) * limit)
      (Sql.order_by Event.start_time_leb
         (Sql.distinct Events.eq_dec
            (map fst (Event.where_ conds (Event.from_events db join)))))
    = Db.Ok rows
    /\ Event.events l = map (Event.of_row db None) rows.
Proof.
  unfold Event.getAll_queries, Db.bind, Db.query, Db.ret, Event.lift.
  destruct (Sql.limit_offset _ _ _) as [rows|code] eqn:E; [|discriminate].
  intros H. injection H as <- <-. exists rows. split; reflexivity.
Qed.

Lemma getAll_rows_facts join conds limit offset db rows :
  Sql.limit_offset limit offset
    (Sql.order_by Event.start_time_leb
       (Sql.distinct Events.eq_dec
          (map fst (Event.where_ conds (Event.from_events db join)))))
  = Db.Ok rows ->
  StronglySorted (fun a b => Event.start_time_leb a b = true) rows
  /\ Z.of_nat (List.length rows) <= limit
  /\ NoDup rows
  /\ forall r, In r rows ->
       exists j, In j (Event.from_events db join) /\ fst j = r
                 /\ forall c, In c conds -> c j = true.
Proof.
  intros H. split; [|split; [|split]].
  - apply limit_offset_Ok in H as (_ & _ & ->).
    apply StronglySorted_firstn, StronglySorted_skipn.
    apply order_by_strongly_sorted;
      [exact start_time_leb_total | exact start_time_leb_trans].
  - eapply limit_offset_length; eauto.
  - eapply limit_offset_NoDup; eauto.
    eapply Permutation_NoDup;
      [apply Permutation_sym, order_by_perm | apply NoDup_nodup].
  - intros r Hr. eapply limit_offset_In in Hr; eauto.
    apply (Permutation_in _ (order_by_perm _ _)) in Hr.
    apply nodup_In in Hr. apply in_map_iff in Hr as (j & E & Hj).
    apply where_In in Hj as [Hj Hc]. eauto.
Qed.

Lemma of_row_id db d r : Event.id (Event.of_row db d r) = Events.id r.
Proof. reflexivity. Qed.

Lemma of_row_start_time db d r :
  Event.start_time (Event.of_row db d r) = Events.start_time r.
Proof. reflexivity. Qed.

Lemma forallb_app_true {A} (f : A -> bool) (l1 l2 : list A) :
  (forall c, In c (l1 ++ l2) -> f c = true) ->
  forallb f l1 = true /\ forallb f l2 = true.
Proof.
  intros H. rewrite !forallb_forall. split; intros c Hc; apply H, in_or_app;
    auto.
Qed.

(** X10. A listing returned by [Event.getAll] is in ascending order of
    start time, holds at most [limit] events, and each of its events is a
    stored event that passes every supplied filter (creator, date range,
    any of the categories), where a [creatorId] of 0 is not a filter, by the
    test [if (creatorId)]; when the ids of the stored events are distinct
    no event is listed twice, however many of the requested categories it
    has. *)
Theorem getAll_listing :
  forall (p : Event.getAllParams.t) (db db' : Db.store) (l : Event.listing),
    Event.getAll p db = (Db.Ok l, db') ->
    StronglySorted
      (fun a b => Event.start_time a <= Event.start_time b) (Event.events l)
    /\ Z.of_nat (List.length (Event.events l))
       <= Event.default (Event.getAllParams.limit p) 10
    /\ (exists ids,
          Sql.literals (Event.default (Event.getAllParams.categoryIds p) [])
          = Some ids
          /\ forall e, In e (Event.events l) ->
               exists r, In r (Db.events db)
                         /\ e = Event.of_row db None r
                         /\ matches_all db
                              (creator_filter (Event.getAllParams.creatorId p))
                              ids (Event.getAllParams.startDate p)
                              (Event.getAllParams.endDate p) r = true)
    /\ (events_key db -> NoDup (map Event.id (Event.events l))).
Proof.
  intros p db db' l H.
  assert (Hshape : exists join extra ids rows,
             Sql.literals
               (Event.default (Event.getAllParams.categoryIds p) [])
             = Some ids
             /\ Sql.limit_offset
                  (Event.default (Event.getAllParams.limit p) 10)
                  ((Event.default (Event.getAllParams.page p) 1 - 1)
                   * Event.default (Event.getAllParams.limit p) 10)
                  (Sql.order_by Event.start_time_leb
                     (Sql.distinct Events.eq_dec
                        (map fst
                           (Event.where_
                              ((Event.when_truthy
                                  (Event.getAllParams.creatorId p)
                                  Event.creator_is
                                ++ Event.when_ (Event.getAllParams.startDate p)
                                     Event.start_time_ge
                                ++ Event.when_ (Event.getAllParams.endDate p)
                                     Event.start_time_le) ++ extra)
                              (Event.from_events db join)))))
                = Db.Ok rows
             /\ Event.events l = map (Event.of_row db None) rows
             /\ ((join = false /\ extra = [] /\ ids = [])
                 \/ (join = true /\ extra = [Event.category_in ids]
                     /\ exists q qs, ids = q :: qs))).
  { unfold Event.getAll in H.
    destruct (Event.default (Event.getAllParams.categoryIds p) [])
      as [|c cs].
    - apply getAll_queries_rows in H as (rows & Hrows & Hev).
      exists false, [], [], rows. rewrite app_nil_r.
      repeat split; auto.
    - destruct (Sql.literals (c :: cs)) as [ids|] eqn:El; [|discriminate].
      apply getAll_queries_rows in H as (rows & Hrows & Hev).
      exists true, [Event.category_in ids], ids, rows.
      repeat split; auto. right. repeat split.
      eapply literals_cons; eauto. }
  destruct Hshape as (join & extra & ids & rows & Hids & Hrows & Hev & Hcase).
  apply getAll_rows_facts in Hrows as (Hsorted & Hlen & Hnodup & Hin).
  rewrite Hev. split; [|split; [|split]].
  - eapply StronglySorted_map_in; [|exact Hsorted].
    intros a b _ _ Hab. rewrite !of_row_start_time.
    now apply Z.leb_le.
  - now rewrite length_map.
  - exists ids. split; [exact Hids|]. intros e He.
    apply in_map_iff in He as (r & <- & Hr).
    destruct (Hin r Hr) as (j & Hj & <- & Hc).
    exists (fst j). split; [eapply from_events_In; eauto|].
    split; [reflexivity|].
    apply forallb_app_true in Hc as [Hbase Hextra].
    rewrite forallb_app, creator_condition, date_conditions in Hbase.
    unfold matches_all. rewrite Hbase. simpl.
    destruct Hcase as [(-> & -> & ->)|(-> & -> & q & qs & ->)];
      [reflexivity|].
    simpl in Hextra. rewrite andb_true_r in Hextra.
    now apply category_rows_sound.
  - intros Hkey. rewrite map_map.
    rewrite (map_ext _ Events.id) by (intros; apply of_row_id).
    apply (key_of_sublist Events.id (Db.events db)); trivial.
    intros r Hr. destruct (Hin r Hr) as (j & Hj & <- & _).
    eapply from_events_In; eauto.
Qed.

Lemma NoDup_map_on {A B} (f : A -> B) (l : list A) :
  (forall a b, In a l -> In b l -> f a = f b -> a = b) ->
  NoDup l -> NoDup (map f l).
Proof.
  induction l as [|x r IH]; intros Hinj Hn; simpl; [constructor|].
  inversion Hn as [|? ? Hx Hr]; subst. constructor.
  - intros Hin. apply in_map_iff in Hin as (y & E & Hy).
    assert (y = x) by (apply Hinj; simpl; auto). subst. contradiction.
  - apply IH; [|exact Hr]. intros a b Ha Hb. apply Hinj; simpl; auto.
Qed.

(** The rows of a search before paging do not depend on the page. *)
Lemma search_pages_source D p db :
  exists source : list Event.found,
    NoDup source
    /\ (forall f, In f source ->
          exists j, In j (Event.from_events db
                            (match Event.default
                                     (Event.searchParams.categoryIds p) []
                             with [] => false | _ :: _ => true end))
                    /\ f = Event.select_found D
                             (ST_MakePoint (Event.searchParams.longitude p)
                                           (Event.searchParams.latitude p)) j)
    /\ forall page limit l db',
         Event.searchByLocation D (search_page p page limit) db
         = (Db.Ok l, db') ->
         exists rows,
           Sql.limit_offset limit ((page - 1) * limit) source = Db.Ok rows
           /\ Event.events l = map (Event.found_event db) rows.
Proof.
  assert (Hsrc : forall join conds,
             let source :=
               Sql.order_by Event.found_leb
                 (Sql.distinct Event.found_eq_dec
                    (map (Event.select_found D
                            (ST_MakePoint (Event.searchParams.longitude p)
                                          (Event.searchParams.latitude p)))
                         (Event.where_ conds (Event.from_events db join)))) in
             NoDup source
             /\ forall f, In f source ->
                  exists j, In j (Event.from_events db join)
                            /\ f = Event.select_found D
                                     (ST_MakePoint
                                        (Event.searchParams.longitude p)
                                        (Event.searchParams.latitude p)) j).
  { intros join conds source. split.
    - eapply Permutation_NoDup;
        [apply Permutation_sym, order_by_perm | apply NoDup_nodup].
    - intros f Hf. apply (Permutation_in _ (order_by_perm _ _)) in Hf.
      apply nodup_In in Hf. apply in_map_iff in Hf as (j & E & Hj).
      apply where_In in Hj as [Hj _]. eauto. }
  unfold Event.searchByLocation. simpl.
  destruct (Event.default (Event.searchParams.categoryIds p) []) as [|c cs].
  - eexists. split; [apply Hsrc|]. split; [apply Hsrc|].
    intros page limit l db' H.
    apply searchByLocation_queries_Ok in H as (_ & rows & Hrows & ->).
    exists rows. split; [exact Hrows|reflexivity].
  - destruct (Sql.literals (c :: cs)) as [ids|].
    + eexists. split; [apply Hsrc|]. split; [apply Hsrc|].
      intros page limit l db' H.
      apply searchByLocation_queries_Ok in H as (_ & rows & Hrows & ->).
      exists rows. split; [exact Hrows|reflexivity].
    + exists []. split; [constructor|]. split; [intros f []|].
      intros page limit l db' H. discriminate.
Qed.

Lemma searchByLocation_search_page D p db :
  Event.searchByLocation D p db
  = Event.searchByLocation D
      (search_page p (Event.default (Event.searchParams.page p) 1)
         (Event.default (Event.searchParams.limit p) 10)) db.
Proof. reflexivity. Qed.

(** X11. A page of a location search holds at most [limit] events, and
    when the ids of the stored events are distinct no event appears twice
    on it, however many of the requested categories the event has. *)
Theorem searchByLocation_page_size_and_duplicates :
  forall (ST_Distance : geography -> geography -> Q)
         (p : Event.searchParams.t) (db db' : Db.store) (l : Event.listing),
    Event.searchByLocation ST_Distance p db = (Db.Ok l, db') ->
    Z.of_nat (List.length (Event.events l))
    <= Event.default (Event.searchParams.limit p) 10
    /\ (events_key db -> NoDup (map Event.id (Event.events l))).
Proof.
  intros D p db db' l H. rewrite searchByLocation_search_page in H.
  destruct (search_pages_source D p db) as (source & Hnd & Hsrc & Hpages).
  destruct (Hpages _ _ _ _ H) as (rows & Hrows & ->). split.
  - rewrite length_map. eapply limit_offset_length; eauto.
  - intros Hkey. rewrite map_map.
    rewrite (map_ext _ (fun f => Events.id (Event.found_row f)))
      by (intros; apply found_event_id).
    rewrite <- (map_map Event.found_row Events.id).
    apply (key_of_sublist Events.id (Db.events db)); trivial.
    + apply NoDup_map_on; [|eapply limit_offset_NoDup; eauto].
      intros a b Ha Hb E.
      apply (limit_offset_In _ _ _ _ _ Hrows), Hsrc in Ha, Hb.
      destruct Ha as (ja & _ & ->), Hb as (jb & _ & ->).
      unfold Event.select_found in *. simpl in E. now rewrite E.
    + intros r Hr. apply in_map_iff in Hr as (f & <- & Hf).
      apply (limit_offset_In _ _ _ _ _ Hrows), Hsrc in Hf.
      destruct Hf as (j & Hj & ->). simpl. eapply from_events_In; eauto.
Qed.

Lemma firstn_short {A} (n : nat) (l : list A) :
  (List.length (firstn n l) < n)%nat -> firstn n l = l.
Proof.
  intros H. apply firstn_all2. rewrite length_firstn in H. lia.
Qed.

Lemma sorted_permutation_unique {A} (R : A -> A -> Prop) (l1 l2 : list A) :
  (forall a b, In a l1 -> In b l1 -> R a b -> R b a -> a = b) ->
  Permutation l1 l2 -> StronglySorted R l1 -> StronglySorted R l2 ->
  l1 = l2.
Proof.
  revert l2. induction l1 as [|a r IH]; intros l2 Hanti Hp H1 H2.
  - apply Permutation_nil in Hp. now subst.
  - destruct l2 as [|b r2].
    { apply Permutation_sym, Permutation_nil in Hp. discriminate. }
    apply StronglySorted_inv in H1 as [Hr Ha].
    apply StronglySorted_inv in H2 as [Hr2 Hb].
    rewrite Forall_forall in Ha, Hb.
    assert (E : a = b).
    { assert (Hab : In a (b :: r2))
        by (apply (Permutation_in _ Hp); now left).
      assert (Hba : In b (a :: r))
        by (apply (Permutation_in _ (Permutation_sym Hp)); now left).
      destruct Hab as [->|Hab]; [reflexivity|].
      destruct Hba as [->|Hba]; [reflexivity|].
      apply Hanti; [now left | now right | now apply Ha | now apply Hb]. }
    subst b. f_equal. apply IH; trivial.
    + intros x y Hx Hy. apply Hanti; now right.
    + eapply Permutation_cons_inv; eauto.
Qed.

Lemma search_result_in_order D p db db' l :
  Event.searchByLocation D p db = (Db.Ok l, db') ->
  StronglySorted
    (nearer_then_earlier D
       (ST_MakePoint (Event.searchParams.longitude p)
                     (Event.searchParams.latitude p)))
    (Event.events l).
Proof.
  intros Hrun.
  apply searchByLocation_Ok in Hrun as (join & extra & Hrun).
  apply searchByLocation_queries_Ok in Hrun as (_ & rows & Hrows & ->).
  simpl.
  apply StronglySorted_map_in
    with (R := fun a b => Event.found_leb a b = true).
  - intros a b Ha Hb Hab.
    destruct (main_query_In _ _ _ _ _ _ _ _ _ Hrows Ha) as (ra & -> & _ & _).
    destruct (main_query_In _ _ _ _ _ _ _ _ _ Hrows Hb) as (rb & -> & _ & _).
    apply found_leb_spec in Hab. unfold nearer_then_earlier.
    rewrite !found_event_location, !found_event_start_time. exact Hab.
  - apply limit_offset_Ok in Hrows as (_ & _ & ->).
    apply StronglySorted_firstn, StronglySorted_skipn.
    apply order_by_strongly_sorted;
      [apply found_leb_total | apply found_leb_trans].
Qed.

Lemma no_ties_antisymmetric D center l a b :
  no_ties D center l -> In a l -> In b l ->
  nearer_then_earlier D center a b -> nearer_then_earlier D center b a ->
  a = b.
Proof.
  intros Hties Ha Hb [H1|[H1 T1]] [H2|[H2 T2]].
  - exfalso. apply (Qlt_irrefl (distanceKm D center (Event.location a))).
    eapply Qlt_trans; eauto.
  - exfalso. rewrite H2 in H1. now apply Qlt_irrefl in H1.
  - exfalso. rewrite H1 in H2. now apply Qlt_irrefl in H2.
  - apply Hties; trivial. lia.
Qed.

(** X12. The pages of a location search tile the full result, when no two
    events of the result tie on the sort key (distance, start time).  Let a
    first page come back with fewer events than its limit, so that it is
    the whole result.  Then its order is the only one that the [ORDER BY]
    clause allows: every arrangement of the same events that is sorted by
    distance and then start time is this list.  And page [k] at [n] events
    per page is exactly the block of [n] events that starts after the first
    [(k - 1) * n] of them; no event is skipped or repeated from one page to
    the next.  With ties the clause does not fix the order of the tied rows
    from one query to the next, and nothing is stated. *)
Theorem search_pages_tile_the_result :
  forall (ST_Distance : geography -> geography -> Q)
         (p : Event.searchParams.t) (db db1 db2 : Db.store)
         (whole l : Event.listing) (big k n : Z),
    Event.searchByLocation ST_Distance (search_page p 1 big) db
    = (Db.Ok whole, db1) ->
    Z.of_nat (List.length (Event.events whole)) < big ->
    no_ties ST_Distance
      (ST_MakePoint (Event.searchParams.longitude p)
                    (Event.searchParams.latitude p))
      (Event.events whole) ->
    Event.searchByLocation ST_Distance (search_page p k n) db
    = (Db.Ok l, db2) ->
    (forall ordered,
        Permutation (Event.events whole) ordered ->
        StronglySorted
          (nearer_then_earlier ST_Distance
             (ST_MakePoint (Event.searchParams.longitude p)
                           (Event.searchParams.latitude p)))
          ordered ->
        ordered = Event.events whole)
    /\ Event.events l
       = firstn (Z.to_nat n)
           (skipn (Z.to_nat ((k - 1) * n)) (Event.events whole)).
Proof.
  intros D p db db1 db2 whole l big k n Hwhole Hshort Hties Hl. split.
  - intros ordered Hperm Hsorted. symmetry.
    apply (sorted_permutation_unique _ _ _
             (fun a b Ha Hb => no_ties_antisymmetric _ _ _ a b Hties Ha Hb)
             Hperm); [|exact Hsorted].
    exact (search_result_in_order _ _ _ _ _ Hwhole).
  - destruct (search_pages_source D p db) as (source & _ & _ & Hpages).
    destruct (Hpages _ _ _ _ Hwhole) as (rowsW & HrowsW & EW).
    destruct (Hpages _ _ _ _ Hl) as (rows & Hrows & ->).
    apply limit_offset_Ok in HrowsW as (_ & _ & ->).
    apply limit_offset_Ok in Hrows as (_ & _ & ->).
    rewrite EW in *. rewrite length_map in Hshort.
    replace (skipn (Z.to_nat ((1 - 1) * big)) source) with source in *
      by reflexivity.
    rewrite (firstn_short (Z.to_nat big) source) by lia.
    now rewrite skipn_map, firstn_map.
Qed.

(** ** Edge cases of the search request *)

Lemma searchByLocation_bad_paging D p db :
  (Event.default (Event.searchParams.page p) 1 - 1)
  * Event.default (Event.searchParams.limit p) 10 < 0
  \/ Event.default (Event.searchParams.limit p) 10 < 0 ->
  exists code, Event.searchByLocation D p db = (Db.Raise code, db).
Proof.
  intros Hbad. unfold Event.searchByLocation.
  assert (Hq : forall center join conds,
             exists code,
               Event.searchByLocation_queries D center join conds
                 (Event.default (Event.searchParams.page p) 1)
                 (Event.default (Event.searchParams.limit p) 10) db
               = (Db.Raise code, db)).
  { intros center join conds.
    unfold Event.searchByLocation_queries, Db.bind, Db.query, Db.ret,
      Event.lift, Sql.limit_offset.
    destruct (_ <? 0) eqn:Eo; [eexists; reflexivity|].
    destruct (Event.default (Event.searchParams.limit p) 10 <? 0) eqn:E;
      [eexists; reflexivity|].
    apply Z.ltb_ge in Eo, E. lia. }
  destruct (Event.default (Event.searchParams.categoryIds p) []) as [|c cs].
  - apply Hq.
  - destruct (Sql.literals (c :: cs)); [apply Hq|].
    eexists. reflexivity.
Qed.

(** X13. The search route does not check [page] and [limit]: a request
    that passes the checks of the route but whose page is below 1 (with a
    positive limit), or whose limit is negative, makes the database reject
    the query, and the answer is a 500 with the store untouched. *)
Theorem search_with_bad_paging_is_a_server_error :
  forall (ST_Distance : geography -> geography -> Q) (e : env)
         (q : Query.t) (user : option User.user) (db : Db.store),
    SearchRoutes.location_checks q = [] ->
    (Js.parseInt_or (Query.page q) 1 - 1)
    * Js.parseInt_or (Query.limit q) 10 < 0
    \/ Js.parseInt_or (Query.limit q) 10 < 0 ->
    SearchController.route ST_Distance e q user db
    = (failure 500 "serverError" [], db).
Proof.
  intros D e q user db Hchecks Hbad.
  unfold SearchController.route, SearchController.searchByLocation.
  cbn [SearchController.validationErrors SearchController.query].
  rewrite Hchecks.
  match goal with |- context [Event.searchByLocation D ?p db] =>
    destruct (searchByLocation_bad_paging D p db Hbad) as [code E]
  end.
  now rewrite E.
Qed.

Lemma isFloat_range lo hi s :
  Validator.isFloat (Some lo) (Some hi) s = true ->
  exists v, Js.parseFloat_str s = Js.Fin v /\ (lo <= v <= hi)%Q.
Proof.
  unfold Validator.isFloat. destruct (Validator.is_blank_number s);
    [discriminate|].
  rewrite !andb_true_iff. intros [[_ Hlo] Hhi].
  destruct (Js.parseFloat_str s) as [|v]; [discriminate|].
  exists v. split; [reflexivity|]. simpl in Hlo, Hhi.
  apply Qle_bool_iff in Hlo, Hhi. now split.
Qed.

(** X14. A request whose [latitude] and [longitude] are present and pass
    [locationSearchValidation] is searched around exactly that pair, by the
    controller and by the service alike: the two parse to numbers within
    the ranges, [isValidCoordinates] accepts them, and neither the location
    of the caller nor the configured default is used. *)
Theorem validated_coordinates_are_the_center :
  forall (e : env) (q : Query.t) (user : option User.user)
         (req : SearchController.request) (a b : string),
    Validators.locationSearchValidation q = [] ->
    Query.latitude q = Some a ->
    Query.longitude q = Some b ->
    SearchController.query req = q ->
    exists lat lon,
      Js.parseFloat_str a = Js.Fin lat
      /\ Js.parseFloat_str b = Js.Fin lon
      /\ (-90 <= lat <= 90)%Q /\ (-180 <= lon <= 180)%Q
      /\ GeoUtils.isValidCoordinates (Js.Fin lat) (Js.Fin lon) = true
      /\ SearchService.center e q user = (lat, lon)
      /\ SearchController.center e req = (lat, lon).
Proof.
  intros e q user req a b Hval Ha Hb Hreq.
  unfold Validators.locationSearchValidation in Hval. rewrite Ha, Hb in Hval.
  apply app_eq_nil in Hval as [Hlat Hval].
  apply app_eq_nil in Hval as [Hlon _].
  unfold Validator.optional in Hlat, Hlon.
  destruct (Validator.isFloat _ _ a) eqn:Fa; [|discriminate].
  destruct (Validator.isFloat _ _ b) eqn:Fb; [|discriminate].
  apply isFloat_range in Fa as (lat & Pa & Ra).
  apply isFloat_range in Fb as (lon & Pb & Rb).
  exists lat, lon.
  assert (Hvalid : GeoUtils.isValidCoordinates (Js.Fin lat) (Js.Fin lon)
                   = true).
  { unfold GeoUtils.isValidCoordinates. simpl.
    destruct Ra as [R1 R2], Rb as [R3 R4].
    apply Qle_bool_iff in R1, R2, R3, R4. now rewrite R1, R2, R3, R4. }
  repeat split; try tauto; trivial.
  - unfold SearchService.center. rewrite Ha, Hb. simpl.
    now rewrite Pa, Pb, Hvalid.
  - unfold SearchController.center. rewrite Hreq, Ha, Hb. simpl.
    now rewrite Pa, Pb.
Qed.

(** ** The services on events *)

Lemma updateEvent_unfold id d userId db :
  EventService.updateEvent id d userId db
  = match Event.getById id db with
    | (Db.Raise code, db1) =>
        (inl (ErrorHandler.handleDatabaseError code), db1)
    | (Db.Ok None, db1) => (inl (ErrorHandler.createError "notFound" 404), db1)
    | (Db.Ok (Some existingEvent), db1) =>
        if negb (EventService.same_user (Event.creator_id existingEvent)
                   userId)
        then (inl (ErrorHandler.createError "unauthorized" 403), db1)
        else
          match EventService.validate_categories
                  (match Event.categories d with
                   | Some l => l
                   | None => []
                   end) db1
          with
          | (inl err, db2) => (inl err, db2)
          | (inr _, db2) =>
              match Event.update id d db2 with
              | (Db.Ok event, db3) => (inr event, db3)
              | (Db.Raise code, db3) =>
                  (inl (ErrorHandler.handleDatabaseError code), db3)
              end
          end
    end.
Proof. reflexivity. Qed.

Lemma same_user_false creator userId :
  creator <> Some userId -> EventService.same_user creator userId = false.
Proof.
  unfold EventService.same_user. destruct creator as [c|]; [|reflexivity].
  intros H. destruct (c =? userId) eqn:E; [|reflexivity].
  apply Z.eqb_eq in E. congruence.
Qed.

(** X15. Only the creator changes or removes an event through the
    services: when no stored event of that id was created by the caller,
    [updateEvent] and [deleteEvent] both throw, with status 404 when there
    is no such event and 403 otherwise, and the store is exactly as it
    was. *)
Theorem only_the_creator_updates_or_deletes :
  forall (id userId : Z) (eventData : Event.eventData) (db : Db.store),
    (forall r, In r (Db.events db) -> Events.id r = id ->
               Events.creator_id r <> Some userId) ->
    let expected := if Event.exists_event db id then 403 else 404 in
    (exists err,
        EventService.updateEvent id eventData userId db = (inl err, db)
        /\ ErrorHandler.statusCode err = expected)
    /\ (exists err,
           EventLifecycle.deleteEvent id userId db = (inl err, db)
           /\ ErrorHandler.statusCode err = expected).
Proof.
  intros id userId d db Hnot expected. subst expected.
  rewrite updateEvent_unfold. unfold EventLifecycle.deleteEvent.
  destruct (getById_exists id db) as [[X G]|(X & r & Hin & Hr & G)];
    rewrite G, X.
  - split; eexists; split; reflexivity.
  - replace (Event.creator_id (Event.of_row db None r))
      with (Events.creator_id r) by reflexivity.
    rewrite (same_user_false _ _ (Hnot r Hin Hr)). simpl.
    split; eexists; split; reflexivity.
Qed.

Lemma validate_categories_cases categories db :
  (forallb (Event.exists_category db) categories = true
   /\ EventService.validate_categories categories db = (inr tt, db))
  \/ (forallb (Event.exists_category db) categories = false
      /\ EventService.validate_categories categories db
         = (inl (ErrorHandler.createError "categoryNotFound" 400), db)).
Proof.
  induction categories as [|c cs IH]; simpl; [left; auto|].
  unfold Category.getById, Db.query, Event.exists_category at 1 3.
  destruct (filter (fun c0 => Categories.id c0 =? c) (Db.categories db))
    as [|x xs] eqn:F; simpl.
  - right. split; [|reflexivity].
    destruct (existsb _ _) eqn:X; [|reflexivity].
    apply existsb_exists in X as (y & Hy & E).
    assert (In y []) by (rewrite <- F; apply filter_In; auto). contradiction.
  - assert (X : existsb (fun r => Categories.id r =? c) (Db.categories db)
                = true).
    { apply existsb_exists. exists x.
      assert (Hx : In x (filter (fun c0 => Categories.id c0 =? c)
                              (Db.categories db))) by (rewrite F; now left).
      now apply filter_In in Hx. }
    rewrite X. simpl. exact IH.
Qed.

Lemma as_creator_create d userId db result db' :
  events_below_seq db ->
  Event.create (EventLifecycle.as_creator d userId) db
  = (Db.Ok result, db') ->
  exists e, result = Some e /\ Event.creator_id e = Some userId
            /\ Event.id e = Db.events_id_seq db
            /\ Event.getById (Event.id e) db' = (Db.Ok (Some e), db').
Proof.
  intros Hseq H.
  destruct (create_Ok _ _ _ _ Hseq H)
    as (row & -> & _ & Hid & _ & _ & _ & _ & Hcr & _ & Hget).
  exists (Event.of_row db' None row). simpl in Hcr. auto.
Qed.

(** X16. [createEvent] looks the categories up before it writes: when one
    of them does not exist it throws 400 and the store is exactly as it
    was.  An event that it does create belongs to the caller, whatever
    [creatorId] the payload carried, and can be read back under the id it
    returned. *)
Theorem createEvent_checks_categories_and_sets_the_creator :
  forall (eventData : Event.eventData) (userId : Z) (db : Db.store),
    events_below_seq db ->
    (forallb (Event.exists_category db)
       (Event.default (Event.categories eventData) []) = false ->
     EventLifecycle.createEvent eventData userId db
     = (inl (ErrorHandler.createError "categoryNotFound" 400), db))
    /\ (forall result db',
          EventLifecycle.createEvent eventData userId db
          = (inr result, db') ->
          exists e,
            result = Some e
            /\ Event.creator_id e = Some userId
            /\ Event.getById (Event.id e) db' = (Db.Ok (Some e), db')).
Proof.
  intros d userId db Hseq. unfold EventLifecycle.createEvent.
  fold (Event.default (Event.categories d) []).
  destruct (validate_categories_cases
              (Event.default (Event.categories d) []) db)
    as [[V E]|[V E]]; rewrite E, V; split; try discriminate; trivial.
  intros result db'.
  destruct (Event.create _ db) as [[res|code] db2] eqn:C; [|discriminate].
  intros H. injection H as <- <-.
  destruct (as_creator_create _ _ _ _ _ Hseq C) as (e & -> & Hc & _ & Hg).
  eauto.
Qed.

(** X17. [deleteEvent] called by the creator of a stored event returns
    [true], and no event of that id can be read afterwards; the branch that
    answers 500 when the deletion reports nothing deleted is never
    taken. *)
Theorem deleteEvent_by_the_creator :
  forall (id userId : Z) (db : Db.store) (existing : Event.event),
    fst (Event.getById id db) = Db.Ok (Some existing) ->
    Event.creator_id existing = Some userId ->
    fst (EventLifecycle.deleteEvent id userId db) = inr true
    /\ fst (Event.getById id (snd (EventLifecycle.deleteEvent id userId db)))
       = Db.Ok None.
Proof.
  intros id userId db existing Hget Hcr.
  unfold EventLifecycle.deleteEvent.
  destruct (getById_exists id db) as [[X G]|(X & r & Hin & Hr & G)];
    rewrite G in Hget |- *; simpl in Hget; [discriminate|].
  injection Hget as <-. rewrite Hcr. simpl. rewrite Z.eqb_refl. simpl.
  destruct (delete_cases id db)
    as [[X' _]|(_ & db' & E & Hev & _)]; [congruence|].
  rewrite E. simpl. split; [reflexivity|].
  unfold Event.getById, Db.query. rewrite Hev.
  now rewrite (filter_same_gone Events.id).
Qed.

(** ** Users *)

Lemma user_update_unfold id d :
  User.update id d
  = if (List.length (user_updateFields d) =? 1)%nat then User.findById id
    else
      rows <- User.update_users (user_updateFields d) id ;;
      match rows with
      | [] => Db.ret None
      | r :: _ => Db.ret (Some (User.of_row false true r))
      end.
Proof. reflexivity. Qed.

Lemma user_assign_identity now r a :
  user_identity (User.assign now r a) = user_identity r.
Proof. now destruct a. Qed.

Lemma user_fold_assign_identity now fields r :
  user_identity (fold_left (User.assign now) fields r) = user_identity r.
Proof.
  revert r. induction fields as [|a fields IH]; intros r; simpl;
    [reflexivity|]. now rewrite IH, user_assign_identity.
Qed.

Lemma user_update_table id d db :
  Db.users (snd (User.update id d db)) = Db.users db
  \/ ((exists result, fst (User.update id d db) = Db.Ok result)
      /\ Db.users (snd (User.update id d db))
         = map (fun r => if Users.id r =? id
                         then fold_left (User.assign (Db.now db))
                                (user_updateFields d) r
                         else r) (Db.users db)).
Proof.
  rewrite user_update_unfold.
  destruct (List.length (user_updateFields d) =? 1)%nat;
    [left; reflexivity|].
  unfold Db.bind, User.update_users.
  destruct (User.users_unique _); [right|left; reflexivity].
  destruct (filter _ _); simpl; eauto.
Qed.

Lemma user_update_Raise id d db code db' :
  User.update id d db = (Db.Raise code, db') -> db' = db.
Proof.
  rewrite user_update_unfold.
  destruct (List.length (user_updateFields d) =? 1)%nat;
    [discriminate|].
  unfold Db.bind, User.update_users.
  destruct (User.users_unique _).
  - destruct (filter _ _); discriminate.
  - intros H. now injection H as _ <-.
Qed.

(** X18. [User.update] never changes the id, the password or the creation
    time of any user, never adds or removes a user and leaves every user
    with another id exactly as it was; when it throws (a username or an
    email already taken), the store is exactly as before the call. *)
Theorem user_update_keeps_identity_and_other_users :
  forall (id : Z) (userData : User.userData) (db : Db.store),
    map user_identity (Db.users (snd (User.update id userData db)))
    = map user_identity (Db.users db)
    /\ filter (fun r => negb (Users.id r =? id))
         (Db.users (snd (User.update id userData db)))
       = filter (fun r => negb (Users.id r =? id)) (Db.users db)
    /\ (forall code,
          fst (User.update id userData db) = Db.Raise code ->
          snd (User.update id userData db) = db).
Proof.
  intros id d db. split; [|split].
  - destruct (user_update_table id d db) as [E|[_ E]]; rewrite E;
      [reflexivity|].
    rewrite map_map. apply map_ext. intros r.
    destruct (Users.id r =? id);
      [apply user_fold_assign_identity|reflexivity].
  - destruct (user_update_table id d db) as [E|[_ E]]; rewrite E;
      [reflexivity|].
    apply (others_after_map Users.id). intros r.
    pose proof (user_fold_assign_identity (Db.now db)
                  (user_updateFields d) r) as H.
    unfold user_identity in H. congruence.
  - intros code H. apply (user_update_Raise id d db code).
    destruct (User.update id d db). simpl in *. now subst.
Qed.

Lemma filter_fresh_user (l : list Users.row) (r : Users.row) :
  (forall x, In x l -> Users.id x < Users.id r) ->
  filter (fun x => Users.id x =? Users.id r) (l ++ [r]) = [r].
Proof.
  intros H. rewrite filter_app. simpl. rewrite Z.eqb_refl.
  replace (filter _ l) with (@nil Users.row); [reflexivity|].
  symmetry. apply existsb_filter_nil.
  destruct (existsb _ l) eqn:E; [|reflexivity].
  apply existsb_exists in E as (x & Hin & Hx). apply Z.eqb_eq in Hx.
  specialize (H x Hin). lia.
Qed.

Lemma insert_user_Ok un em h fn pl loc db r db1 :
  User.insert_user un em h fn pl loc db = (Db.Ok r, db1) ->
  db1 = Db.with_users db (Db.users db ++ [r]) (Db.users_id_seq db + 1)
  /\ Users.id r = Db.users_id_seq db
  /\ un = Some (Users.username r)
  /\ em = Some (Users.email r)
  /\ Users.password r = h
  /\ Users.location r = loc.
Proof.
  unfold User.insert_user. destruct un as [un|], em as [em|];
    try discriminate.
  destruct (User.users_unique _); [|discriminate].
  intros H. injection H as <- <-. repeat split; reflexivity.
Qed.

(** X19. A user that [User.create] reports as created can be read back
    with [findById] under the id it was given, with the username and the
    email that were supplied and the location the model derived; the row
    stores the password only as its bcrypt hash, and neither [create] nor
    [findById] hands the hash out. *)
Theorem user_create_then_findById :
  forall (userData : User.userData) (db db' : Db.store) (u : User.user),
    users_below_seq db ->
    User.create userData db = (Db.Ok u, db') ->
    User.id u = Db.users_id_seq db
    /\ User.username userData = Some (User.user_username u)
    /\ User.email userData = Some (User.user_email u)
    /\ User.user_password u = None
    /\ (exists row,
          Db.users db' = (Db.users db ++ [row])%list
          /\ Users.id row = User.id u
          /\ Users.password row = bcrypt_hash (User.password userData) 10)
    /\ exists found,
         User.findById (User.id u) db' = (Db.Ok (Some found), db')
         /\ User.id found = User.id u
         /\ User.user_username found = User.user_username u
         /\ User.user_email found = User.user_email u
         /\ User.location found = User.location u
         /\ User.user_password found = None.
Proof.
  intros d db db' u Hseq. unfold User.create, Db.bind, Db.ret.
  destruct (User.insert_user _ _ _ _ _ _ db) as [[row|code] db1] eqn:I;
    [|discriminate].
  apply insert_user_Ok in I as (-> & Hid & Hun & Hem & Hpw & Hloc).
  intros H. injection H as <- <-.
  replace (User.id (User.of_row false false row)) with (Users.id row)
    by reflexivity.
  split; [exact Hid|]. split; [exact Hun|]. split; [exact Hem|].
  split; [reflexivity|]. split; [exists row; auto|].
  exists (User.of_row false true row). split; [|repeat split].
  unfold User.findById, Db.query. cbn [Db.users Db.with_users].
  rewrite filter_fresh_user; [reflexivity|].
  intros x Hx. rewrite Hid. now apply Hseq.
Qed.

Lemma distinctb_two {A} (f : A -> string) (l : list A) (a b : A) :
  In a l -> In b l -> a <> b -> f a = f b -> distinctb (map f l) = false.
Proof.
  induction l as [|x r IH]; simpl; intros Ha Hb Hne E; [contradiction|].
  assert (Hex : forall y, In y r -> f y = f x ->
                          existsb (String.eqb (f x)) (map f r) = true).
  { intros y Hy Ey. apply existsb_exists. exists (f y).
    split; [now apply in_map|]. rewrite Ey. apply String.eqb_refl. }
  destruct Ha as [<-|Ha], Hb as [<-|Hb].
  - congruence.
  - rewrite (Hex b Hb) by congruence. reflexivity.
  - rewrite (Hex a Ha) by congruence. reflexivity.
  - rewrite (IH Ha Hb Hne E). apply andb_false_r.
Qed.

Lemma findById_exists id db :
  existsb (fun r => Users.id r =? id) (Db.users db) = true ->
  exists r, In r (Db.users db) /\ Users.id r = id
            /\ User.findById id db
               = (Db.Ok (Some (User.of_row false true r)), db).
Proof.
  intros X. unfold User.findById, Db.query.
  destruct (filter (fun r => Users.id r =? id) (Db.users db))
    as [|r rs] eqn:F.
  - apply existsb_exists in X as (r & Hin & Hr).
    assert (In r []) by (rewrite <- F; apply filter_In; auto). contradiction.
  - assert (Hin : In r (filter (fun r => Users.id r =? id) (Db.users db)))
      by (rewrite F; now left).
    apply filter_In in Hin as [Hin Hr]. apply Z.eqb_eq in Hr. eauto.
Qed.

(** The check of [updateProfile] reads only: it passes, or it throws 400;
    it throws 500 when the user itself is not found. *)
Lemma check_taken_cases userId current message v db :
  existsb (fun r => Users.id r =? userId) (Db.users db) = true ->
  UserService.check_taken userId current message v db = (inr tt, db)
  \/ UserService.check_taken userId current message v db
     = (inl (ErrorHandler.createError message 400), db).
Proof.
  intros X. unfold UserService.check_taken.
  destruct v as [text|]; [|auto].
  destruct (Js.truthy_str text); [|auto].
  destruct (findById_exists userId db X) as (r & _ & _ & ->).
  destruct (negb _); [|auto].
  unfold UserLookup.findByUsernameOrEmail, Db.query.
  destruct (filter _ (Db.users db)) as [|e es]; [auto|].
  destruct (negb _); auto.
Qed.

Lemma username_after_update now d x r :
  User.username d = Some x -> Js.truthy_str x = true ->
  Users.username (fold_left (User.assign now) (user_updateFields d) r) = x.
Proof.
  intros Hx Ht. unfold user_updateFields, User.field. rewrite Hx, Ht.
  destruct (User.email d) as [e|]; [destruct (Js.truthy_str e)|];
    (destruct (User.fullName d) as [f|]; [destruct (Js.truthy_str f)|]);
    (destruct (User.preferredLanguage d) as [l|];
       [destruct (Js.truthy_str l)|]);
    (destruct (User.latitude d) as [la|], (User.longitude d) as [lo|];
       [destruct (truthy_q la && truthy_q lo)| | |]);
    reflexivity.
Qed.

Lemma user_updateFields_username d x :
  User.username d = Some x -> Js.truthy_str x = true ->
  (List.length (user_updateFields d) =? 1)%nat = false.
Proof.
  intros Hx Ht. unfold user_updateFields, User.field. rewrite Hx, Ht.
  simpl. rewrite length_app. simpl.
  apply Nat.eqb_neq. rewrite !length_app. simpl. lia.
Qed.

(** X20. [updateProfile] never lets a user take a username that another
    user holds: it throws with status 400 and the store is exactly as it
    was, whether the collision is caught by the service's own lookup or by
    the unique constraint of the table. *)
Theorem updateProfile_rejects_a_taken_username :
  forall (userId : Z) (userData : User.userData) (db : Db.store)
         (x : string) (me other : Users.row),
    User.username userData = Some x ->
    Js.truthy_str x = true ->
    In me (Db.users db) -> Users.id me = userId ->
    In other (Db.users db) -> Users.id other <> userId ->
    Users.username other = x ->
    exists err,
      UserService.updateProfile userId userData db = (inl err, db)
      /\ ErrorHandler.statusCode err = 400.
Proof.
  intros userId d db x me other Hx Ht Hme Hid Hother Hoid Hname.
  assert (X : existsb (fun r => Users.id r =? userId) (Db.users db) = true).
  { apply existsb_exists. exists me. split; [exact Hme|].
    now apply Z.eqb_eq. }
  unfold UserService.updateProfile.
  destruct (check_taken_cases userId User.user_username
              "auth:usernameExists" (User.username d) db X) as [E|E];
    rewrite E; [|eexists; split; reflexivity].
  destruct (check_taken_cases userId User.user_email
              "auth:emailExists" (User.email d) db X) as [E2|E2];
    rewrite E2; [|eexists; split; reflexivity].
  rewrite user_update_unfold, (user_updateFields_username d x Hx Ht).
  unfold Db.bind, User.update_users.
  replace (User.users_unique _) with false;
    [eexists; split; reflexivity|].
  symmetry. unfold User.users_unique. rewrite map_map.
  rewrite (distinctb_two _ (Db.users db) me other Hme Hother);
    [reflexivity|congruence|].
  apply Z.eqb_eq in Hid. rewrite Hid.
  apply Z.eqb_neq in Hoid. rewrite Hoid.
  rewrite Hname. now apply username_after_update.
Qed.

(** ** Preferred categories *)

Lemma preferences_distinct_filter p l :
  User.preferences_distinct l = true ->
  User.preferences_distinct (filter p l) = true.
Proof.
  induction l as [|x r IH]; simpl; [reflexivity|].
  rewrite andb_true_iff, negb_true_iff. intros [Hx Hr].
  destruct (p x); simpl; [|now apply IH].
  rewrite IH by exact Hr. rewrite andb_true_r, negb_true_iff.
  destruct (existsb (User.preference_eqb x) (filter p r)) eqn:E;
    [|reflexivity].
  apply existsb_exists in E as (y & Hy & Exy).
  apply filter_In in Hy as [Hy _].
  assert (existsb (User.preference_eqb x) r = true)
    by (apply existsb_exists; eauto).
  congruence.
Qed.

Lemma preferences_distinct_app a b :
  User.preferences_distinct a = true ->
  User.preferences_distinct b = true ->
  (forall x y, In x a -> In y b -> User.preference_eqb x y = false) ->
  User.preferences_distinct (a ++ b) = true.
Proof.
  induction a as [|x r IH]; simpl; intros Ha Hb Hab; [exact Hb|].
  apply andb_true_iff in Ha as [Hx Hr]. apply negb_true_iff in Hx.
  rewrite IH; auto. rewrite andb_true_r, negb_true_iff.
  rewrite existsb_app, Hx. simpl.
  destruct (existsb (User.preference_eqb x) b) eqn:E; [|reflexivity].
  apply existsb_exists in E as (y & Hy & Exy).
  rewrite Hab in Exy; auto.
Qed.

Lemma preferences_distinct_rows userId ids :
  NoDup ids ->
  User.preferences_distinct
    (map (fun categoryId =>
            {| UserPreferredCategories.user_id := userId;
               UserPreferredCategories.category_id := categoryId |}) ids)
  = true.
Proof.
  induction 1 as [|c cs Hc Hn IH]; simpl; [reflexivity|].
  rewrite IH, andb_true_r, negb_true_iff.
  destruct (existsb _ _) eqn:E; [|reflexivity].
  apply existsb_exists in E as (y & Hy & Exy).
  apply in_map_iff in Hy as (c' & <- & Hc').
  unfold User.preference_eqb in Exy. simpl in Exy.
  apply andb_true_iff in Exy as [_ Exy]. apply Z.eqb_eq in Exy.
  subst. contradiction.
Qed.

Lemma rows_of_user userId ids :
  filter (fun r => UserPreferredCategories.user_id r =? userId)
    (map (fun categoryId =>
            {| UserPreferredCategories.user_id := userId;
               UserPreferredCategories.category_id := categoryId |}) ids)
  = map (fun categoryId =>
           {| UserPreferredCategories.user_id := userId;
              UserPreferredCategories.category_id := categoryId |}) ids.
Proof.
  induction ids as [|c cs IH]; simpl; [reflexivity|].
  now rewrite Z.eqb_refl, IH.
Qed.

Lemma rows_of_others userId ids :
  filter (fun r => negb (UserPreferredCategories.user_id r =? userId))
    (map (fun categoryId =>
            {| UserPreferredCategories.user_id := userId;
               UserPreferredCategories.category_id := categoryId |}) ids)
  = [].
Proof.
  induction ids as [|c cs IH]; simpl; [reflexivity|].
  now rewrite Z.eqb_refl.
Qed.

Lemma filter_user_gone {A} (key : A -> Z) (a : Z) (l : list A) :
  filter (fun r => negb (key r =? a)) (filter (fun r => negb (key r =? a)) l)
  = filter (fun r => negb (key r =? a)) l.
Proof.
  induction l as [|x r IH]; simpl; [reflexivity|].
  destruct (key x =? a) eqn:E; simpl; [exact IH|].
  rewrite E. simpl. now rewrite IH.
Qed.

(** [User.setPreferredCategories] after its [DELETE]. *)
Lemma setPreferredCategories_unfold userId categoryIds db :
  User.setPreferredCategories userId categoryIds db
  = (match categoryIds with
     | Some (c :: cs) =>
         User.insert_preferences
           (map (fun categoryId =>
                   {| UserPreferredCategories.user_id := userId;
                      UserPreferredCategories.category_id := categoryId |})
                (c :: cs))
     | _ => Db.ret tt
     end ;;;
     User.getPreferredCategories userId)
      (Db.with_user_preferred_categories db
         (filter (fun r => negb (UserPreferredCategories.user_id r =? userId))
                 (Db.user_preferred_categories db))).
Proof. reflexivity. Qed.

(** X21. The preferred categories are replaced as a whole: when every
    given category exists, the ids are distinct and the user exists,
    [updatePreferredCategories] returns, the categories stored for the user
    afterwards are exactly the given ones, in the given order, and those of
    every other user are as before.  When one of the categories does not
    exist it throws 400 and nothing is changed. *)
Theorem updatePreferredCategories_replaces_the_set :
  forall (userId : Z) (ids : list Z) (db : Db.store),
    User.preferences_distinct (Db.user_preferred_categories db) = true ->
    (forallb (Event.exists_category db) ids = false ->
     UserService.updatePreferredCategories userId (Some ids) db
     = (inl (ErrorHandler.createError "categoryNotFound" 400), db))
    /\ (forallb (Event.exists_category db) ids = true ->
        NoDup ids ->
        Event.exists_user db userId = true ->
        exists categories db',
          UserService.updatePreferredCategories userId (Some ids) db
          = (inr categories, db')
          /\ preferences_of db' userId = ids
          /\ filter (fun r => negb (UserPreferredCategories.user_id r
                                    =? userId))
               (Db.user_preferred_categories db')
             = filter (fun r => negb (UserPreferredCategories.user_id r
                                      =? userId))
                 (Db.user_preferred_categories db)).
Proof.
  intros userId ids db Hdistinct. unfold UserService.updatePreferredCategories.
  destruct (validate_categories_cases ids db) as [[V E]|[V E]];
    rewrite E, V; split; try discriminate; trivial.
  intros _ Hnd Huser. rewrite setPreferredCategories_unfold.
  set (db1 := Db.with_user_preferred_categories db _).
  destruct ids as [|c cs].
  - unfold Db.bind, Db.ret, User.getPreferredCategories, Db.query.
    eexists _, _. split; [reflexivity|]. unfold preferences_of. simpl.
    rewrite (filter_user_gone UserPreferredCategories.user_id). split; trivial.
    rewrite (filter_same_gone UserPreferredCategories.user_id). reflexivity.
  - unfold Db.bind at 1. unfold User.insert_preferences.
    replace (negb (User.preferences_distinct _)) with false.
    + replace (forallb _ _) with true.
      * unfold User.getPreferredCategories, Db.query.
        eexists _, _. split; [reflexivity|]. unfold preferences_of.
        cbn [snd Db.user_preferred_categories
               Db.with_user_preferred_categories db1].
        rewrite !filter_app, rows_of_user, rows_of_others, app_nil_r.
        rewrite (filter_same_gone UserPreferredCategories.user_id).
        rewrite (filter_user_gone UserPreferredCategories.user_id).
        split; [|reflexivity]. simpl. f_equal.
        rewrite map_map. simpl. now rewrite map_id.
      * symmetry. apply forallb_forall. intros r Hr.
        apply in_map_iff in Hr as (c' & <- & Hc'). simpl.
        unfold Event.exists_user in Huser.
        replace (Db.users db1) with (Db.users db) by reflexivity.
        rewrite Huser. simpl.
        rewrite forallb_forall in V. apply (V c' Hc').
    + symmetry. apply negb_false_iff.
      apply preferences_distinct_app.
      * apply preferences_distinct_filter, Hdistinct.
      * now apply preferences_distinct_rows.
      * intros x y Hx Hy. apply filter_In in Hx as [_ Hx].
        apply in_map_iff in Hy as (c' & <- & _).
        unfold User.preference_eqb. simpl.
        apply negb_true_iff in Hx. now rewrite Hx.
Qed.

Lemma insert_preferences_Raise rows db code db' :
  User.insert_preferences rows db = (Db.Raise code, db') -> db' = db.
Proof.
  unfold User.insert_preferences. destruct (negb _).
  - intros H. now injection H as _ <-.
  - destruct (forallb _ _); [discriminate|].
    intros H. now injection H as _ <-.
Qed.

(** X22. The replacement is not atomic: the old preferences are deleted
    before the new ones are inserted, with no transaction around the two
    statements.  Whenever [updatePreferredCategories] throws after its
    lookup of the categories went through (the insertion was rejected), the
    user is left with no preferred categories at all. *)
Theorem failed_replacement_loses_the_preferences :
  forall (userId : Z) (categoryIds : option (list Z)) (db : Db.store)
         (err : ErrorHandler.error),
    forallb (Event.exists_category db) (Event.default categoryIds []) = true ->
    fst (UserService.updatePreferredCategories userId categoryIds db)
    = inl err ->
    preferences_of
      (snd (UserService.updatePreferredCategories userId categoryIds db))
      userId = [].
Proof.
  intros userId categoryIds db err V.
  unfold UserService.updatePreferredCategories.
  fold (Event.default categoryIds []).
  destruct (validate_categories_cases (Event.default categoryIds []) db)
    as [[_ E]|[V' _]]; [rewrite E|congruence].
  rewrite setPreferredCategories_unfold.
  set (db1 := Db.with_user_preferred_categories db _).
  assert (Hgone : preferences_of db1 userId = []).
  { unfold preferences_of. simpl.
    now rewrite (filter_same_gone UserPreferredCategories.user_id). }
  destruct categoryIds as [[|c cs]|];
    try (unfold Db.bind, Db.ret, User.getPreferredCategories, Db.query;
         simpl; discriminate).
  unfold Db.bind at 1 2.
  destruct (User.insert_preferences _ db1) as [[u|code] db2] eqn:I.
  - unfold User.getPreferredCategories, Db.query. simpl. discriminate.
  - apply insert_preferences_Raise in I. subst db2. intros _. exact Hgone.
Qed.

(** ** The list of favorites, and reviews through the service *)

Lemma newer_first_total a b :
  Favorites.newer_first a b = true \/ Favorites.newer_first b a = true.
Proof. unfold Favorites.newer_first. rewrite !Z.leb_le. lia. Qed.

Lemma newer_first_trans a b c :
  Favorites.newer_first a b = true -> Favorites.newer_first b c = true ->
  Favorites.newer_first a c = true.
Proof. unfold Favorites.newer_first. rewrite !Z.leb_le. lia. Qed.

Lemma from_favorites_In db userId e f :
  In (e, f) (Favorites.from_favorites db userId) <->
  In e (Db.events db) /\ In f (Db.user_favorite_events db)
  /\ Events.id e = UserFavoriteEvents.event_id f
  /\ UserFavoriteEvents.user_id f = userId.
Proof.
  unfold Favorites.from_favorites. rewrite in_flat_map. split.
  - intros (e' & He & H). apply in_flat_map in H as (f' & Hf & H).
    destruct (_ && _) eqn:C; [|contradiction].
    destruct H as [H|[]]. injection H as -> ->.
    apply andb_true_iff in C as [C1 C2]. apply Z.eqb_eq in C1, C2. auto.
  - intros (He & Hf & C1 & C2). exists e. split; [exact He|].
    apply in_flat_map. exists f. split; [exact Hf|].
    apply Z.eqb_eq in C1, C2. rewrite C1, C2. now left.
Qed.

Lemma getUserFavorites_rows userId page limit db db' l :
  Favorites.getUserFavorites userId page limit db = (Db.Ok l, db') ->
  exists rows,
    Sql.limit_offset (Event.default limit 10)
      ((Event.default page 1 - 1) * Event.default limit 10)
      (Sql.order_by Favorites.newer_first
         (Favorites.from_favorites db userId))
    = Db.Ok rows
    /\ Favorites.events l
       = map (fun r =>
                {| Favorites.favorite_event := Event.of_row db None (fst r);
                   Favorites.favorited_at :=
                     UserFavoriteEvents.created_at (snd r) |}) rows
    /\ Event.total (Favorites.listing_pagination l)
       = Z.of_nat
           (List.length
              (filter (fun f => UserFavoriteEvents.user_id f =? userId)
                      (Db.user_favorite_events db))).
Proof.
  unfold Favorites.getUserFavorites, Db.bind, Db.query, Db.ret, Event.lift.
  destruct (Sql.limit_offset _ _ _) as [rows|code] eqn:E; [|discriminate].
  intros H. injection H as <- <-. exists rows. repeat split.
Qed.

Lemma limit_offset_whole {A} (limit : Z) (source rows : list A) :
  Sql.limit_offset limit ((1 - 1) * limit) source = Db.Ok rows ->
  Z.of_nat (List.length rows) < limit ->
  rows = source.
Proof.
  intros H Hshort. apply limit_offset_Ok in H as (_ & _ & ->).
  change (skipn (Z.to_nat ((1 - 1) * limit)) source) with source in *.
  apply firstn_short. lia.
Qed.

(** X23. [getUserFavorites] lists the events the user has marked, and only
    those, the most recently marked first: every listed event is a stored
    event that carries a marker of the user, with the time of that marker;
    [total] is the number of markers of the user; and when the first page
    comes back with fewer events than its limit, every stored event that
    the user has marked is on it. *)
Theorem getUserFavorites_lists_the_marked_events :
  forall (userId : Z) (page limit : option Z) (db db' : Db.store)
         (l : Favorites.listing),
    Favorites.getUserFavorites userId page limit db = (Db.Ok l, db') ->
    (forall x, In x (Favorites.events l) ->
       exists f, In f (favorites_of db userId
                         (Event.id (Favorites.favorite_event x)))
                 /\ Favorites.favorited_at x = UserFavoriteEvents.created_at f
                 /\ Event.exists_event db
                      (Event.id (Favorites.favorite_event x)) = true)
    /\ StronglySorted
         (fun a b => Favorites.favorited_at b <= Favorites.favorited_at a)
         (Favorites.events l)
    /\ Event.total (Favorites.listing_pagination l)
       = Z.of_nat
           (List.length
              (filter (fun f => UserFavoriteEvents.user_id f =? userId)
                      (Db.user_favorite_events db)))
    /\ (Event.default page 1 = 1 ->
        Z.of_nat (List.length (Favorites.events l)) < Event.default limit 10 ->
        forall eventId,
          favorited db userId eventId = true ->
          Event.exists_event db eventId = true ->
          exists x, In x (Favorites.events l)
                    /\ Event.id (Favorites.favorite_event x) = eventId).
Proof.
  intros userId page limit db db' l H.
  apply getUserFavorites_rows in H as (rows & Hrows & Hev & Htotal).
  rewrite Hev. split; [|split; [|split]].
  - intros x Hx. apply in_map_iff in Hx as ([e f] & <- & Hr).
    eapply limit_offset_In in Hr; eauto.
    apply (Permutation_in _ (order_by_perm _ _)) in Hr.
    apply from_favorites_In in Hr as (He & Hf & C1 & C2). simpl.
    exists f. split; [|split; [reflexivity|]].
    + unfold favorites_of. apply filter_In. split; [exact Hf|].
      unfold Event.favorite_of. rewrite C1, C2, !Z.eqb_refl. reflexivity.
    + unfold Event.exists_event. apply existsb_exists. exists e.
      split; [exact He|apply Z.eqb_refl].
  - apply limit_offset_Ok in Hrows as (_ & _ & ->).
    eapply StronglySorted_map_in;
      [|apply StronglySorted_firstn, StronglySorted_skipn,
          (order_by_strongly_sorted Favorites.newer_first
             newer_first_total newer_first_trans)].
    intros a b _ _ Hab. simpl. unfold Favorites.newer_first in Hab.
    now apply Z.leb_le.
  - exact Htotal.
  - intros Hpage Hshort eventId Hfav Hex.
    rewrite length_map in Hshort. rewrite Hpage in Hrows.
    apply limit_offset_whole in Hrows; [subst rows|exact Hshort].
    unfold favorited in Hfav. apply existsb_exists in Hfav as (f & Hf & C).
    unfold Event.favorite_of in C. apply andb_true_iff in C as [C1 C2].
    apply Z.eqb_eq in C1, C2.
    unfold Event.exists_event in Hex.
    apply existsb_exists in Hex as (e & He & Ce). apply Z.eqb_eq in Ce.
    eexists. split.
    + apply in_map_iff. exists (e, f). split; [reflexivity|].
      apply (Permutation_in _ (Permutation_sym (order_by_perm _ _))).
      apply from_favorites_In. repeat split; trivial. congruence.
    + simpl. exact Ce.
Qed.

Lemma addReview_existing_event e u rating review db :
  Event.exists_event db e = true ->
  exists r db',
    Event.addReview e u rating review db = (Db.Ok (Some r), db')
    /\ EventReviews.event_id r = e /\ EventReviews.user_id r = u
    /\ EventReviews.rating r = rating /\ EventReviews.review r = review
    /\ In r (Db.event_reviews db').
Proof.
  intros X. unfold Event.addReview, Db.bind, Db.query, Db.ret.
  destruct (filter (Event.review_of e u) (Db.event_reviews db))
    as [|r0 rs] eqn:F; simpl.
  - unfold Event.insert_review. rewrite X. simpl.
    eexists _, _. split; [reflexivity|]. simpl.
    repeat split; trivial. apply in_or_app. right. now left.
  - unfold Event.update_review.
    fold (rewritten (Db.now db) e u rating review).
    rewrite filter_map_length by (intros; apply review_of_rewritten).
    rewrite F. simpl.
    assert (Hr0 : In r0 (filter (Event.review_of e u) (Db.event_reviews db)))
      by (rewrite F; now left).
    apply filter_In in Hr0 as [Hin Hr0].
    eexists _, _. split; [reflexivity|].
    unfold rewritten. rewrite Hr0. simpl.
    unfold Event.review_of in Hr0. apply andb_true_iff in Hr0 as [C1 C2].
    apply Z.eqb_eq in C1, C2. repeat split; trivial.
    apply in_map_iff. exists r0. split; [|exact Hin].
    unfold Event.review_of. rewrite C1, C2, !Z.eqb_refl. reflexivity.
Qed.

(** X24. Through the services a review or a favorite marker needs an
    existing event: for an id that no event has, [addReview] and
    [favoriteEvent] throw 404 and leave the store as it was.  For an
    existing event [addReview] always returns a review of that event by
    that user which carries the rating and the text just given and is now
    in the store, whether it was inserted or rewritten. *)
Theorem reviews_and_favorites_need_the_event :
  forall (eventId userId rating : Z) (review : option string)
         (db : Db.store),
    (Event.exists_event db eventId = false ->
     EventLifecycle.addReview eventId userId rating review db
     = (inl (ErrorHandler.createError "notFound" 404), db)
     /\ UserService.favoriteEvent userId eventId db
        = (inl (ErrorHandler.createError "notFound" 404), db))
    /\ (Event.exists_event db eventId = true ->
        exists r db',
          EventLifecycle.addReview eventId userId rating review db
          = (inr (Some r), db')
          /\ EventReviews.event_id r = eventId
          /\ EventReviews.user_id r = userId
          /\ EventReviews.rating r = rating
          /\ EventReviews.review r = review
          /\ In r (Db.event_reviews db')).
Proof.
  intros e u rating review db.
  unfold EventLifecycle.addReview, UserService.favoriteEvent.
  destruct (getById_exists e db) as [[X G]|(X & r & Hin & Hr & G)];
    rewrite G; split; intros X'; try congruence; [auto|].
  destruct (addReview_existing_event e u rating review db X)
    as (r' & db' & -> & H). eauto.
Qed.

(** ** The in-memory API of server.js *)

Lemma findIndex_Some {A} (p : A -> bool) (l : list A) (i : nat) (x : A) :
  Server.findIndex p l = Some (i, x) ->
  nth_error l i = Some x /\ p x = true
  /\ find p l = Some x
  /\ forall y, In y (firstn i l) -> p y = false.
Proof.
  revert i. induction l as [|a r IH]; simpl; intros i H; [discriminate|].
  destruct (p a) eqn:Pa.
  - injection H as <- <-. simpl. repeat split; trivial. intros y [].
  - destruct (Server.findIndex p r) as [[j y]|] eqn:F; [|discriminate].
    injection H as <- <-. destruct (IH j eq_refl) as (I1 & I2 & I3 & I4).
    simpl. repeat split; trivial.
    intros z [<-|Hz]; [exact Pa|now apply I4].
Qed.

Lemma findIndex_None {A} (p : A -> bool) (l : list A) :
  Server.findIndex p l = None -> find p l = None.
Proof.
  induction l as [|a r IH]; simpl; [reflexivity|].
  destruct (p a); [discriminate|].
  destruct (Server.findIndex p r); [discriminate|]. auto.
Qed.

Lemma map_set_at {A B} (f : A -> B) (i : nat) (v x : A) (l : list A) :
  nth_error l i = Some x -> f v = f x ->
  map f (Server.set_at i v l) = map f l.
Proof.
  revert i. induction l as [|a r IH]; intros [|i]; simpl; intros H E;
    try discriminate.
  - injection H as ->. now rewrite E.
  - now rewrite (IH i).
Qed.

Lemma In_set_at {A} (i : nat) (v : A) (l : list A) (y : A) :
  In y (Server.set_at i v l) -> y = v \/ In y l.
Proof.
  revert i. induction l as [|a r IH]; intros [|i]; simpl; try tauto.
  - intros [<-|H]; auto.
  - intros [<-|H]; auto. destruct (IH i H); auto.
Qed.

Lemma In_splice1 {A} (i : nat) (l : list A) (y : A) :
  In y (Server.splice1 i l) -> In y l.
Proof.
  unfold Server.splice1. intros H. apply in_app_or in H as [H|H].
  - eapply In_firstn; eauto.
  - eapply In_skipn; eauto.
Qed.

Lemma NoDup_map_splice1 {A B} (f : A -> B) (i : nat) (l : list A) :
  NoDup (map f l) -> NoDup (map f (Server.splice1 i l)).
Proof.
  unfold Server.splice1. intros H.
  rewrite <- (firstn_skipn i l) in H. rewrite map_app in *.
  destruct (skipn i l) as [|x r] eqn:E.
  - replace (skipn (S i) l) with (@nil A); [exact H|].
    symmetry. apply skipn_all2.
    assert (List.length l <= i)%nat.
    { destruct (Nat.le_gt_cases (List.length l) i) as [Hle|Hgt]; trivial.
      assert (List.length (skipn i l) = 0%nat) by now rewrite E.
      rewrite length_skipn in *. lia. }
    lia.
  - replace (skipn (S i) l) with r.
    + simpl in H. now apply NoDup_remove_1 in H.
    + change (S i) with (1 + i)%nat. rewrite <- skipn_skipn, E. reflexivity.
Qed.

Lemma ids_from_app first ids id :
  Server.ids_from first ids ->
  id = first + Z.of_nat (List.length ids) ->
  Server.ids_from first (ids ++ [id]).
Proof.
  intros H E k x Hk.
  destruct (Nat.lt_ge_cases k (List.length ids)) as [Hlt|Hge].
  - rewrite nth_error_app1 in Hk by exact Hlt. now apply H.
  - rewrite nth_error_app2 in Hk by exact Hge.
    destruct (k - List.length ids)%nat as [|j] eqn:D; simpl in Hk.
    + injection Hk as <-. rewrite E. f_equal. lia.
    + destruct j; discriminate.
Qed.

Lemma measured_id Math lat lng e :
  Server.Event.id (Server.measured Math lat lng e) = Server.Event.id e.
Proof. unfold Server.measured. now destruct (Server.has_coordinates e). Qed.

Lemma measured_has_coordinates Math lat lng e :
  Server.has_coordinates (Server.measured Math lat lng e)
  = Server.has_coordinates e.
Proof.
  unfold Server.measured. now destruct (Server.has_coordinates e) eqn:E.
Qed.

Lemma updatedEvent_has_coordinates now b e :
  Server.has_coordinates e = true ->
  Server.has_coordinates (Server.updatedEvent now b e) = true.
Proof.
  intros H. unfold Server.has_coordinates, Server.updatedEvent. simpl.
  destruct (Server.EventBody.latitude b) as [la|]; trivial.
  destruct (Server.EventBody.longitude b) as [lo|]; trivial.
  destruct (truthy_q la) eqn:A, (truthy_q lo) eqn:B; simpl; trivial.
  now rewrite A, B.
Qed.

Lemma well_formed_start : Server.well_formed Server.start.
Proof.
  split; simpl; try constructor; try contradiction.
  intros [|k] id H; discriminate.
Qed.

Lemma same_users_and_events s s' :
  Server.users s' = Server.users s ->
  Server.events s' = Server.events s ->
  Server.eventIdCounter s' = Server.eventIdCounter s ->
  Server.well_formed s -> Server.well_formed s'.
Proof.
  intros Hu He Hc [H1 H2 H3 H4 H5 H6].
  split; rewrite ?Hu, ?He, ?Hc; trivial.
Qed.

Lemma register_well_formed now b s :
  Server.well_formed s -> Server.well_formed (snd (Server.register now b s)).
Proof.
  intros W. unfold Server.register.
  destruct (_ || _); [exact W|].
  destruct (find _ _) eqn:F; [exact W|].
  pose proof (find_none _ _ F) as Hnone.
  destruct W as [H1 H2 H3 H4 H5 H6]. split; simpl; trivial.
  - rewrite map_app. simpl. apply ids_from_app; [exact H1|].
    rewrite length_map. lia.
  - rewrite map_app. simpl. apply NoDup_app; [exact H2|repeat constructor;
      intros []|].
    intros x Hx [<-|[]]. apply in_map_iff in Hx as (u & E & Hu).
    specialize (Hnone u Hu). apply orb_false_iff in Hnone as [_ Hn].
    apply String.eqb_neq in Hn. contradiction.
  - rewrite map_app. simpl. apply NoDup_app; [exact H3|repeat constructor;
      intros []|].
    intros x Hx [<-|[]]. apply in_map_iff in Hx as (u & E & Hu).
    specialize (Hnone u Hu). apply orb_false_iff in Hnone as [Hn _].
    apply String.eqb_neq in Hn. contradiction.
Qed.

Lemma setPreferences_well_formed userId b s :
  Server.well_formed s ->
  Server.well_formed (snd (Server.setPreferences userId b s)).
Proof.
  intros W. unfold Server.setPreferences.
  destruct (Server.findIndex _ _) as [[i u]|] eqn:F; [|exact W].
  apply findIndex_Some in F as (Hn & _).
  destruct W as [H1 H2 H3 H4 H5 H6]. split; simpl; trivial;
    rewrite (map_set_at _ i _ u) by (trivial; reflexivity); trivial.
Qed.

Lemma createEvent_well_formed now b s :
  Server.well_formed s ->
  Server.well_formed (snd (Server.createEvent now b s)).
Proof.
  intros W. unfold Server.createEvent.
  destruct (_ || _) eqn:C; [exact W|].
  destruct W as [W1 W2 W3 W4 W5 W6]. split; simpl; trivial.
  - rewrite map_app. simpl. apply NoDup_app; [exact W4|repeat constructor;
      intros []|].
    intros x Hx [<-|[]]. apply in_map_iff in Hx as (e & E & He).
    specialize (W5 e He). lia.
  - intros e He. apply in_app_or in He as [He|[<-|[]]]; simpl.
    + specialize (W5 e He). lia.
    + lia.
  - intros e He. apply in_app_or in He as [He|[<-|[]]]; [now apply W6|].
    unfold Server.has_coordinates. simpl.
    repeat (apply orb_false_iff in C as [C ?]).
    destruct (Server.EventBody.latitude b), (Server.EventBody.longitude b);
      simpl in *; try discriminate.
    match goal with
    | Ha : negb _ = false, Hb : negb _ = false |- _ =>
        apply negb_false_iff in Ha, Hb; now rewrite Ha, Hb
    end.
Qed.

Lemma updateEvent_well_formed now eventId b s :
  Server.well_formed s ->
  Server.well_formed (snd (Server.updateEvent now eventId b s)).
Proof.
  intros W. unfold Server.updateEvent.
  destruct (Server.findIndex _ _) as [[i e]|] eqn:F; [|exact W].
  apply findIndex_Some in F as (Hn & _).
  destruct W as [H1 H2 H3 H4 H5 H6]. split; simpl; trivial.
  - rewrite (map_set_at _ i _ e) by (trivial; reflexivity). exact H4.
  - intros x Hx. apply In_set_at in Hx as [->|Hx]; [|now apply H5].
    simpl. apply H5. eapply nth_error_In; eauto.
  - intros x Hx. apply In_set_at in Hx as [->|Hx]; [|now apply H6].
    apply updatedEvent_has_coordinates, H6. eapply nth_error_In; eauto.
Qed.

Lemma deleteEvent_well_formed eventId s :
  Server.well_formed s ->
  Server.well_formed (snd (Server.deleteEvent eventId s)).
Proof.
  intros W. unfold Server.deleteEvent.
  destruct (Server.findIndex _ _) as [[i e]|] eqn:F; [|exact W].
  destruct W as [H1 H2 H3 H4 H5 H6]. split; simpl; trivial.
  - now apply NoDup_map_splice1.
  - intros x Hx. apply H5. eapply In_splice1; eauto.
  - intros x Hx. apply H6. eapply In_splice1; eauto.
Qed.

Lemma searchByLocation_well_formed Math q s :
  Server.well_formed s ->
  Server.well_formed (snd (Server.searchByLocation Math q s)).
Proof.
  intros W. unfold Server.searchByLocation.
  destruct (_ || _); [exact W|].
  destruct W as [H1 H2 H3 H4 H5 H6]. split; simpl; trivial.
  - rewrite map_map.
    rewrite (map_ext _ Server.Event.id) by (intros; apply measured_id).
    exact H4.
  - intros x Hx. apply in_map_iff in Hx as (e & <- & He).
    rewrite measured_id. now apply H5.
  - intros x Hx. apply in_map_iff in Hx as (e & <- & He).
    rewrite measured_has_coordinates. now apply H6.
Qed.

Lemma handle_well_formed Math now r s :
  Server.well_formed s ->
  Server.well_formed (snd (Server.handle Math now r s)).
Proof.
  intros W. destruct r; simpl.
  - now apply register_well_formed.
  - unfold Server.login. destruct (_ || _); [exact W|].
    destruct (find _ _); [|exact W]. destruct (negb _); exact W.
  - now apply setPreferences_well_formed.
  - unfold Server.getPreferences. destruct (find _ _); exact W.
  - now apply createEvent_well_formed.
  - exact W.
  - unfold Server.getEvent. destruct (find _ _); exact W.
  - now apply updateEvent_well_formed.
  - now apply deleteEvent_well_formed.
  - now apply searchByLocation_well_formed.
Qed.

Lemma serve_well_formed Math requests s :
  Server.well_formed s -> Server.well_formed (Server.serve Math requests s).
Proof.
  unfold Server.serve. revert s.
  induction requests as [|[now r] rs IH]; intros s W; simpl; [exact W|].
  apply IH. now apply handle_well_formed.
Qed.

(** X25. Whatever requests the server has answered since it started, its
    two arrays are well formed: the user at position [k] has id [k], no two
    users share a username or an e-mail address, the ids of the events are
    distinct and below the counter (an id is never given twice, even after
    a deletion), and every stored event has two non-zero coordinates, so
    that the search never has to skip one. *)
Theorem server_state_is_well_formed :
  forall (Math : Server.math) (requests : list (Z * Server.request)),
    Server.well_formed (Server.serve Math requests Server.start).
Proof.
  intros Math requests. apply serve_well_formed, well_formed_start.
Qed.

Lemma append_length (a b : string) :
  String.length (a ++ b) = (String.length a + String.length b)%nat.
Proof. induction a as [|c a IH]; simpl; [reflexivity|]. now rewrite IH. Qed.

Lemma append_cancel_r (a b t : string) :
  (a ++ t)%string = (b ++ t)%string -> a = b.
Proof.
  revert b. induction a as [|c a IH]; intros [|d b] H; simpl in H.
  - reflexivity.
  - apply (f_equal String.length) in H. simpl in H.
    rewrite append_length in H. lia.
  - apply (f_equal String.length) in H. simpl in H.
    rewrite append_length in H. lia.
  - injection H as -> H. f_equal. now apply IH.
Qed.

Lemma find_app_last {A} (p : A -> bool) (l : list A) (x : A) :
  (forall y, In y l -> p y = false) -> p x = true ->
  find p (l ++ [x]) = Some x.
Proof.
  intros Hl Hx. induction l as [|a r IH]; simpl.
  - now rewrite Hx.
  - rewrite (Hl a) by now left. apply IH. intros y Hy. apply Hl. now right.
Qed.

Lemma no_text_false v :
  Server.no_text v = false -> v = Some (Server.text_of v).
Proof. destruct v; [reflexivity|discriminate]. Qed.

(** What a registration that is answered 201 did. *)
Lemma register_201 now b s r s' :
  Server.register now b s = (r, s') ->
  Server.status r = 201 ->
  exists username email password user,
    Server.Register.username b = Some username
    /\ Server.Register.email b = Some email
    /\ Server.Register.password b = Some password
    /\ Js.truthy_str username = true /\ Js.truthy_str password = true
    /\ (forall u, In u (Server.users s) ->
          Server.User.username u <> username /\ Server.User.email u <> email)
    /\ Server.users s' = (Server.users s ++ [user])%list
    /\ Server.events s' = Server.events s
    /\ Server.eventIdCounter s' = Server.eventIdCounter s
    /\ Server.User.id user = Z.of_nat (List.length (Server.users s)) + 1
    /\ Server.User.username user = username
    /\ Server.User.email user = email
    /\ Server.User.password user = (password ++ "_hashed")%string
    /\ r = {| Server.status := 201;
              Server.body :=
                Server.user_message "User registered successfully"
                  (Server.userWithoutPassword user) |}.
Proof.
  unfold Server.register.
  destruct (_ || _) eqn:C;
    [intros Hr; injection Hr as <- <-; discriminate|].
  repeat (apply orb_false_iff in C as [C ?]).
  destruct (find _ _) eqn:F;
    [intros Hr; injection Hr as <- <-; discriminate|].
  pose proof (find_none _ _ F) as Hnone.
  intros Hr _. injection Hr as <- <-.
  destruct (Server.Register.username b) as [un|],
    (Server.Register.email b) as [em|],
    (Server.Register.password b) as [pw|]; try discriminate.
  simpl in *. eexists un, em, pw, _.
  repeat split; try reflexivity.
  - now apply negb_false_iff.
  - match goal with Hp : negb (Js.truthy_str pw) = false |- _ =>
      now apply negb_false_iff in Hp end.
  - match goal with Hu : In u _ |- _ => specialize (Hnone u Hu) end.
    apply orb_false_iff in Hnone as [_ Hn]. now apply String.eqb_neq in Hn.
  - match goal with Hu : In u _ |- _ => specialize (Hnone u Hu) end.
    apply orb_false_iff in Hnone as [Hn _]. now apply String.eqb_neq in Hn.
Qed.

(** X26. A user who has just registered can log in with the username and
    the password of the registration, provided the username is not the
    e-mail address of an earlier user (the lookup of the login takes the
    first user whose username or e-mail is the given text): the answer is
    200 with the profile of that user, and with any other (non-empty)
    password it is 401.  Neither answer changes the state. *)
Theorem register_then_login :
  forall (now later : Z) (b : Server.Register.body) (s s' : Server.state)
         (r : Server.response),
    Server.register now b s = (r, s') ->
    Server.status r = 201 ->
    (forall u, In u (Server.users s) ->
               Some (Server.User.email u) <> Server.Register.username b) ->
    (exists token profile,
        Server.login later
          {| Server.Login.usernameOrEmail := Server.Register.username b;
             Server.Login.password := Server.Register.password b |} s'
        = ({| Server.status := 200;
              Server.body :=
                Server.login_message "Login successful" token profile |}, s')
        /\ Some (Server.Profile.username profile) = Server.Register.username b
        /\ Server.Profile.id profile
           = Z.of_nat (List.length (Server.users s)) + 1
        /\ r = {| Server.status := 201;
                  Server.body :=
                    Server.user_message "User registered successfully"
                      profile |})
    /\ (forall other,
          Js.truthy_str other = true ->
          Some other <> Server.Register.password b ->
          Server.login later
            {| Server.Login.usernameOrEmail := Server.Register.username b;
               Server.Login.password := Some other |} s'
          = ({| Server.status := 401;
                Server.body := Server.message "Invalid credentials" |}, s')).
Proof.
  intros now later b s s' r Hreg H201 Hemail.
  destruct (register_201 _ _ _ _ _ Hreg H201)
    as (un & em & pw & user & Eun & Eem & Epw & Tun & Tpw & Hfresh & Hus
        & _ & _ & Hid & Hn & He & Hp & Hr).
  assert (Hfind : find (fun u => String.eqb (Server.User.username u) un
                                 || String.eqb (Server.User.email u) un)
                    (Server.users s') = Some user).
  { rewrite Hus. apply find_app_last.
    - intros y Hy. apply orb_false_iff. split; apply String.eqb_neq.
      + now apply Hfresh.
      + intros E. apply (Hemail y Hy). now rewrite Eun, E.
    - rewrite Hn, String.eqb_refl. reflexivity. }
  split.
  - exists ("token_" ++ string_of_nat_Z (Server.User.id user) ++ "_"
            ++ string_of_nat_Z later)%string,
      (Server.userWithoutPassword user).
    unfold Server.login. simpl. rewrite Eun, Epw. simpl.
    rewrite Tun, Tpw. simpl. rewrite Hfind, Hp, String.eqb_refl. simpl.
    repeat split; trivial. now rewrite Hn.
  - intros other To Hother. unfold Server.login. simpl. rewrite Eun. simpl.
    rewrite Tun, To. simpl. rewrite Hfind, Hp.
    replace (String.eqb _ _) with false; [reflexivity|].
    symmetry. apply String.eqb_neq. intros E.
    apply append_cancel_r in E. apply Hother. now rewrite Epw, E.
Qed.

Lemma filter_set_at {A} (p : A -> bool) (i : nat) (v x : A) (l : list A) :
  nth_error l i = Some x -> p x = true -> p v = true ->
  filter (fun y => negb (p y)) (Server.set_at i v l)
  = filter (fun y => negb (p y)) l.
Proof.
  revert i. induction l as [|a r IH]; intros [|i]; simpl; intros H Hx Hv;
    try discriminate.
  - injection H as ->. now rewrite Hx, Hv.
  - now rewrite (IH i).
Qed.

Lemma id_is_spec param id :
  Server.id_is param id = true <-> Js.parseInt_Z param = Some id.
Proof.
  unfold Server.id_is. destruct (Js.parseInt_Z param) as [n|].
  - rewrite Z.eqb_eq. split; congruence.
  - split; discriminate.
Qed.

Lemma createEvent_201 now b s r s' :
  Server.createEvent now b s = (r, s') ->
  Server.status r = 201 ->
  exists event,
    r = {| Server.status := 201;
           Server.body :=
             Server.event_message "Event created successfully" event |}
    /\ Server.events s' = (Server.events s ++ [event])%list
    /\ Server.users s' = Server.users s
    /\ Server.eventIdCounter s' = Server.eventIdCounter s + 1
    /\ Server.Event.id event = Server.eventIdCounter s
    /\ Server.EventBody.title b = Some (Server.Event.title event)
    /\ Server.EventBody.description b
       = Some (Server.Event.description event)
    /\ Server.EventBody.category b = Some (Server.Event.category event)
    /\ Server.EventBody.startDate b = Some (Server.Event.startDate event)
    /\ Server.EventBody.longitude b
       = Some (fst (Server.Event.coordinates event))
    /\ Server.EventBody.latitude b
       = Some (snd (Server.Event.coordinates event))
    /\ Server.EventBody.organizerId b
       = Some (Server.Event.organizerId event)
    /\ Server.Event.createdAt event = now
    /\ Server.Event.distance event = None.
Proof.
  unfold Server.createEvent.
  destruct (_ || _) eqn:C;
    [intros Hr; injection Hr as <- <-; discriminate|].
  repeat (apply orb_false_iff in C as [C ?]).
  intros Hr _. injection Hr as <- <-.
  destruct (Server.EventBody.title b), (Server.EventBody.description b),
    (Server.EventBody.category b), (Server.EventBody.startDate b),
    (Server.EventBody.longitude b), (Server.EventBody.latitude b),
    (Server.EventBody.organizerId b); try discriminate.
  eexists. repeat split; reflexivity.
Qed.

Lemma find_fresh_last (l : list Server.Event.t) (e : Server.Event.t)
  (param : string) :
  (forall x, In x l -> Server.Event.id x < Server.Event.id e) ->
  Js.parseInt_Z param = Some (Server.Event.id e) ->
  find (fun x => Server.id_is param (Server.Event.id x)) (l ++ [e]) = Some e.
Proof.
  intros Hl Hp. apply find_app_last.
  - intros y Hy. destruct (Server.id_is param (Server.Event.id y)) eqn:E;
      [|reflexivity].
    apply id_is_spec in E. specialize (Hl y Hy).
    assert (Server.Event.id y = Server.Event.id e) by congruence. lia.
  - now apply id_is_spec.
Qed.

(** X27. An event that [POST /api/events] answers with 201 can be read
    back: it is the one element added to the array, it has the value the
    counter had, the title, description, category, start date, organizer
    and coordinates of the request (longitude first in the stored pair),
    and [GET /api/events/:eventId] with its id answers 200 with that very
    event. *)
Theorem posted_event_can_be_read :
  forall (now : Z) (b : Server.EventBody.t) (s s' : Server.state)
         (r : Server.response),
    Server.well_formed s ->
    Server.createEvent now b s = (r, s') ->
    Server.status r = 201 ->
    exists event,
      r = {| Server.status := 201;
             Server.body :=
               Server.event_message "Event created successfully" event |}
      /\ Server.events s' = (Server.events s ++ [event])%list
      /\ Server.Event.id event = Server.eventIdCounter s
      /\ Server.EventBody.title b = Some (Server.Event.title event)
      /\ Server.EventBody.description b
         = Some (Server.Event.description event)
      /\ Server.EventBody.category b = Some (Server.Event.category event)
      /\ Server.EventBody.startDate b = Some (Server.Event.startDate event)
      /\ Server.EventBody.organizerId b
         = Some (Server.Event.organizerId event)
      /\ Server.EventBody.longitude b
         = Some (fst (Server.Event.coordinates event))
      /\ Server.EventBody.latitude b
         = Some (snd (Server.Event.coordinates event))
      /\ forall eventId,
           Js.parseInt_Z eventId = Some (Server.Event.id event) ->
           Server.getEvent eventId s'
           = ({| Server.status := 200;
                 Server.body := Server.event_json event |}, s').
Proof.
  intros now b s s' r W H H201.
  destruct (createEvent_201 _ _ _ _ _ H H201)
    as (event & Hr & Hev & _ & _ & Hid & Ht & Hd & Hc & Hs & Hlo & Hla
        & Ho & _).
  exists event. repeat split; trivial.
  intros eventId Hp. unfold Server.getEvent. rewrite Hev.
  rewrite find_fresh_last; trivial.
  intros x Hx. rewrite Hid. now apply (Server.event_ids_below_counter s W).
Qed.

Lemma splice1_found {A} (key : A -> Z) (n : Z) (i : nat) (x : A)
  (l : list A) :
  NoDup (map key l) ->
  nth_error l i = Some x -> key x = n ->
  Server.splice1 i l = filter (fun y => negb (key y =? n)) l.
Proof.
  unfold Server.splice1. revert i.
  induction l as [|a r IH]; intros [|i] Hn Hi Hx; simpl in *;
    try discriminate.
  - injection Hi as ->. rewrite Hx, Z.eqb_refl. simpl.
    inversion Hn as [|? ? Ha Hr]; subst. symmetry.
    apply (filter_negb_all (fun y => key y =? key x)).
    destruct (existsb _ r) eqn:E; [|reflexivity].
    apply existsb_exists in E as (y & Hy & Ey). apply Z.eqb_eq in Ey.
    exfalso. apply Ha. rewrite <- Ey. now apply in_map.
  - inversion Hn as [|? ? Ha Hr]; subst.
    destruct (key a =? key x) eqn:E; simpl.
    + exfalso. apply Z.eqb_eq in E. apply Ha. rewrite E.
      apply in_map. eapply nth_error_In; eauto.
    + f_equal. now apply IH.
Qed.

(** X28. [DELETE /api/events/:eventId] answers 200 only for the id of a
    stored event; it then removes that event and no other, leaves the
    counter where it was (the id is not given again), and a [GET] of the
    same id answers 404 afterwards.  Any other answer is 404 and the state
    is unchanged. *)
Theorem deleted_event_is_gone :
  forall (eventId : string) (s s' : Server.state) (r : Server.response),
    Server.well_formed s ->
    Server.deleteEvent eventId s = (r, s') ->
    (Server.status r = 200 ->
     exists deleted,
       In deleted (Server.events s)
       /\ Js.parseInt_Z eventId = Some (Server.Event.id deleted)
       /\ r = {| Server.status := 200;
                 Server.body :=
                   Server.event_message "Event deleted successfully"
                     deleted |}
       /\ Server.events s'
          = filter (fun e => negb (Server.Event.id e
                                   =? Server.Event.id deleted))
                   (Server.events s)
       /\ Server.eventIdCounter s' = Server.eventIdCounter s
       /\ Server.getEvent eventId s'
          = ({| Server.status := 404;
                Server.body := Server.message "Event not found" |}, s'))
    /\ (Server.status r <> 200 ->
        r = {| Server.status := 404;
               Server.body := Server.message "Event not found" |}
        /\ s' = s).
Proof.
  intros eventId s s' r W. unfold Server.deleteEvent.
  destruct (Server.findIndex _ _) as [[i e]|] eqn:F;
    intros H; injection H as <- <-; simpl; split; intros Hs;
    try congruence; try (split; reflexivity).
  apply findIndex_Some in F as (Hn & Hp & _ & _).
  apply id_is_spec in Hp.
  pose proof (splice1_found Server.Event.id (Server.Event.id e) i e
                (Server.events s) (Server.event_ids_distinct s W) Hn eq_refl)
    as Hsp.
  exists e. repeat split; trivial.
  - eapply nth_error_In; eauto.
  - unfold Server.getEvent. simpl. rewrite Hsp.
    replace (find _ _) with (@None Server.Event.t); [reflexivity|].
    symmetry. 
    match goal with |- find ?p ?l = None =>
      destruct (find p l) as [x|] eqn:Fx; [|reflexivity];
      apply find_some in Fx as [Hin Hx]
    end.
    apply filter_In in Hin as [_ Hne]. apply id_is_spec in Hx.
    assert (Server.Event.id x = Server.Event.id e) by congruence.
    apply negb_true_iff, Z.eqb_neq in Hne. contradiction.
Qed.

Lemma closer_total a b :
  Server.closer a b = true \/ Server.closer b a = true.
Proof.
  unfold Server.closer.
  destruct (Server.Event.distance a) as [[|x]|],
    (Server.Event.distance b) as [[|y]|]; auto.
  rewrite !Qle_bool_iff.
  destruct (Qlt_le_dec x y) as [H|H]; [left; now apply Qlt_le_weak|now right].
Qed.

Lemma not_farther_trans a b c :
  Server.not_farther a b -> Server.not_farther b c -> Server.not_farther a c.
Proof.
  intros (x & y & Ha & Hb & Hxy) (y' & z & Hb' & Hc & Hyz).
  rewrite Hb in Hb'. injection Hb' as <-.
  exists x, z. repeat split; trivial. eapply Qle_trans; eauto.
Qed.

Lemma sorted_by_distance (l : list Server.Event.t) :
  (forall e, In e l -> exists d, Server.Event.distance e = Some (Js.Fin d)) ->
  Sorted (fun a b => Server.closer a b = true) l ->
  StronglySorted Server.not_farther l.
Proof.
  intros Hfin Hs. apply Sorted_StronglySorted.
  - intros a b c. apply not_farther_trans.
  - induction Hs as [|a r Hr IH Ha]; constructor.
    + apply IH. intros e He. apply Hfin. now right.
    + destruct Ha as [|b r' Hab]; constructor.
      destruct (Hfin a) as [x Hx]; [now left|].
      destruct (Hfin b) as [y Hy]; [right; now left|].
      exists x, y. repeat split; trivial.
      unfold Server.closer in Hab. rewrite Hx, Hy in Hab.
      now apply Qle_bool_iff.
Qed.

Lemma when_given_In v p l e :
  In e (Server.when_given v p l) <-> In e l /\ Server.passes v p e = true.
Proof.
  unfold Server.when_given, Server.passes.
  destruct v as [x|]; [destruct (Js.truthy_str x)|];
    rewrite ?filter_In; tauto.
Qed.

(** X29. The events in the answer of a location search are stored events
    with two coordinates whose haversine distance to the parsed centre is a
    number not above the radius (10 km when none is given); they pass the
    category and the language filter when these are given; they come
    nearest first; and the count is their number.  The search writes the
    distance into the stored events and changes nothing else in the
    state. *)
Theorem search_results_are_near_and_sorted :
  forall (Math : Server.math) (q : Server.Search.query)
         (s s' : Server.state) (r : Server.response),
    Server.searchByLocation Math q s = (r, s') ->
    Server.status r = 200 ->
    exists found,
      r = {| Server.status := 200;
             Server.body :=
               Server.events_json (Z.of_nat (List.length found)) found |}
      /\ (forall e, In e found ->
            exists stored lat lng radiusKm,
              In stored (Server.events s)
              /\ Server.unmeasured e = Server.unmeasured stored
              /\ Js.parseFloat (Server.Search.latitude q) = Js.Fin lat
              /\ Js.parseFloat (Server.Search.longitude q) = Js.Fin lng
              /\ match Server.Search.radius q with
                 | Some radius => Js.parseFloat_str radius
                 | None => Js.Fin 10
                 end = Js.Fin radiusKm
              /\ Server.Event.distance e
                 = Some (Js.Fin
                           (Server.calculateDistance Math lat lng
                              (snd (Server.Event.coordinates stored))
                              (fst (Server.Event.coordinates stored))))
              /\ (Server.calculateDistance Math lat lng
                    (snd (Server.Event.coordinates stored))
                    (fst (Server.Event.coordinates stored))
                  <= radiusKm)%Q
              /\ Server.has_coordinates stored = true
              /\ Server.passes (Server.Search.category q)
                   Server.in_category e = true
              /\ Server.passes (Server.Search.language q)
                   Server.speaks e = true)
      /\ StronglySorted Server.not_farther found
      /\ Server.users s' = Server.users s
      /\ Server.eventIdCounter s' = Server.eventIdCounter s
      /\ map Server.unmeasured (Server.events s')
         = map Server.unmeasured (Server.events s).
Proof.
  intros Math q s s' r. unfold Server.searchByLocation.
  destruct (_ || _);
    [intros H; injection H as <- <-; discriminate|].
  intros H _. injection H as <- <-. eexists. split; [reflexivity|].
  assert (Hin : forall e,
             In e (Sql.order_by Server.closer
                     (Server.when_given (Server.Search.language q)
                        Server.speaks
                        (Server.when_given (Server.Search.category q)
                           Server.in_category
                           (filter
                              (Server.nearby
                                 match Server.Search.radius q with
                                 | Some radius => Js.parseFloat_str radius
                                 | None => Js.Fin 10
                                 end)
                              (map (Server.measured Math
                                      (Js.parseFloat (Server.Search.latitude q))
                                      (Js.parseFloat
                                         (Server.Search.longitude q)))
                                   (Server.events s)))))) ->
             exists stored lat lng radiusKm,
               In stored (Server.events s)
               /\ Server.unmeasured e = Server.unmeasured stored
               /\ Js.parseFloat (Server.Search.latitude q) = Js.Fin lat
               /\ Js.parseFloat (Server.Search.longitude q) = Js.Fin lng
               /\ match Server.Search.radius q with
                  | Some radius => Js.parseFloat_str radius
                  | None => Js.Fin 10
                  end = Js.Fin radiusKm
               /\ Server.Event.distance e
                  = Some (Js.Fin
                            (Server.calculateDistance Math lat lng
                               (snd (Server.Event.coordinates stored))
                               (fst (Server.Event.coordinates stored))))
               /\ (Server.calculateDistance Math lat lng
                     (snd (Server.Event.coordinates stored))
                     (fst (Server.Event.coordinates stored))
                   <= radiusKm)%Q
               /\ Server.has_coordinates stored = true
               /\ Server.passes (Server.Search.category q)
                    Server.in_category e = true
               /\ Server.passes (Server.Search.language q)
                    Server.speaks e = true).
  { intros e He.
    apply (Permutation_in _ (order_by_perm _ _)) in He.
    apply when_given_In in He as [He Hlang].
    apply when_given_In in He as [He Hcat].
    apply filter_In in He as [He Hnear].
    apply in_map_iff in He as (stored & <- & Hst).
    unfold Server.nearby in Hnear. rewrite measured_has_coordinates in Hnear.
    apply andb_true_iff in Hnear as [Hco Hnear].
    unfold Server.measured in *. rewrite Hco in *. simpl in Hnear.
    unfold Server.distance_to in *.
    destruct (Js.parseFloat (Server.Search.latitude q)) as [|lat];
      [discriminate|].
    destruct (Js.parseFloat (Server.Search.longitude q)) as [|lng];
      [discriminate|].
    destruct (match Server.Search.radius q with
              | Some radius => Js.parseFloat_str radius
              | None => Js.Fin 10
              end) as [|radiusKm]; [discriminate|].
    exists stored, lat, lng, radiusKm. simpl in Hnear.
    apply Qle_bool_iff in Hnear. repeat split; trivial. }
  split; [exact Hin|]. split; [|split; [reflexivity|split; [reflexivity|]]].
  - apply sorted_by_distance.
    + intros e He. destruct (Hin e He) as (? & ? & ? & ? & _ & _ & _ & _ & _
                                           & Hd & _). eauto.
    + apply order_by_sorted, closer_total.
  - simpl. rewrite map_map. apply map_ext. intros e.
    unfold Server.measured. now destruct (Server.has_coordinates e).
Qed.

(** X30. [PUT /api/events/:eventId] never changes the id, the organizer
    or the creation time of any event, never adds or removes one, and
    leaves every event with another id as it was; the answer is 404, with
    the state unchanged, exactly when no stored event has the id.  A
    request whose latitude or longitude is missing or zero leaves the
    coordinates of every event as they were. *)
Theorem put_keeps_identity_and_other_events :
  forall (now : Z) (eventId : string) (b : Server.EventBody.t)
         (s : Server.state),
    map Server.identity
      (Server.events (snd (Server.updateEvent now eventId b s)))
    = map Server.identity (Server.events s)
    /\ filter (fun e => negb (Server.id_is eventId (Server.Event.id e)))
         (Server.events (snd (Server.updateEvent now eventId b s)))
       = filter (fun e => negb (Server.id_is eventId (Server.Event.id e)))
           (Server.events s)
    /\ (find (fun e => Server.id_is eventId (Server.Event.id e))
          (Server.events s) = None ->
        Server.updateEvent now eventId b s
        = ({| Server.status := 404;
              Server.body := Server.message "Event not found" |}, s))
    /\ (forall e,
          find (fun e => Server.id_is eventId (Server.Event.id e))
            (Server.events s) = Some e ->
          fst (Server.updateEvent now eventId b s)
          = {| Server.status := 200;
               Server.body :=
                 Server.event_message "Event updated successfully"
                   (Server.updatedEvent now b e) |})
    /\ (Server.no_number (Server.EventBody.latitude b)
        || Server.no_number (Server.EventBody.longitude b) = true ->
        map Server.Event.coordinates
          (Server.events (snd (Server.updateEvent now eventId b s)))
        = map Server.Event.coordinates (Server.events s)).
Proof.
  intros now eventId b s. unfold Server.updateEvent.
  destruct (Server.findIndex _ _) as [[i e]|] eqn:F.
  - apply findIndex_Some in F as (Hn & Hp & Hf & _). simpl.
    split; [|split; [|split; [|split]]].
    + apply (map_set_at _ i _ e); trivial.
    + apply (filter_set_at (fun e => Server.id_is eventId (Server.Event.id e))
               i _ e); trivial.
    + rewrite Hf. discriminate.
    + intros e' He'. rewrite Hf in He'. now injection He' as <-.
    + intros Hz. apply (map_set_at _ i _ e); trivial.
      unfold Server.updatedEvent. simpl.
      destruct (Server.EventBody.latitude b) as [la|]; trivial.
      destruct (Server.EventBody.longitude b) as [lo|]; trivial.
      simpl in Hz. destruct (truthy_q la), (truthy_q lo); simpl in *;
        trivial; discriminate.
  - apply findIndex_None in F. simpl. rewrite F.
    repeat split; trivial. discriminate.
Qed.

(** ** The properties above on the sample inputs *)

Lemma sample_one_favorite_per_pair : one_favorite_per_pair Sample.db.
Proof.
  intros u e. unfold favorites_of. simpl.
  destruct (Event.favorite_of u e _); simpl; lia.
Qed.

Lemma sample_events_below_seq : events_below_seq Sample.db.
Proof.
  intros r [<-|[<-|[<-|[]]]]; vm_compute; reflexivity.
Qed.

Lemma sample_users_below_seq : users_below_seq Sample.db.
Proof. intros r [<-|[]]. vm_compute. reflexivity. Qed.

Lemma one_favorite_per_user_and_event_witness :
  one_favorite_per_pair Sample.db
  /\ one_favorite_per_pair (Operations.run Demo.operations Sample.db).
Proof.
  split; [exact sample_one_favorite_per_pair|].
  exact (one_favorite_per_user_and_event Sample.db Demo.operations
           sample_one_favorite_per_pair).
Defined.

Lemma favorite_then_unfavorite_witness :
  Event.favoriteEvent 7 2 Sample.db = (Db.Ok (Some Demo.marker), Demo.marked)
  /\ Event.isFavorited 7 2 Demo.marked = (Db.Ok true, Demo.marked)
  /\ Event.unfavoriteEvent 7 2 Demo.marked = (Db.Ok true, Sample.db).
Proof.
  assert (H : Event.favoriteEvent 7 2 Sample.db
              = (Db.Ok (Some Demo.marker), Demo.marked))
    by (vm_compute; reflexivity).
  split; [exact H|].
  exact (favorite_then_unfavorite 7 2 Sample.db Demo.marked Demo.marker H).
Defined.

Lemma favoriteEvent_handler_witness :
  Event.exists_event Sample.db 9 = false
  /\ FavoriteController.favoriteEvent 7 9 Sample.db
     = (failure 404 "notFound" [], Sample.db)
  /\ Event.exists_event Sample.db 2 = true
  /\ status (fst (FavoriteController.favoriteEvent 7 2 Sample.db)) = 200.
Proof.
  split; [reflexivity|].
  split; [exact (proj1 (favoriteEvent_handler 7 9 Sample.db) eq_refl)|].
  split; [reflexivity|].
  exact (proj1 (proj2 (favoriteEvent_handler 7 2 Sample.db) eq_refl)).
Defined.

Lemma delete_removes_exactly_that_event_witness :
  Event.exists_event Sample.db 9 = false
  /\ snd (Event.delete 9 Sample.db) = Sample.db
  /\ 2 <> 1
  /\ fst (Event.getById 2 (snd (Event.delete 1 Sample.db)))
     = fst (Event.getById 2 Sample.db).
Proof.
  split; [reflexivity|].
  split; [exact (proj1 (proj2 (delete_removes_exactly_that_event 9 Sample.db))
                   eq_refl)|].
  assert (H : 2 <> 1) by discriminate.
  split; [exact H|].
  exact (proj2 (proj2 (proj2 (delete_removes_exactly_that_event 1 Sample.db)))
           2 H).
Defined.

Lemma create_is_all_or_nothing_witness :
  Event.create (Demo.concert [1; 99]) Sample.db
  = (Db.Raise Db.foreign_key_violation, Demo.after_failed_create)
  /\ tables Demo.after_failed_create = tables Sample.db.
Proof.
  assert (H : Event.create (Demo.concert [1; 99]) Sample.db
              = (Db.Raise Db.foreign_key_violation, Demo.after_failed_create))
    by (vm_compute; reflexivity).
  split; [exact H|].
  exact (create_is_all_or_nothing _ _ _ _ H).
Defined.

Lemma create_then_getById_witness :
  events_below_seq Sample.db
  /\ Event.create (Demo.concert [1; 2]) Sample.db
     = (Db.Ok Demo.created, Demo.after_create)
  /\ exists e,
      Demo.created = Some e
      /\ Event.id e = 4
      /\ Event.getById (Event.id e) Demo.after_create
         = (Db.Ok (Some e), Demo.after_create).
Proof.
  assert (H : Event.create (Demo.concert [1; 2]) Sample.db
              = (Db.Ok Demo.created, Demo.after_create))
    by (vm_compute; reflexivity).
  split; [exact sample_events_below_seq|]. split; [exact H|].
  destruct (create_then_getById _ _ _ _ sample_events_below_seq H)
    as (e & row & He & _ & _ & Hid & _ & _ & _ & _ & _ & _ & Hget).
  exists e. split; [exact He|]. split; [exact Hid|exact Hget].
Defined.

Lemma update_keeps_identity_and_other_events_witness :
  fst (Event.update 1 (Demo.concert [99]) Sample.db)
  = Db.Raise Db.foreign_key_violation
  /\ tables (snd (Event.update 1 (Demo.concert [99]) Sample.db))
     = tables Sample.db.
Proof.
  assert (H : fst (Event.update 1 (Demo.concert [99]) Sample.db)
              = Db.Raise Db.foreign_key_violation)
    by (vm_compute; reflexivity).
  split; [exact H|].
  exact (proj2 (proj2 (update_keeps_identity_and_other_events 1
                         (Demo.concert [99]) Sample.db)) _ H).
Defined.

Lemma getAll_listing_witness :
  Event.getAll Demo.in_category_1 Sample.db = (Db.Ok Demo.listed, Sample.db)
  /\ StronglySorted (fun a b => Event.start_time a <= Event.start_time b)
       (Event.events Demo.listed)
  /\ Z.of_nat (List.length (Event.events Demo.listed)) <= 10.
Proof.
  assert (H : Event.getAll Demo.in_category_1 Sample.db
              = (Db.Ok Demo.listed, Sample.db))
    by (vm_compute; reflexivity).
  split; [exact H|].
  split; [exact (proj1 (getAll_listing _ _ _ _ H))
         |exact (proj1 (proj2 (getAll_listing _ _ _ _ H)))].
Defined.

Lemma searchByLocation_page_size_and_duplicates_witness :
  Event.searchByLocation Sample.distance Sample.search Sample.db
  = (Db.Ok (Demo.found_page 1 10), Sample.db)
  /\ events_key Sample.db
  /\ Z.of_nat (List.length (Event.events (Demo.found_page 1 10))) <= 10
  /\ NoDup (map Event.id (Event.events (Demo.found_page 1 10))).
Proof.
  assert (H : Event.searchByLocation Sample.distance Sample.search Sample.db
              = (Db.Ok (Demo.found_page 1 10), Sample.db))
    by (vm_compute; reflexivity).
  split; [exact H|]. split; [exact sample_events_key|].
  split; [exact (proj1 (searchByLocation_page_size_and_duplicates _ _ _ _ _ H))
         |exact (proj2 (searchByLocation_page_size_and_duplicates _ _ _ _ _ H)
                   sample_events_key)].
Defined.

Lemma search_pages_tile_the_result_witness :
  Event.searchByLocation Sample.distance (search_page Sample.search 1 10)
    Sample.db
  = (Db.Ok (Demo.found_page 1 10), Sample.db)
  /\ Z.of_nat (List.length (Event.events (Demo.found_page 1 10))) < 10
  /\ no_ties Sample.distance Sample.center
       (Event.events (Demo.found_page 1 10))
  /\ Event.searchByLocation Sample.distance (search_page Sample.search 2 1)
       Sample.db
     = (Db.Ok (Demo.found_page 2 1), Sample.db)
  /\ (forall ordered,
        Permutation (Event.events (Demo.found_page 1 10)) ordered ->
        StronglySorted (nearer_then_earlier Sample.distance Sample.center)
          ordered ->
        ordered = Event.events (Demo.found_page 1 10))
  /\ Event.events (Demo.found_page 2 1)
     = firstn (Z.to_nat 1)
         (skipn (Z.to_nat ((2 - 1) * 1)) (Event.events (Demo.found_page 1 10))).
Proof.
  assert (H1 : Event.searchByLocation Sample.distance
                 (search_page Sample.search 1 10) Sample.db
               = (Db.Ok (Demo.found_page 1 10), Sample.db))
    by (vm_compute; reflexivity).
  assert (H2 : Z.of_nat (List.length (Event.events (Demo.found_page 1 10)))
               < 10) by (vm_compute; reflexivity).
  assert (Ht : no_ties Sample.distance Sample.center
                 (Event.events (Demo.found_page 1 10))).
  { intros a b Ha Hb. vm_compute in Ha, Hb.
    destruct Ha as [<-|[<-|[]]], Hb as [<-|[<-|[]]]; intros Hd Hs;
      try reflexivity; vm_compute in Hd; discriminate. }
  assert (H3 : Event.searchByLocation Sample.distance
                 (search_page Sample.search 2 1) Sample.db
               = (Db.Ok (Demo.found_page 2 1), Sample.db))
    by (vm_compute; reflexivity).
  split; [exact H1|]. split; [exact H2|]. split; [exact Ht|].
  split; [exact H3|].
  exact (search_pages_tile_the_result _ _ _ _ _ _ _ _ _ _ H1 H2 Ht H3).
Defined.

Lemma search_with_bad_paging_is_a_server_error_witness :
  SearchRoutes.location_checks Demo.page_minus_one = []
  /\ (Js.parseInt_or (Query.page Demo.page_minus_one) 1 - 1)
     * Js.parseInt_or (Query.limit Demo.page_minus_one) 10 < 0
  /\ SearchController.route Sample.distance Sample.no_env Demo.page_minus_one
       None Sample.db
     = (failure 500 "serverError" [], Sample.db).
Proof.
  assert (H1 : SearchRoutes.location_checks Demo.page_minus_one = [])
    by (vm_compute; reflexivity).
  assert (H2 : (Js.parseInt_or (Query.page Demo.page_minus_one) 1 - 1)
               * Js.parseInt_or (Query.limit Demo.page_minus_one) 10 < 0)
    by (vm_compute; reflexivity).
  split; [exact H1|]. split; [exact H2|].
  exact (search_with_bad_paging_is_a_server_error Sample.distance
           Sample.no_env Demo.page_minus_one None Sample.db H1 (or_introl H2)).
Defined.

Lemma validated_coordinates_are_the_center_witness :
  Validators.locationSearchValidation Sample.downtown = []
  /\ exists lat lon,
      SearchService.center Sample.no_env Sample.downtown None = (lat, lon)
      /\ SearchController.center Sample.no_env (Sample.request Sample.downtown)
         = (lat, lon).
Proof.
  assert (H : Validators.locationSearchValidation Sample.downtown = [])
    by (vm_compute; reflexivity).
  split; [exact H|].
  destruct (validated_coordinates_are_the_center Sample.no_env Sample.downtown
              None (Sample.request Sample.downtown) "37.7749" "-122.4194"
              H eq_refl eq_refl eq_refl)
    as (lat & lon & _ & _ & _ & _ & _ & Hs & Hc).
  exists lat, lon. split; [exact Hs|exact Hc].
Defined.

Lemma sample_not_the_creator :
  forall r, In r (Db.events Sample.db) -> Events.id r = 1 ->
            Events.creator_id r <> Some 8.
Proof. intros r [<-|[<-|[<-|[]]]] _; discriminate. Qed.

Lemma only_the_creator_updates_or_deletes_witness :
  (forall r, In r (Db.events Sample.db) -> Events.id r = 1 ->
             Events.creator_id r <> Some 8)
  /\ (exists err,
         EventService.updateEvent 1 Sample.to_equator 8 Sample.db
         = (inl err, Sample.db)
         /\ ErrorHandler.statusCode err = 403)
  /\ (exists err,
         EventLifecycle.deleteEvent 1 8 Sample.db = (inl err, Sample.db)
         /\ ErrorHandler.statusCode err = 403).
Proof.
  split; [exact sample_not_the_creator|].
  exact (only_the_creator_updates_or_deletes 1 8 Sample.to_equator Sample.db
           sample_not_the_creator).
Defined.

Lemma createEvent_checks_categories_and_sets_the_creator_witness :
  events_below_seq Sample.db
  /\ forallb (Event.exists_category Sample.db)
       (Event.default (Event.categories (Demo.concert [1; 99])) []) = false
  /\ EventLifecycle.createEvent (Demo.concert [1; 99]) 7 Sample.db
     = (inl (ErrorHandler.createError "categoryNotFound" 400), Sample.db).
Proof.
  split; [exact sample_events_below_seq|]. split; [reflexivity|].
  exact (proj1 (createEvent_checks_categories_and_sets_the_creator
                  (Demo.concert [1; 99]) 7 Sample.db sample_events_below_seq)
           eq_refl).
Defined.

Lemma deleteEvent_by_the_creator_witness :
  fst (Event.getById 1 Sample.db)
  = Db.Ok (Some (Event.of_row Sample.db None
                   (Sample.event_row 1 Sample.place1 100)))
  /\ fst (EventLifecycle.deleteEvent 1 7 Sample.db) = inr true
  /\ fst (Event.getById 1 (snd (EventLifecycle.deleteEvent 1 7 Sample.db)))
     = Db.Ok None.
Proof.
  assert (H : fst (Event.getById 1 Sample.db)
              = Db.Ok (Some (Event.of_row Sample.db None
                               (Sample.event_row 1 Sample.place1 100))))
    by (vm_compute; reflexivity).
  split; [exact H|].
  exact (deleteEvent_by_the_creator 1 7 Sample.db _ H eq_refl).
Defined.

Lemma user_update_keeps_identity_and_other_users_witness :
  fst (User.update 8 Demo.rename_to_alice Demo.db)
  = Db.Raise Db.unique_violation
  /\ snd (User.update 8 Demo.rename_to_alice Demo.db) = Demo.db.
Proof.
  assert (H : fst (User.update 8 Demo.rename_to_alice Demo.db)
              = Db.Raise Db.unique_violation) by (vm_compute; reflexivity).
  split; [exact H|].
  exact (proj2 (proj2 (user_update_keeps_identity_and_other_users 8
                         Demo.rename_to_alice Demo.db)) _ H).
Defined.

Lemma user_create_then_findById_witness :
  users_below_seq Sample.db
  /\ User.create Sample.newcomer Sample.db
     = (Db.Ok (Demo.returned
                 (User.of_row false false Sample.alice)
                 (User.create Sample.newcomer Sample.db)),
        snd (User.create Sample.newcomer Sample.db))
  /\ User.id (Demo.returned (User.of_row false false Sample.alice)
                (User.create Sample.newcomer Sample.db)) = 8.
Proof.
  assert (H : User.create Sample.newcomer Sample.db
              = (Db.Ok (Demo.returned
                          (User.of_row false false Sample.alice)
                          (User.create Sample.newcomer Sample.db)),
                 snd (User.create Sample.newcomer Sample.db)))
    by (vm_compute; reflexivity).
  split; [exact sample_users_below_seq|]. split; [exact H|].
  exact (proj1 (user_create_then_findById _ _ _ _ sample_users_below_seq H)).
Defined.

Lemma updateProfile_rejects_a_taken_username_witness :
  User.username Demo.rename_to_alice = Some "alice"
  /\ In Demo.bob (Db.users Demo.db)
  /\ In Sample.alice (Db.users Demo.db)
  /\ exists err,
      UserService.updateProfile 8 Demo.rename_to_alice Demo.db
      = (inl err, Demo.db)
      /\ ErrorHandler.statusCode err = 400.
Proof.
  assert (Hbob : In Demo.bob (Db.users Demo.db)) by (right; left; reflexivity).
  assert (Halice : In Sample.alice (Db.users Demo.db))
    by (left; reflexivity).
  assert (Hne : Users.id Sample.alice <> 8) by discriminate.
  split; [reflexivity|]. split; [exact Hbob|]. split; [exact Halice|].
  exact (updateProfile_rejects_a_taken_username 8 Demo.rename_to_alice
           Demo.db "alice" Demo.bob Sample.alice eq_refl eq_refl Hbob eq_refl
           Halice Hne eq_refl).
Defined.

Lemma updatePreferredCategories_replaces_the_set_witness :
  User.preferences_distinct (Db.user_preferred_categories Demo.db) = true
  /\ NoDup [2; 1]
  /\ exists categories db',
      UserService.updatePreferredCategories 7 (Some [2; 1]) Demo.db
      = (inr categories, db')
      /\ preferences_of db' 7 = [2; 1]
      /\ filter (fun r => negb (UserPreferredCategories.user_id r =? 7))
           (Db.user_preferred_categories db')
         = filter (fun r => negb (UserPreferredCategories.user_id r =? 7))
             (Db.user_preferred_categories Demo.db).
Proof.
  assert (Hnd : NoDup [2; 1]).
  { constructor; [intros [H|[]]; discriminate|].
    constructor; [intros []|constructor]. }
  split; [reflexivity|]. split; [exact Hnd|].
  exact (proj2 (updatePreferredCategories_replaces_the_set 7 [2; 1] Demo.db
                  eq_refl) eq_refl Hnd eq_refl).
Defined.

Lemma failed_replacement_loses_the_preferences_witness :
  preferences_of Demo.db 7 = [1]
  /\ fst (UserService.updatePreferredCategories 7 (Some [2; 2]) Demo.db)
     = inl (ErrorHandler.createError "alreadyExists" 400)
  /\ preferences_of
       (snd (UserService.updatePreferredCategories 7 (Some [2; 2]) Demo.db)) 7
     = [].
Proof.
  assert (H : fst (UserService.updatePreferredCategories 7 (Some [2; 2])
                     Demo.db)
              = inl (ErrorHandler.createError "alreadyExists" 400))
    by (vm_compute; reflexivity).
  split; [reflexivity|]. split; [exact H|].
  exact (failed_replacement_loses_the_preferences 7 (Some [2; 2]) Demo.db _
           eq_refl H).
Defined.

Lemma getUserFavorites_lists_the_marked_events_witness :
  Favorites.getUserFavorites 7 None None Sample.db
  = (Db.Ok Demo.favorites, Sample.db)
  /\ favorited Sample.db 7 1 = true
  /\ exists x, In x (Favorites.events Demo.favorites)
               /\ Event.id (Favorites.favorite_event x) = 1.
Proof.
  assert (H : Favorites.getUserFavorites 7 None None Sample.db
              = (Db.Ok Demo.favorites, Sample.db))
    by (vm_compute; reflexivity).
  assert (Hshort : Z.of_nat (List.length (Favorites.events Demo.favorites))
                   < Event.default None 10) by (vm_compute; reflexivity).
  split; [exact H|]. split; [reflexivity|].
  exact (proj2 (proj2 (proj2
           (getUserFavorites_lists_the_marked_events 7 None None Sample.db
              Sample.db Demo.favorites H))) eq_refl Hshort 1 eq_refl eq_refl).
Defined.

Lemma reviews_and_favorites_need_the_event_witness :
  Event.exists_event Sample.db 9 = false
  /\ EventLifecycle.addReview 9 7 5 (Some "Great") Sample.db
     = (inl (ErrorHandler.createError "notFound" 404), Sample.db)
  /\ UserService.favoriteEvent 7 9 Sample.db
     = (inl (ErrorHandler.createError "notFound" 404), Sample.db).
Proof.
  split; [reflexivity|].
  exact (proj1 (reviews_and_favorites_need_the_event 9 7 5 (Some "Great")
                  Sample.db) eq_refl).
Defined.

Lemma demo_server_well_formed : Server.well_formed Demo.server.
Proof. apply serve_well_formed, well_formed_start. Qed.

Lemma register_then_login_witness :
  Server.status (fst (Server.register 40 Demo.dave Demo.server)) = 201
  /\ (forall u, In u (Server.users Demo.server) ->
                Some (Server.User.email u)
                <> Server.Register.username Demo.dave)
  /\ Server.status
       (fst (Server.login 50
               {| Server.Login.usernameOrEmail := Some "dave";
                  Server.Login.password := Some "pa55" |}
               (snd (Server.register 40 Demo.dave Demo.server)))) = 200
  /\ Server.status
       (fst (Server.login 50
               {| Server.Login.usernameOrEmail := Some "dave";
                  Server.Login.password := Some "guess" |}
               (snd (Server.register 40 Demo.dave Demo.server)))) = 401.
Proof.
  assert (H201 : Server.status (fst (Server.register 40 Demo.dave Demo.server))
                 = 201) by (vm_compute; reflexivity).
  assert (Hemail : forall u, In u (Server.users Demo.server) ->
                     Some (Server.User.email u)
                     <> Server.Register.username Demo.dave).
  { intros u [<-|[]]. discriminate. }
  assert (Hother : Some "guess" <> Server.Register.password Demo.dave)
    by discriminate.
  split; [exact H201|]. split; [exact Hemail|].
  pose proof (register_then_login 40 50 Demo.dave Demo.server
                (snd (Server.register 40 Demo.dave Demo.server))
                (fst (Server.register 40 Demo.dave Demo.server))
                (surjective_pairing _) H201 Hemail) as [Hok Hbad].
  split.
  - destruct Hok as (token & profile & E & _). 
    exact (f_equal (fun r => Server.status (fst r)) E).
  - exact (f_equal (fun r => Server.status (fst r))
             (Hbad "guess" eq_refl Hother)).
Defined.

Lemma posted_event_can_be_read_witness :
  Server.well_formed Demo.server
  /\ Server.status
       (fst (Server.createEvent 40 (Demo.posting "Third" 1 2) Demo.server))
     = 201
  /\ exists event,
      Server.Event.id event = 3
      /\ Server.getEvent "3"
           (snd (Server.createEvent 40 (Demo.posting "Third" 1 2)
                   Demo.server))
         = ({| Server.status := 200;
               Server.body := Server.event_json event |},
            snd (Server.createEvent 40 (Demo.posting "Third" 1 2)
                   Demo.server)).
Proof.
  assert (H201 : Server.status
                   (fst (Server.createEvent 40 (Demo.posting "Third" 1 2)
                           Demo.server)) = 201) by (vm_compute; reflexivity).
  split; [exact demo_server_well_formed|]. split; [exact H201|].
  destruct (posted_event_can_be_read 40 (Demo.posting "Third" 1 2)
              Demo.server _ _ demo_server_well_formed
              (surjective_pairing _) H201)
    as (event & _ & _ & Hid & _ & _ & _ & _ & _ & _ & _ & Hget).
  exists event. split; [exact Hid|].
  apply Hget. rewrite Hid. reflexivity.
Defined.

Lemma deleted_event_is_gone_witness :
  Server.well_formed Demo.server
  /\ Server.status (fst (Server.deleteEvent "1" Demo.server)) = 200
  /\ Server.status
       (fst (Server.getEvent "1" (snd (Server.deleteEvent "1" Demo.server))))
     = 404.
Proof.
  assert (H200 : Server.status (fst (Server.deleteEvent "1" Demo.server))
                 = 200) by (vm_compute; reflexivity).
  split; [exact demo_server_well_formed|]. split; [exact H200|].
  destruct (proj1 (deleted_event_is_gone "1" Demo.server _ _
                     demo_server_well_formed (surjective_pairing _)) H200)
    as (deleted & _ & _ & _ & _ & _ & Hget).
  exact (f_equal (fun r => Server.status (fst r)) Hget).
Defined.

Lemma search_results_are_near_and_sorted_witness :
  Server.status (fst (Server.searchByLocation Demo.Math Demo.nearby
                        Demo.server)) = 200
  /\ exists found,
      Server.body (fst (Server.searchByLocation Demo.Math Demo.nearby
                          Demo.server))
      = Server.events_json (Z.of_nat (List.length found)) found
      /\ StronglySorted Server.not_farther found.
Proof.
  assert (H200 : Server.status
                   (fst (Server.searchByLocation Demo.Math Demo.nearby
                           Demo.server)) = 200) by (vm_compute; reflexivity).
  split; [exact H200|].
  destruct (search_results_are_near_and_sorted Demo.Math Demo.nearby
              Demo.server _ _ (surjective_pairing _) H200)
    as (found & Hr & _ & Hsorted & _).
  exists found. split; [|exact Hsorted].
  exact (f_equal Server.body Hr).
Defined.

Lemma put_keeps_identity_and_other_events_witness :
  find (fun e => Server.id_is "7" (Server.Event.id e))
    (Server.events Demo.server) = None
  /\ Server.updateEvent 40 "7" (Demo.posting "Moved" 0 5) Demo.server
     = ({| Server.status := 404;
           Server.body := Server.message "Event not found" |}, Demo.server)
  /\ map Server.Event.coordinates
       (Server.events
          (snd (Server.updateEvent 40 "1" (Demo.posting "Moved" 0 5)
                  Demo.server)))
     = map Server.Event.coordinates (Server.events Demo.server).
Proof.
  split; [reflexivity|].
  split; [exact (proj1 (proj2 (proj2 (put_keeps_identity_and_other_events 40
                                        "7" (Demo.posting "Moved" 0 5)
                                        Demo.server))) eq_refl)|].
  exact (proj2 (proj2 (proj2 (proj2 (put_keeps_identity_and_other_events 40
                                       "1" (Demo.posting "Moved" 0 5)
                                       Demo.server)))) eq_refl).
Defined.
